(** * ERPNext knowledge graph builder: a shallow embedding

    The development follows [src/integrations/knowledge_graph_builder.py]
    (class [ERPNextKnowledgeGraph]) together with the parts of networkx's
    [MultiDiGraph] and of [ERPNextConnector] the class relies on.

    Layout:
    - Python values, insertion-ordered dictionaries, exceptions;
    - the multigraph store ([add_node], [add_edge], degree, centrality);
    - the connector and the clock, as the builder sees them;
    - the builder's methods, one definition per method;
    - the vocabulary of the statements and the example worlds;
    - lemmas and the theorems about the builder. *)

From Stdlib Require Import String Ascii List ZArith QArith Bool Arith Lia.
From Stdlib Require Import DecimalString.
Import ListNotations.

Local Open Scope string_scope.
Local Open Scope list_scope.
Local Open Scope nat_scope.

(* ================================================================== *)
(** ** Python values *)
(* ================================================================== *)

(** The values that reach the builder are decoded JSON: [None], booleans,
    integers, strings, lists and string-keyed dictionaries.  Non-integer
    numbers are left out of the model. *)
#[warnings="-register-all"]
Inductive value : Type :=
| VNone
| VBool (b : bool)
| VInt (z : Z)
| VStr (s : string)
| VList (l : list value)
| VDict (d : list (string * value)).

(** [bool(v)] / the truth test of [if v]. *)
Definition truthy (v : value) : bool :=
  match v with
  | VNone => false
  | VBool b => b
  | VInt z => negb (z =? 0)%Z
  | VStr s => negb (String.eqb s "")
  | VList l => match l with [] => false | _ => true end
  | VDict d => match d with [] => false | _ => true end
  end.

(** Lists and dictionaries are unhashable: using one as a dictionary key or
    testing it with [in] against a dictionary raises [TypeError]. *)
Definition hashable (v : value) : bool :=
  match v with
  | VList _ | VDict _ => false
  | _ => true
  end.

(** [a == b] on hashable values, as dictionary lookup applies it
    ([True == 1] and [False == 0] hold in Python). *)
Definition key_eqb (a b : value) : bool :=
  match a, b with
  | VNone, VNone => true
  | VBool x, VBool y => Bool.eqb x y
  | VInt x, VInt y => (x =? y)%Z
  | VBool x, VInt y => (Z.b2z x =? y)%Z
  | VInt x, VBool y => (x =? Z.b2z y)%Z
  | VStr s, VStr t => String.eqb s t
  | _, _ => false
  end.

(** [v == 'literal'] *)
Definition eq_str (v : value) (lit : string) : bool :=
  match v with
  | VStr s => String.eqb s lit
  | _ => false
  end.

(** [isinstance(v, str)] *)
Definition is_str (v : value) : bool :=
  match v with VStr _ => true | _ => false end.

(** [isinstance(v, dict)] *)
Definition is_dict (v : value) : bool :=
  match v with VDict _ => true | _ => false end.

(** Decimal rendering of an integer, as [str] prints it. *)
Definition str_of_Z (z : Z) : string := NilZero.string_of_int (Z.to_int z).

(** [str(v)], as the f-strings of the builder apply it.  The text Python
    prints for a list or a dictionary is not needed by any method below and
    is supplied by [repr_container]. *)
Definition py_str (repr_container : value -> string) (v : value) : string :=
  match v with
  | VNone => "None"
  | VBool true => "True"
  | VBool false => "False"
  | VInt z => str_of_Z z
  | VStr s => s
  | _ => repr_container v
  end.

(* ================================================================== *)
(** ** Insertion-ordered dictionaries *)
(* ================================================================== *)

(** A Python [dict] keeps its keys in insertion order; assigning to a key
    that is present replaces the value in place and keeps the stored key. *)
Section Dict.
Context {K V : Type}.
Variable eqb : K -> K -> bool.

Fixpoint dict_get (d : list (K * V)) (k : K) : option V :=
  match d with
  | [] => None
  | (k0, v0) :: r => if eqb k0 k then Some v0 else dict_get r k
  end.

Definition dict_mem (d : list (K * V)) (k : K) : bool :=
  match dict_get d k with Some _ => true | None => false end.

Fixpoint dict_set (d : list (K * V)) (k : K) (v : V) : list (K * V) :=
  match d with
  | [] => [(k, v)]
  | (k0, v0) :: r =>
      if eqb k0 k then (k0, v) :: r else (k0, v0) :: dict_set r k v
  end.

(** [d.update(e)] *)
Definition dict_update (d e : list (K * V)) : list (K * V) :=
  fold_left (fun acc kv => dict_set acc (fst kv) (snd kv)) e d.

(** [del d[k]] / building a dictionary without one key *)
Definition dict_remove (d : list (K * V)) (k : K) : list (K * V) :=
  filter (fun kv => negb (eqb (fst kv) k)) d.
End Dict.

(** Attribute dictionaries: string keys. *)
Definition attrs : Type := list (string * value).

Definition attr_get (d : attrs) (k : string) : option value :=
  dict_get String.eqb d k.

Definition attr_mem (d : attrs) (k : string) : bool :=
  dict_mem String.eqb d k.

Definition attr_set (d : attrs) (k : string) (v : value) : attrs :=
  dict_set String.eqb d k v.

Definition attr_update (d e : attrs) : attrs := dict_update String.eqb d e.

(** [d.get(k)] with the default [None], and [d.get(k, default)]. *)
Definition py_get (d : attrs) (k : string) : value :=
  match attr_get d k with Some v => v | None => VNone end.

Definition py_get_default (d : attrs) (k : string) (dflt : value) : value :=
  match attr_get d k with Some v => v | None => dflt end.

(* ================================================================== *)
(** ** Exceptions and stateful computations *)
(* ================================================================== *)

Inductive exn : Type :=
| TypeError (msg : string)
| ValueError (msg : string)
| AttributeError (msg : string).

Inductive outcome (A : Type) : Type :=
| Ret (a : A)
| Raise (e : exn).
Arguments Ret {A} a.
Arguments Raise {A} e.

(** A computation over a mutable state [S]: it returns or raises, and in
    both cases leaves the state as mutated so far (a Python exception does
    not undo earlier mutations). *)
Definition M (S A : Type) : Type := S -> outcome A * S.

Definition ret {S A} (a : A) : M S A := fun s => (Ret a, s).

Definition raise {S A} (e : exn) : M S A := fun s => (Raise e, s).

Definition bind {S A B} (m : M S A) (f : A -> M S B) : M S B :=
  fun s =>
    match m s with
    | (Ret a, s') => f a s'
    | (Raise e, s') => (Raise e, s')
    end.

(** [try: m except Exception as e: h e] *)
Definition try_except {S A} (m : M S A) (h : exn -> M S A) : M S A :=
  fun s =>
    match m s with
    | (Ret a, s') => (Ret a, s')
    | (Raise e, s') => h e s'
    end.

Definition get_state {S} : M S S := fun s => (Ret s, s).

Definition modify {S} (f : S -> S) : M S unit := fun s => (Ret tt, f s).

(** A pure expression that may raise. *)
Definition lift_outcome {S A} (o : outcome A) : M S A := fun s => (o, s).

Declare Scope py_scope.
Delimit Scope py_scope with py.
Notation "x <- m ;; k" := (bind m (fun x => k))
  (at level 100, m at next level, right associativity) : py_scope.
Notation "m ;;; k" := (bind m (fun _ => k))
  (at level 100, right associativity) : py_scope.

(** [for x in l: body x] *)
Fixpoint for_each {S X} (l : list X) (body : X -> M S unit) : M S unit :=
  match l with
  | [] => ret tt
  | x :: r => bind (body x) (fun _ => for_each r body)
  end.

(** [len(v)] *)
Definition py_len (v : value) : outcome nat :=
  match v with
  | VStr s => Ret (String.length s)
  | VList l => Ret (List.length l)
  | VDict d => Ret (List.length d)
  | _ => Raise (TypeError "object has no len()")
  end.

(** The items [for x in v] visits: the elements of a list, the characters of
    a string, the keys of a dictionary; anything else is not iterable. *)
Definition py_iter (v : value) : outcome (list value) :=
  match v with
  | VList l => Ret l
  | VStr s => Ret (map (fun c => VStr (String c "")) (list_ascii_of_string s))
  | VDict d => Ret (map (fun kv => VStr (fst kv)) d)
  | _ => Raise (TypeError "object is not iterable")
  end.

(* ================================================================== *)
(** ** The graph store: networkx's MultiDiGraph *)
(* ================================================================== *)

(** networkx keeps, per node, an attribute dictionary ([_node]) and a
    successor dictionary ([_succ]): target -> edge key -> edge data.  Both
    are created together when a node first appears, so one ordered
    dictionary from node to the pair carries them.  [_pred] is the transpose
    of [_succ] and shares its key dictionaries; predecessors are read off
    [_succ] here. *)
Definition keydict : Type := list (value * attrs).

Record node_entry : Type := {
  attr : attrs;
  succ : list (value * keydict)
}.

Definition MultiDiGraph : Type := list (value * node_entry).

Definition node_get (g : MultiDiGraph) (n : value) : option node_entry :=
  dict_get key_eqb g n.

(** [n in G._succ] for a hashable [n] *)
Definition node_mem (g : MultiDiGraph) (n : value) : bool :=
  dict_mem key_eqb g n.

(** [G.has_node(n)]: [n in self._node], and [False] on [TypeError]. *)
Definition has_node (g : MultiDiGraph) (n : value) : bool :=
  hashable n && node_mem g n.

(** [G.number_of_nodes()] *)
Definition number_of_nodes (g : MultiDiGraph) : nat := List.length g.

(** [G.edges(keys=True, data=True)]: nodes in insertion order, for each its
    successors in insertion order, for each the parallel edges by key. *)
Definition edges_from (u : value) (e : node_entry)
  : list (value * value * value * attrs) :=
  flat_map (fun vk => map (fun kd => (u, fst vk, fst kd, snd kd)) (snd vk))
           (succ e).

Definition edges (g : MultiDiGraph) : list (value * value * value * attrs) :=
  flat_map (fun ne => edges_from (fst ne) (snd ne)) g.

(** [G.number_of_edges()]: every parallel edge counts. *)
Definition number_of_edges (g : MultiDiGraph) : nat := List.length (edges g).

(** [G.add_node(n, **attr)] *)
Definition nx_add_node (n : value) (a : attrs) : M MultiDiGraph unit :=
  fun g =>
    if negb (hashable n) then (Raise (TypeError "unhashable type"), g)
    else
      match node_get g n with
      | None =>
          match n with
          | VNone => (Raise (ValueError "None cannot be a node"), g)
          | _ => (Ret tt, g ++ [(n, {| attr := attr_update [] a; succ := [] |})])
          end
      | Some e =>
          (Ret tt, dict_set key_eqb g n
                     {| attr := attr_update (attr e) a; succ := succ e |})
      end.

(** The first half of [add_edge], once per endpoint: create the node with
    empty attributes when it is not there yet. *)
Definition ensure_node (n : value) : M MultiDiGraph unit :=
  fun g =>
    if negb (hashable n) then (Raise (TypeError "unhashable type"), g)
    else if node_mem g n then (Ret tt, g)
    else
      match n with
      | VNone => (Raise (ValueError "None cannot be a node"), g)
      | _ => (Ret tt, g ++ [(n, {| attr := []; succ := [] |})])
      end.

(** [while key in keydict: key += 1], started at [len(keydict)].  At most
    [len(keydict)] of the candidates are taken, which bounds the loop. *)
Fixpoint first_free_key (fuel : nat) (kd : keydict) (key : nat) : nat :=
  match fuel with
  | O => key
  | S fuel' =>
      if dict_mem key_eqb kd (VInt (Z.of_nat key))
      then first_free_key fuel' kd (S key)
      else key
  end.

(** [G.new_edge_key(u, v)] *)
Definition new_edge_key (g : MultiDiGraph) (u v : value) : value :=
  match node_get g u with
  | None => VInt 0
  | Some e =>
      match dict_get key_eqb (succ e) v with
      | None => VInt 0
      | Some kd =>
          VInt (Z.of_nat (first_free_key (S (List.length kd)) kd (List.length kd)))
      end
  end.

(** The second half of [add_edge]: store the data under [(u, v, key)],
    merging into the data already there when the key exists. *)
Definition put_edge (u v key : value) (a : attrs) (g : MultiDiGraph)
  : MultiDiGraph :=
  match node_get g u with
  | None => g
  | Some e =>
      let kd' :=
        match dict_get key_eqb (succ e) v with
        | Some kd =>
            let datadict :=
              match dict_get key_eqb kd key with
              | Some d => d
              | None => []
              end in
            dict_set key_eqb kd key (attr_update datadict a)
        | None => [(key, attr_update [] a)]
        end in
      dict_set key_eqb g u
        {| attr := attr e; succ := dict_set key_eqb (succ e) v kd' |}
  end.

(** [G.add_edge(u, v, key=key, **attr)]; returns the key used.  A key that
    is left out or is [None] stands for a new one. *)
Definition nx_add_edge (u v : value) (key : option value) (a : attrs)
  : M MultiDiGraph value :=
  (ensure_node u ;;;
   ensure_node v ;;;
   g <- get_state ;;
   let k := match key with
            | None | Some VNone => new_edge_key g u v
            | Some k => k
            end in
   if negb (hashable k) then raise (TypeError "unhashable type")
   else (modify (put_edge u v k a) ;;; ret k))%py.

(** [G.out_degree(n)] and [G.in_degree(n)] of the multigraph: the number of
    entries of all key dictionaries leaving, respectively entering, [n]. *)
Definition sum_lengths (l : list (value * keydict)) : nat :=
  fold_right (fun vk acc => List.length (snd vk) + acc) 0 l.

Definition out_degree (g : MultiDiGraph) (n : value) : nat :=
  match node_get g n with
  | Some e => sum_lengths (succ e)
  | None => 0
  end.

Definition in_degree (g : MultiDiGraph) (n : value) : nat :=
  fold_right
    (fun ue acc =>
       match dict_get key_eqb (succ (snd ue)) n with
       | Some kd => List.length kd + acc
       | None => acc
       end) 0 g.

(** [G.degree()] of a MultiDiGraph: in-degree plus out-degree. *)
Definition degree (g : MultiDiGraph) (n : value) : nat :=
  out_degree g n + in_degree g n.

(** [nx.degree_centrality(G)].  The source computes [d * (1.0 / (len(G) -
    1.0))] in floating point; the model keeps the exact rational. *)
Definition degree_centrality (g : MultiDiGraph) : list (value * Q) :=
  if List.length g <=? 1 then map (fun ne => (fst ne, 1%Q)) g
  else
    let s := (1 / (inject_Z (Z.of_nat (List.length g)) - 1))%Q in
    map (fun ne => (fst ne, (inject_Z (Z.of_nat (degree g (fst ne))) * s)%Q)) g.

(** [sorted(items, key=lambda x: x[1], reverse=True)]: a stable sort, so
    items with equal scores keep their relative order. *)
Fixpoint insert_desc (x : value * Q) (l : list (value * Q)) : list (value * Q) :=
  match l with
  | [] => [x]
  | y :: r =>
      if Qle_bool (snd y) (snd x) then x :: y :: r
      else y :: insert_desc x r
  end.

Definition sorted_desc (l : list (value * Q)) : list (value * Q) :=
  fold_right insert_desc [] l.

(* ================================================================== *)
(** ** The clock *)
(* ================================================================== *)

Record datetime : Type := {
  year : nat; month : nat; day : nat;
  hour : nat; minute : nat; second : nat;
  microsecond : nat
}.

(** A number in decimal, zero-padded on the left to [width] digits. *)
Definition zfill (width n : nat) : string :=
  let digits := NilZero.string_of_uint (Nat.to_uint n) in
  String.concat "" (repeat "0" (width - String.length digits)) ++ digits.

(** [dt.strftime('%Y%m%d_%H%M%S')] *)
Definition strftime_stamp (dt : datetime) : string :=
  zfill 4 (year dt) ++ zfill 2 (month dt) ++ zfill 2 (day dt) ++ "_" ++
  zfill 2 (hour dt) ++ zfill 2 (minute dt) ++ zfill 2 (second dt).

(** [dt.isoformat()]: the fraction is printed only when it is not zero. *)
Definition isoformat (dt : datetime) : string :=
  zfill 4 (year dt) ++ "-" ++ zfill 2 (month dt) ++ "-" ++ zfill 2 (day dt) ++
  "T" ++ zfill 2 (hour dt) ++ ":" ++ zfill 2 (minute dt) ++ ":" ++
  zfill 2 (second dt) ++
  (if microsecond dt =? 0 then "" else "." ++ zfill 6 (microsecond dt)).

(* ================================================================== *)
(** ** The connector and the rest of the outside world *)
(* ================================================================== *)

(** [ERPNextConnector], as the builder calls it.  Each method catches its
    own exceptions and falls back to an empty answer, so none of them
    raises; what the server answers is not under the builder's control and
    is left open.  Within one operation of the builder the server is taken
    to give the same answer to the same request.
    - [test_connection]: the ['connected'] entry of the status it returns;
    - [get_doctypes]: the list under ['data'], empty on failure;
    - [get_doctype_schema]: the dictionary under ['data'], empty on failure;
    - [get_sample_documents]: the list of records, empty on failure. *)
Record ERPNextConnector : Type := {
  test_connection : bool;
  get_doctypes : list value;
  get_doctype_schema : value -> attrs;
  get_sample_documents : string -> Z -> list attrs
}.

(** A file is named by its directory and its name in it. *)
Definition Path : Type := (string * string)%type.
Definition files : Type := list (Path * string).

(** What lies outside the class: the connector, the readings of
    [datetime.now()] (the n-th call reads [now n]), the text of [str()] on
    containers, and the three serializers the export hands the graph to
    ([nx.write_graphml], [nx.node_link_data] followed by [json.dump], and
    [nx.write_gexf]), each acting on the file store and possibly raising. *)
Record World : Type := {
  erpnext : ERPNextConnector;
  now : nat -> datetime;
  repr_container : value -> string;
  write_graphml : MultiDiGraph -> Path -> M files unit;
  dump_node_link_json : MultiDiGraph -> Path -> M files unit;
  write_gexf : MultiDiGraph -> Path -> M files unit
}.

(* ================================================================== *)
(** ** The builder *)
(* ================================================================== *)

(** The mutable state of an [ERPNextKnowledgeGraph]: the graph, the output
    directory with the files written so far, and the number of clock
    readings taken. *)
Record Builder : Type := {
  graph : MultiDiGraph;
  output_dir : string;
  written : files;
  clock : nat
}.

Definition with_graph (b : Builder) (g : MultiDiGraph) : Builder :=
  {| graph := g; output_dir := output_dir b; written := written b;
     clock := clock b |}.

Definition with_written (b : Builder) (f : files) : Builder :=
  {| graph := graph b; output_dir := output_dir b; written := f;
     clock := clock b |}.

(** [ERPNextKnowledgeGraph(output_dir)]: an empty [nx.MultiDiGraph()]. *)
Definition init_builder (dir : string) : Builder :=
  {| graph := []; output_dir := dir; written := []; clock := 0 |}.

(** Run a graph operation on [self.graph]. *)
Definition on_graph {A} (m : M MultiDiGraph A) : M Builder A :=
  fun b => let (o, g) := m (graph b) in (o, with_graph b g).

(** Run a serializer on the files of the output directory. *)
Definition on_files {A} (m : M files A) : M Builder A :=
  fun b => let (o, f) := m (written b) in (o, with_written b f).

(** [datetime.now()] *)
Definition datetime_now (w : World) : M Builder datetime :=
  fun b =>
    (Ret (now w (clock b)),
     {| graph := graph b; output_dir := output_dir b; written := written b;
        clock := S (clock b) |}).

(** [self.known_relationships] *)
Definition known_relationships : list (value * list value) :=
  [ (VStr "Customer",
     [VStr "Sales Order"; VStr "Sales Invoice"; VStr "Quotation";
      VStr "Opportunity"]);
    (VStr "Supplier",
     [VStr "Purchase Order"; VStr "Purchase Invoice";
      VStr "Request for Quotation"]);
    (VStr "Item",
     [VStr "Sales Order Item"; VStr "Purchase Order Item"; VStr "Stock Entry"]);
    (VStr "Project", [VStr "Task"; VStr "Timesheet"; VStr "Project Update"]);
    (VStr "Employee",
     [VStr "Task"; VStr "Timesheet"; VStr "Leave Application";
      VStr "Expense Claim"]);
    (VStr "Sales Order",
     [VStr "Sales Invoice"; VStr "Delivery Note"; VStr "Sales Order Item"]);
    (VStr "Purchase Order",
     [VStr "Purchase Invoice"; VStr "Purchase Receipt";
      VStr "Purchase Order Item"]) ].

(** *** discover_doctype_relationships *)

Record Relationships : Type := {
  links_to : list value;
  linked_from : list value;
  child_tables : list value
}.

Definition no_relationships : Relationships :=
  {| links_to := []; linked_from := []; child_tables := [] |}.

Definition append_links_to (l : list value) (r : Relationships) : Relationships :=
  {| links_to := links_to r ++ l; linked_from := linked_from r;
     child_tables := child_tables r |}.

Definition append_child_tables (l : list value) (r : Relationships)
  : Relationships :=
  {| links_to := links_to r; linked_from := linked_from r;
     child_tables := child_tables r ++ l |}.

(** The body of [for field in fields]. *)
Definition scan_field (field : value) : M Relationships unit :=
  match field with
  | VDict f =>
      let field_type := py_get f "fieldtype" in
      if eq_str field_type "Link" && truthy (py_get f "options") then
        modify (append_links_to [py_get f "options"])
      else if eq_str field_type "Table" && truthy (py_get f "options") then
        modify (append_child_tables [py_get f "options"])
      else ret tt
  | _ => raise (AttributeError "object has no attribute 'get'")
  end.

(** [doctype in self.known_relationships] followed by the lookup. *)
Definition known_for (doctype : value) : outcome (option (list value)) :=
  if negb (hashable doctype) then Raise (TypeError "unhashable type")
  else Ret (dict_get key_eqb known_relationships doctype).

(** The [try] block; the dictionary [relationships] is the state. *)
Definition discover_try (w : World) (doctype : value) : M Relationships unit :=
  let schema := get_doctype_schema (erpnext w) doctype in
  if negb (truthy (VDict schema)) then ret tt
  else
    (fields <- lift_outcome
                 (py_iter (py_get_default schema "fields" (VList []))) ;;
     for_each fields scan_field ;;;
     known <- lift_outcome (known_for doctype) ;;
     match known with
     | Some l => modify (append_links_to l)
     | None => ret tt
     end)%py.

Definition discover_doctype_relationships (w : World) (doctype : value)
  : Relationships :=
  snd (try_except (discover_try w doctype) (fun _ => ret tt) no_relationships).

(** *** add_doctype_node *)

(** The parameters [add_node(self, node_for_adding, **attr)] has bound
    already when the keyword arguments are looked at. *)
Definition add_node_clash (kwargs : attrs) : bool :=
  attr_mem kwargs "self" || attr_mem kwargs "node_for_adding".

(** [self.graph.add_node(n, **metadata)]: a key of [metadata] that names a
    parameter bound by position is a [TypeError] at the call. *)
Definition call_add_node (n : value) (kwargs : attrs) : M Builder unit :=
  if add_node_clash kwargs
  then raise (TypeError "got multiple values for argument")
  else on_graph (nx_add_node n kwargs).

Definition schema_metadata (schema : attrs) (field_count : nat) : attrs :=
  [ ("node_type", VStr "doctype");
    ("module", py_get_default schema "module" (VStr "Unknown"));
    ("is_custom", py_get_default schema "custom" (VInt 0));
    ("is_virtual", py_get_default schema "is_virtual" (VInt 0));
    ("field_count", VInt (Z.of_nat field_count));
    ("has_web_view",
     VBool (truthy (py_get_default schema "has_web_view" (VInt 0))));
    ("is_submittable",
     VBool (truthy (py_get_default schema "is_submittable" (VInt 0)))) ].

(** The attributes the node is added with: [metadata], updated from the
    schema when there is one. *)
Definition doctype_metadata (w : World) (doctype : value) (metadata : option attrs)
  : outcome attrs :=
  let metadata := match metadata with Some m => m | None => [] end in
  let schema := get_doctype_schema (erpnext w) doctype in
  if truthy (VDict schema) then
    match py_len (py_get_default schema "fields" (VList [])) with
    | Ret n => Ret (attr_update metadata (schema_metadata schema n))
    | Raise e => Raise e
    end
  else Ret metadata.

Definition add_doctype_node (w : World) (doctype : value)
  (metadata : option attrs) : M Builder unit :=
  (m <- lift_outcome (doctype_metadata w doctype metadata) ;;
   call_add_node doctype m)%py.

(** *** add_document_node *)

(** [for field in ['customer', ...]: if doc_data.get(field):
    metadata[field] = str(doc_data[field])] *)
Definition business_fields : list string :=
  ["customer"; "supplier"; "company"; "item_code"; "project"].

Definition copy_business_fields (w : World) (doc_data metadata : attrs) : attrs :=
  fold_left
    (fun m field =>
       if truthy (py_get doc_data field)
       then attr_set m field (VStr (py_str (repr_container w) (py_get doc_data field)))
       else m)
    business_fields metadata.

Definition document_metadata (w : World) (doctype : string) (doc_name : value)
  (doc_data : attrs) : attrs :=
  copy_business_fields w doc_data
    [ ("node_type", VStr "document");
      ("doctype", VStr doctype);
      ("name", doc_name);
      ("status", py_get_default doc_data "status" (VStr "Unknown"));
      ("docstatus", py_get_default doc_data "docstatus" (VInt 0));
      ("creation", py_get_default doc_data "creation" (VStr ""));
      ("modified", py_get_default doc_data "modified" (VStr "")) ].

(** [f"{doctype}::{doc_name}"] *)
Definition document_node_id (w : World) (doctype : string) (doc_name : value)
  : string :=
  doctype ++ "::" ++ py_str (repr_container w) doc_name.

Definition add_document_node (w : World) (doctype : string) (doc_name : value)
  (doc_data : attrs) : M Builder string :=
  let node_id := document_node_id w doctype doc_name in
  (on_graph (nx_add_node (VStr node_id)
               (document_metadata w doctype doc_name doc_data)) ;;;
   on_graph (nx_add_edge (VStr node_id) (VStr doctype) None
               [("relationship", VStr "instance_of")]) ;;;
   ret node_id)%py.

(** *** add_relationship_edge *)

(** The parameters [add_edge(self, u_for_edge, v_for_edge, key=None,
    **attr)] has bound already when the keyword arguments are looked at. *)
Definition add_edge_clash (kwargs : attrs) : bool :=
  attr_mem kwargs "self" || attr_mem kwargs "u_for_edge"
  || attr_mem kwargs "v_for_edge".

(** [self.graph.add_edge(u, v, **metadata)]: the entries of [metadata] are
    passed as keyword arguments, so an entry named [key] is taken as the
    edge key, and one named after a parameter bound by position is a
    [TypeError] at the call; the others become edge attributes. *)
Definition call_add_edge (u v : value) (kwargs : attrs) : M Builder unit :=
  if add_edge_clash kwargs
  then raise (TypeError "got multiple values for argument")
  else
    (on_graph (nx_add_edge u v (attr_get kwargs "key")
                 (dict_remove String.eqb kwargs "key")) ;;;
     ret tt)%py.

Definition add_relationship_edge (w : World) (from_node to_node : value)
  (relationship_type : string) (metadata : option attrs) : M Builder unit :=
  let metadata := match metadata with Some m => m | None => [] end in
  let metadata := attr_set metadata "relationship_type" (VStr relationship_type) in
  (t <- datetime_now w ;;
   let metadata := attr_set metadata "created_at" (VStr (isoformat t)) in
   call_add_edge from_node to_node metadata)%py.

(** *** build_doctype_schema_graph *)

(** An entry of an [errors] list.  The source formats each as a sentence
    around [str(e)]; the model keeps the item and the exception. *)
Inductive error_entry : Type :=
| ErrorAddingDocType (doctype : value) (e : exn)
| ErrorAddingRelationships (doctype : value) (e : exn)
| ErrorAddingDocument (name : value) (e : exn)
| ErrorFindingRelationships (node_id : string) (e : exn).

(** The value of a result's ['error'] entry. *)
Inductive error_indicator : Type :=
| CouldNotConnect
| NoDocTypesFound
| NoDocumentsFound (doctype : string)
| StrOfException (e : exn).

(** [str(e)] for an exception raised with one message. *)
Definition exn_message (e : exn) : string :=
  match e with
  | TypeError msg | ValueError msg | AttributeError msg => msg
  end.

(** The text stored under ['error']. *)
Definition error_message (i : error_indicator) : string :=
  match i with
  | CouldNotConnect => "Could not connect to ERPNext"
  | NoDocTypesFound => "No DocTypes found"
  | NoDocumentsFound doctype => "No documents found for " ++ doctype
  | StrOfException e => exn_message e
  end.

Record SchemaResults : Type := {
  doctypes_processed : nat;
  schema_relationships_found : nat;
  schema_errors : list error_entry;
  schema_error : option error_indicator
}.

Definition new_schema_results : SchemaResults :=
  {| doctypes_processed := 0; schema_relationships_found := 0;
     schema_errors := []; schema_error := None |}.

Definition schema_set_error (i : error_indicator) (r : SchemaResults)
  : SchemaResults :=
  {| doctypes_processed := doctypes_processed r;
     schema_relationships_found := schema_relationships_found r;
     schema_errors := schema_errors r; schema_error := Some i |}.

Definition schema_count_doctype (r : SchemaResults) : SchemaResults :=
  {| doctypes_processed := doctypes_processed r + 1;
     schema_relationships_found := schema_relationships_found r;
     schema_errors := schema_errors r; schema_error := schema_error r |}.

Definition schema_count_relationship (r : SchemaResults) : SchemaResults :=
  {| doctypes_processed := doctypes_processed r;
     schema_relationships_found := schema_relationships_found r + 1;
     schema_errors := schema_errors r; schema_error := schema_error r |}.

Definition schema_append_error (e : error_entry) (r : SchemaResults)
  : SchemaResults :=
  {| doctypes_processed := doctypes_processed r;
     schema_relationships_found := schema_relationships_found r;
     schema_errors := schema_errors r ++ [e]; schema_error := schema_error r |}.

(** A build mutates the builder and its [results] dictionary together. *)
Definition on_builder {R A} (m : M Builder A) : M (Builder * R) A :=
  fun s => let (o, b) := m (fst s) in (o, (b, snd s)).

Definition on_results {R} (f : R -> R) : M (Builder * R) unit :=
  fun s => (Ret tt, (fst s, f (snd s))).

(** [doctype_info.get('name') if isinstance(doctype_info, dict) else
    doctype_info] *)
Definition doctype_name (doctype_info : value) : value :=
  match doctype_info with
  | VDict d => py_get d "name"
  | _ => doctype_info
  end.

(** First loop: one node per listed type. *)
Definition add_doctype_nodes (w : World) (doctypes : list value)
  : M (Builder * SchemaResults) unit :=
  for_each doctypes (fun doctype_info =>
    let doctype := doctype_name doctype_info in
    try_except
      (on_builder (add_doctype_node w doctype None) ;;;
       on_results schema_count_doctype)%py
      (fun e => on_results (schema_append_error (ErrorAddingDocType doctype e)))).

(** [for t in targets: if self.graph.has_node(t): add the edge, count it] *)
Definition add_edges_to_known (w : World) (doctype : value) (kind : string)
  (targets : list value) : M (Builder * SchemaResults) unit :=
  for_each targets (fun target =>
    (s <- get_state ;;
     if has_node (graph (fst s)) target then
       (on_builder (add_relationship_edge w doctype target kind None) ;;;
        on_results schema_count_relationship)
     else ret tt)%py).

(** Second loop: the edges between the listed types. *)
Definition add_doctype_relationships (w : World) (doctypes : list value)
  : M (Builder * SchemaResults) unit :=
  for_each doctypes (fun doctype_info =>
    let doctype := doctype_name doctype_info in
    try_except
      (let relationships := discover_doctype_relationships w doctype in
       add_edges_to_known w doctype "links_to" (links_to relationships) ;;;
       add_edges_to_known w doctype "has_child_table" (child_tables relationships))%py
      (fun e =>
         on_results (schema_append_error (ErrorAddingRelationships doctype e)))).

(** Run a build body from fresh results and hand the results back. *)
Definition with_results {R} (r0 : R) (m : M (Builder * R) unit) : M Builder R :=
  fun b =>
    match m (b, r0) with
    | (Ret _, (b', r)) => (Ret r, b')
    | (Raise e, (b', _)) => (Raise e, b')
    end.

Definition build_doctype_schema_graph (w : World) : M Builder SchemaResults :=
  if negb (test_connection (erpnext w)) then
    ret (schema_set_error CouldNotConnect new_schema_results)
  else
    let doctypes := get_doctypes (erpnext w) in
    match doctypes with
    | [] => ret (schema_set_error NoDocTypesFound new_schema_results)
    | _ =>
        with_results new_schema_results
          (add_doctype_nodes w doctypes ;;;
           add_doctype_relationships w doctypes)%py
    end.

(** *** build_document_relationship_graph *)

(** The results dictionary together with the local list [document_nodes]. *)
Record DocumentResults : Type := {
  results_doctype : string;
  documents_processed : nat;
  document_relationships_found : nat;
  document_errors : list error_entry;
  document_error : option error_indicator;
  document_nodes : list (string * attrs)
}.

Definition new_document_results (doctype : string) : DocumentResults :=
  {| results_doctype := doctype; documents_processed := 0;
     document_relationships_found := 0; document_errors := [];
     document_error := None; document_nodes := [] |}.

Definition document_set_error (i : error_indicator) (r : DocumentResults)
  : DocumentResults :=
  {| results_doctype := results_doctype r;
     documents_processed := documents_processed r;
     document_relationships_found := document_relationships_found r;
     document_errors := document_errors r; document_error := Some i;
     document_nodes := document_nodes r |}.

Definition document_count_node (node : string * attrs) (r : DocumentResults)
  : DocumentResults :=
  {| results_doctype := results_doctype r;
     documents_processed := documents_processed r + 1;
     document_relationships_found := document_relationships_found r;
     document_errors := document_errors r; document_error := document_error r;
     document_nodes := document_nodes r ++ [node] |}.

Definition document_count_relationship (r : DocumentResults) : DocumentResults :=
  {| results_doctype := results_doctype r;
     documents_processed := documents_processed r;
     document_relationships_found := document_relationships_found r + 1;
     document_errors := document_errors r; document_error := document_error r;
     document_nodes := document_nodes r |}.

Definition document_append_error (e : error_entry) (r : DocumentResults)
  : DocumentResults :=
  {| results_doctype := results_doctype r;
     documents_processed := documents_processed r;
     document_relationships_found := document_relationships_found r;
     document_errors := document_errors r ++ [e];
     document_error := document_error r;
     document_nodes := document_nodes r |}.

(** First loop: one node per record that has a usable name. *)
Definition add_document_nodes (w : World) (doctype : string)
  (documents : list attrs) : M (Builder * DocumentResults) unit :=
  for_each documents (fun doc =>
    try_except
      (let doc_name := py_get doc "name" in
       if truthy doc_name then
         (node_id <- on_builder (add_document_node w doctype doc_name doc) ;;
          on_results (document_count_node (node_id, doc)))
       else ret tt)%py
      (fun e =>
         on_results (document_append_error
           (ErrorAddingDocument (py_get_default doc "name" (VStr "")) e)))).

(** [for other_node_id, other_doc in document_nodes: ...] for one field
    whose value is the non-empty string [field_value]; [==] against a string
    holds for an equal string only. *)
Definition link_field_to_others (w : World) (nodes : list (string * attrs))
  (node_id field_name field_value : string) : M (Builder * DocumentResults) unit :=
  for_each nodes (fun other =>
    let '(other_node_id, other_doc) := other in
    if negb (String.eqb other_node_id node_id)
       && eq_str (py_get other_doc "name") field_value then
      (on_builder (add_relationship_edge w (VStr node_id) (VStr other_node_id)
                     ("references_" ++ field_name) None) ;;;
       on_results document_count_relationship)%py
    else ret tt).

(** [for field_name, field_value in doc.items(): if field_value and
    isinstance(field_value, str): ...] *)
Definition link_document (w : World) (nodes : list (string * attrs))
  (node_id : string) (doc : attrs) : M (Builder * DocumentResults) unit :=
  for_each doc (fun item =>
    let '(field_name, field_value) := item in
    match field_value with
    | VStr s =>
        if truthy field_value then link_field_to_others w nodes node_id field_name s
        else ret tt
    | _ => ret tt
    end).

(** Second loop: the reference edges between the sampled records. *)
Definition add_document_references (w : World) (nodes : list (string * attrs))
  : M (Builder * DocumentResults) unit :=
  for_each nodes (fun node =>
    let '(node_id, doc) := node in
    try_except (link_document w nodes node_id doc)
      (fun e =>
         on_results (document_append_error (ErrorFindingRelationships node_id e)))).

Definition build_document_relationship_graph (w : World) (doctype : string)
  (limit : Z) : M Builder DocumentResults :=
  with_results (new_document_results doctype)
    (try_except
       (let documents := get_sample_documents (erpnext w) doctype limit in
        match documents with
        | [] => on_results (document_set_error (NoDocumentsFound doctype))
        | _ =>
            (add_document_nodes w doctype documents ;;;
             s <- get_state ;;
             add_document_references w (document_nodes (snd s)))%py
        end)
       (fun e => on_results (document_set_error (StrOfException e)))).

(** *** export_graph *)

Definition export_filename (timestamp format : string) : string :=
  "erpnext_knowledge_graph_" ++ timestamp ++ "." ++ format.

Definition export_graph (w : World) (format : string) : M Builder Path :=
  (t <- datetime_now w ;;
   let timestamp := strftime_stamp t in
   let filename := export_filename timestamp format in
   b <- get_state ;;
   let filepath := (output_dir b, filename) in
   try_except
     ((if String.eqb format "graphml" then
         on_files (write_graphml w (graph b) filepath)
       else if String.eqb format "json" then
         on_files (dump_node_link_json w (graph b) filepath)
       else if String.eqb format "gexf" then
         on_files (write_gexf w (graph b) filepath)
       else raise (ValueError ("Unsupported format: " ++ format))) ;;;
      ret filepath)
     (fun e => raise e))%py.

(** *** get_graph_statistics *)

(** [h[tag] = h.get(tag, 0) + 1] for each tag in turn. *)
Fixpoint count_tags (tags : list value) (h : list (value * nat))
  : outcome (list (value * nat)) :=
  match tags with
  | [] => Ret h
  | t :: r =>
      if negb (hashable t) then Raise (TypeError "unhashable type")
      else
        let n := match dict_get key_eqb h t with Some n => n | None => 0 end in
        count_tags r (dict_set key_eqb h t (n + 1))
  end.

Definition node_type_tags (g : MultiDiGraph) : list value :=
  map (fun ne => py_get_default (attr (snd ne)) "node_type" (VStr "unknown")) g.

Definition relationship_type_tags (g : MultiDiGraph) : list value :=
  map (fun e => py_get_default (snd e) "relationship_type" (VStr "unknown"))
      (edges g).

Definition node_types_histogram (g : MultiDiGraph) : outcome (list (value * nat)) :=
  count_tags (node_type_tags g) [].

Definition relationship_types_histogram (g : MultiDiGraph)
  : outcome (list (value * nat)) :=
  count_tags (relationship_type_tags g) [].

Record Statistics : Type := {
  stat_nodes : nat;
  stat_edges : nat;
  node_types : list (value * nat);
  relationship_types : list (value * nat);
  most_connected_nodes : list (value * Q)
}.

Definition get_graph_statistics (g : MultiDiGraph) : outcome Statistics :=
  match node_types_histogram g with
  | Raise e => Raise e
  | Ret nt =>
      match relationship_types_histogram g with
      | Raise e => Raise e
      | Ret rt =>
          Ret {| stat_nodes := number_of_nodes g;
                 stat_edges := number_of_edges g;
                 node_types := nt;
                 relationship_types := rt;
                 most_connected_nodes :=
                   firstn 10 (sorted_desc (degree_centrality g)) |}
      end
  end.

(** *** build_complete_knowledge_graph *)

Record CompleteResults : Type := {
  schema_graph : SchemaResults;
  document_graphs : list (string * DocumentResults);
  export_paths : list Path;
  statistics : Statistics
}.

Definition key_doctypes : list string :=
  ["Customer"; "Item"; "Sales Order"; "Purchase Order"; "Project"].

(** [for x in l: acc.append(f x)] *)
Fixpoint collect {S X Y} (l : list X) (f : X -> M S Y) : M S (list Y) :=
  match l with
  | [] => ret []
  | x :: r => (y <- f x ;; ys <- collect r f ;; ret (y :: ys))%py
  end.

(** The export step: a failure stops the loop and keeps the paths so far. *)
Fixpoint export_all (w : World) (formats : list string) (acc : list Path)
  : M Builder (list Path) :=
  match formats with
  | [] => ret acc
  | fmt :: r =>
      bind
        (try_except (bind (export_graph w fmt) (fun p => ret (Some p)))
                    (fun _ => ret None))
        (fun o => match o with
                  | Some p => export_all w r (acc ++ [p])
                  | None => ret acc
                  end)
  end.

Definition build_complete_knowledge_graph (w : World) : M Builder CompleteResults :=
  (sg <- build_doctype_schema_graph w ;;
   dgs <- collect key_doctypes
            (fun doctype =>
               r <- build_document_relationship_graph w doctype 10 ;;
               ret (doctype, r)) ;;
   paths <- export_all w ["json"; "graphml"] [] ;;
   b <- get_state ;;
   st <- lift_outcome (get_graph_statistics (graph b)) ;;
   ret {| schema_graph := sg; document_graphs := dgs; export_paths := paths;
          statistics := st |})%py.

(* ================================================================== *)
(** ** Vocabulary of the statements *)
(* ================================================================== *)

(** The numeric reading of a key: [True] and [1] are the same key. *)
Definition key_number (k : value) : option Z :=
  match k with
  | VInt z => Some z
  | VBool b => Some (Z.b2z b)
  | _ => None
  end.

(** The cells whose key is a number at or above [n]. *)
Definition keys_from (kd : keydict) (n : nat) : list (value * attrs) :=
  filter (fun c => match key_number (fst c) with
                   | Some z => (Z.of_nat n <=? z)%Z
                   | None => false
                   end) kd.

Definition edges_of_succ (u : value) (s : list (value * keydict))
  : list (value * value * value * attrs) :=
  flat_map (fun vk => map (fun kd => (u, fst vk, fst kd, snd kd)) (snd vk)) s.

(** A node identifier [add_node] and [add_edge] accept: hashable, and not
    [None] unless it is (abnormally) present already. *)
Definition endpoint_ok (g : MultiDiGraph) (n : value) : bool :=
  hashable n && (node_mem g n || negb (key_eqb n VNone)).

Definition edge_data (e : value * value * value * attrs) : attrs := snd e.
Definition edge_source (e : value * value * value * attrs) : value :=
  fst (fst (fst e)).
Definition edge_target (e : value * value * value * attrs) : value :=
  snd (fst (fst e)).

(** The parameter names of [add_edge]: a metadata entry under one of them
    does not become an edge attribute. *)
Definition reserved_free (metadata : option attrs) : bool :=
  let m := match metadata with Some m => m | None => [] end in
  negb (attr_mem m "key") && negb (attr_mem m "self")
  && negb (attr_mem m "u_for_edge") && negb (attr_mem m "v_for_edge").

(** The keyword arguments [add_relationship_edge] passes on. *)
Definition edge_kwargs (w : World) (b : Builder) (relationship_type : string)
  (metadata : option attrs) : attrs :=
  attr_set
    (attr_set (match metadata with Some m => m | None => [] end)
       "relationship_type" (VStr relationship_type))
    "created_at" (VStr (isoformat (now w (clock b)))).

Definition tick (b : Builder) : Builder :=
  {| graph := graph b; output_dir := output_dir b; written := written b;
     clock := S (clock b) |}.

(** A call of [add_relationship_edge]: source, target, kind, metadata. *)
Definition edge_call : Type := (value * value * string * option attrs)%type.

Definition add_relationship_edges (w : World) (calls : list edge_call)
  : M Builder unit :=
  for_each calls (fun c =>
    let '(u, v, kind, md) := c in add_relationship_edge w u v kind md).




(** A world for examples: no schema, no records, a fixed clock, serializers
    that write a placeholder. *)
Definition example_time : datetime :=
  {| year := 2025; month := 1; day := 2; hour := 3; minute := 4; second := 5;
     microsecond := 0 |}.

Definition offline_connector : ERPNextConnector :=
  {| test_connection := false;
     get_doctypes := [];
     get_doctype_schema := fun _ => [];
     get_sample_documents := fun _ _ => [] |}.

Definition world_of (c : ERPNextConnector) : World :=
  {| erpnext := c;
     now := fun _ => example_time;
     repr_container := fun _ => "";
     write_graphml := fun _ p fs => (Ret tt, fs ++ [(p, "graphml")]);
     dump_node_link_json := fun _ p fs => (Ret tt, fs ++ [(p, "json")]);
     write_gexf := fun _ p fs => (Ret tt, fs ++ [(p, "gexf")]) |}.

Definition offline_world : World := world_of offline_connector.

(** A builder whose graph holds the two bare nodes [A] and [B]. *)
Definition two_nodes : Builder :=
  {| graph := [ (VStr "A", {| attr := []; succ := [] |});
                (VStr "B", {| attr := []; succ := [] |}) ];
     output_dir := "out"; written := []; clock := 0 |}.

(** Twice the same triple, and no metadata. *)
Definition repeated_calls : list edge_call :=
  [ (VStr "A", VStr "B", "links_to", None);
    (VStr "A", VStr "B", "links_to", None) ].


(** [isinstance(v, list)] *)
Definition is_list (v : value) : bool :=
  match v with VList _ => true | _ => false end.

(** A server that is reachable and lists no type. *)
Definition empty_connector : ERPNextConnector :=
  {| test_connection := true;
     get_doctypes := [];
     get_doctype_schema := fun _ => [];
     get_sample_documents := fun _ _ => [] |}.


(** The path an export started in state [b] writes to. *)
Definition export_path (w : World) (b : Builder) (format : string) : Path :=
  (output_dir b, export_filename (strftime_stamp (now w (clock b))) format).

(** A server that is reachable and lists [Customer], but sends no schema. *)
Definition schemaless_connector : ERPNextConnector :=
  {| test_connection := true;
     get_doctypes := [VDict [("name", VStr "Customer")]];
     get_doctype_schema := fun _ => [];
     get_sample_documents := fun _ _ => [] |}.

(** Every key occurs once, as in any Python dictionary. *)
Fixpoint unique_keys {V : Type} (d : list (value * V)) : bool :=
  match d with
  | [] => true
  | (k, _) :: r => negb (dict_mem key_eqb r k) && unique_keys r
  end.

(** A graph as networkx holds it: node keys and, per node, successor keys
    occur once. *)
Definition well_formed (g : MultiDiGraph) : bool :=
  unique_keys g && forallb (fun ne => unique_keys (succ (snd ne))) g.

(** The edges leaving and entering [n], parallel edges included. *)
Definition edges_out (g : MultiDiGraph) (n : value) : nat :=
  List.length (filter (fun e => key_eqb (edge_source e) n) (edges g)).

Definition edges_in (g : MultiDiGraph) (n : value) : nat :=
  List.length (filter (fun e => key_eqb (edge_target e) n) (edges g)).




(** The centrality as a count of edges, scaled. *)
Definition edge_count_centrality (g : MultiDiGraph) (n : value) : Q :=
  (inject_Z (Z.of_nat (edges_in g n + edges_out g n))
   / (inject_Z (Z.of_nat (number_of_nodes g)) - 1))%Q.

(** Two parallel edges from [A] to [B]. *)
Definition parallel_graph : MultiDiGraph :=
  graph (snd (add_relationship_edges offline_world repeated_calls two_nodes)).

(** [m] keeps [P] true of the graph seen through [view], whether it returns
    or raises. *)
Definition preserves {S : Type} (view : S -> MultiDiGraph)
  (P : MultiDiGraph -> Prop) {A : Type} (m : M S A) : Prop :=
  forall s, P (view s) -> P (view (snd (m s))).

(** The graph of a build in progress. *)
Definition build_graph {R : Type} (s : Builder * R) : MultiDiGraph :=
  graph (fst s).

(** Every key occurs once, as in any Python dictionary. *)
Fixpoint attrs_unique (d : attrs) : bool :=
  match d with
  | [] => true
  | (k, _) :: r => negb (attr_mem r k) && attrs_unique r
  end.







(** [stats.get(t, 0)] *)
Definition lookup (h : list (value * nat)) (t : value) : nat :=
  match dict_get key_eqb h t with Some n => n | None => 0 end.

(** How many of the tags equal [t]. *)
Definition tally (tags : list value) (t : value) : nat :=
  List.length (filter (fun x => key_eqb x t) tags).

(** The operations a caller has to change the graph, and [export_graph]. *)
Inductive op : Type :=
| AddDoctypeNode (doctype : value) (metadata : option attrs)
| AddDocumentNode (doctype : string) (doc_name : value) (doc_data : attrs)
| AddRelationshipEdge (from_node to_node : value) (relationship_type : string)
    (metadata : option attrs)
| BuildDoctypeSchemaGraph
| BuildDocumentRelationshipGraph (doctype : string) (limit : Z)
| ExportGraph (format : string)
| BuildCompleteKnowledgeGraph.

(** The builder after one operation; an exception leaves it as mutated so
    far, and the caller goes on. *)
Definition run_op (w : World) (o : op) (b : Builder) : Builder :=
  match o with
  | AddDoctypeNode doctype metadata =>
      snd (add_doctype_node w doctype metadata b)
  | AddDocumentNode doctype doc_name doc_data =>
      snd (add_document_node w doctype doc_name doc_data b)
  | AddRelationshipEdge u v kind metadata =>
      snd (add_relationship_edge w u v kind metadata b)
  | BuildDoctypeSchemaGraph => snd (build_doctype_schema_graph w b)
  | BuildDocumentRelationshipGraph doctype limit =>
      snd (build_document_relationship_graph w doctype limit b)
  | ExportGraph format => snd (export_graph w format b)
  | BuildCompleteKnowledgeGraph => snd (build_complete_knowledge_graph w b)
  end.

(** A sequence of operations, each against the world of its moment. *)
Definition run (trace : list (World * op)) (b : Builder) : Builder :=
  fold_left (fun b wo => run_op (fst wo) (snd wo) b) trace b.




(** The resolver finds nothing to link for [d]. *)
Definition discovers_nothing (w : World) (d : value) : Prop :=
  links_to (discover_doctype_relationships w d) = [] /\
  child_tables (discover_doctype_relationships w d) = [].

(** Why the edge pass cannot create the node [d]: it is a node already, or
    it can never be one, or the resolver has nothing to link it to. *)
Definition source_safe (w : World) (g : MultiDiGraph) (d : value) : Prop :=
  has_node g d = true \/ hashable d = false \/ d = VNone
  \/ discovers_nothing w d.

(** An edge the edge pass may add, given the graph [g1] the node pass left:
    both ends are nodes of [g1] and the kind is one of the two schema kinds. *)
Definition schema_edge (g1 : MultiDiGraph) (e : value * value * value * attrs)
  : Prop :=
  has_node g1 (edge_source e) = true /\
  has_node g1 (edge_target e) = true /\
  (attr_get (edge_data e) "relationship_type" = Some (VStr "links_to") \/
   attr_get (edge_data e) "relationship_type" = Some (VStr "has_child_table")).

(** The state of the graph during the edge pass: the nodes of [g1], and its
    edges plus schema edges. *)
Definition edge_pass_inv (g1 g : MultiDiGraph) : Prop :=
  map fst g = map fst g1 /\
  forall e, In e (edges g) -> In e (edges g1) \/ schema_edge g1 e.

(** A server with two types, [Sales Order] linking to [Customer] and to a
    type that is not listed. *)
Definition selling_connector : ERPNextConnector :=
  {| test_connection := true;
     get_doctypes := [VDict [("name", VStr "Customer")]; VStr "Sales Order"];
     get_doctype_schema := fun d =>
       if key_eqb d (VStr "Sales Order")
       then [("fields",
              VList [VDict [("fieldtype", VStr "Link");
                            ("options", VStr "Customer")];
                     VDict [("fieldtype", VStr "Table");
                            ("options", VStr "Sales Taxes")]]);
             ("module", VStr "Selling")]
       else [];
     get_sample_documents := fun _ _ =>
       [ [("name", VStr "A"); ("customer", VStr "B")];
         [("name", VStr "B")] ] |}.

Definition selling_world : World := world_of selling_connector.

(** A record the first loop turns into a node: its name is usable. *)
Definition sampled (doc : attrs) : bool := truthy (py_get doc "name").

(** The entry of [document_nodes] for a record. *)
Definition document_entry (w : World) (doctype : string) (doc : attrs)
  : string * attrs :=
  (document_node_id w doctype (py_get doc "name"), doc).

(** The graph holds an edge from [a] to [b] of the given kind. *)
Definition has_edge_of_kind (a b kind : string) (g : MultiDiGraph) : Prop :=
  exists key data,
    In (VStr a, VStr b, key, data) (edges g) /\
    attr_get data "relationship_type" = Some (VStr kind).

(** The body of the innermost loop. *)
Definition link_to_other (w : World) (node_id field_name field_value : string)
  (other : string * attrs) : M (Builder * DocumentResults) unit :=
  let '(other_node_id, other_doc) := other in
  if negb (String.eqb other_node_id node_id)
     && eq_str (py_get other_doc "name") field_value then
    (on_builder (add_relationship_edge w (VStr node_id) (VStr other_node_id)
                   ("references_" ++ field_name) None) ;;;
     on_results document_count_relationship)%py
  else ret tt.

(** The graph of a build in progress holds an edge from [a] to [b] of the
    given kind. *)
Definition build_has_edge (a b kind : string) (st : Builder * DocumentResults)
  : Prop :=
  has_edge_of_kind a b kind (graph (fst st)).

(** The body of the loop over the fields of one record. *)
Definition link_field (w : World) (nodes : list (string * attrs))
  (node_id : string) (item : string * value) : M (Builder * DocumentResults) unit :=
  let '(field_name, field_value) := item in
  match field_value with
  | VStr s =>
      if truthy field_value then link_field_to_others w nodes node_id field_name s
      else ret tt
  | _ => ret tt
  end.

(** The body of the loop over the sampled records. *)
Definition link_node (w : World) (nodes : list (string * attrs))
  (node : string * attrs) : M (Builder * DocumentResults) unit :=
  let '(node_id, doc) := node in
  try_except (link_document w nodes node_id doc)
    (fun e =>
       on_results (document_append_error (ErrorFindingRelationships node_id e))).

(** Two records that do not mention each other. *)
Definition unrelated_connector : ERPNextConnector :=
  {| test_connection := true;
     get_doctypes := [VStr "Item"];
     get_doctype_schema := fun _ => [];
     get_sample_documents := fun _ _ =>
       [ [("name", VStr "A"); ("status", VStr "Open")];
         [("name", VStr "B"); ("status", VStr "Open")] ] |}.

(** Two records with the same name are one node to the second loop: no edge
    is drawn between them. *)
Definition duplicate_connector : ERPNextConnector :=
  {| test_connection := true;
     get_doctypes := [VStr "Item"];
     get_doctype_schema := fun _ => [];
     get_sample_documents := fun _ _ =>
       [ [("name", VStr "X"); ("parent_item", VStr "X")];
         [("name", VStr "X")] ] |}.

Definition is_well_formed (g : MultiDiGraph) : Prop := well_formed g = true.

(** *** Vocabulary of the further properties *)

(** What one field of a schema contributes to [links_to] and to
    [child_tables]. *)
Definition link_target (field : value) : list value :=
  match field with
  | VDict f =>
      if eq_str (py_get f "fieldtype") "Link" && truthy (py_get f "options")
      then [py_get f "options"] else []
  | _ => []
  end.

Definition table_target (field : value) : list value :=
  match field with
  | VDict f =>
      if eq_str (py_get f "fieldtype") "Link" && truthy (py_get f "options")
      then []
      else if eq_str (py_get f "fieldtype") "Table" && truthy (py_get f "options")
      then [py_get f "options"] else []
  | _ => []
  end.

(** The entry of the static table for a type, empty when it has none. *)
Definition known_targets (doctype : value) : list value :=
  match dict_get key_eqb known_relationships doctype with
  | Some l => l
  | None => []
  end.

(** The schema of a type as the server sends it now. *)
Definition schema_of (w : World) (doctype : value) : attrs :=
  get_doctype_schema (erpnext w) doctype.

(** A server that describes [Sales Order] with a field list that breaks off
    in a malformed entry. *)
Definition broken_connector : ERPNextConnector :=
  {| test_connection := true;
     get_doctypes := [VStr "Sales Order"];
     get_doctype_schema := fun _ =>
       [("fields",
         VList [VDict [("fieldtype", VStr "Link"); ("options", VStr "Customer")];
                VStr "oops";
                VDict [("fieldtype", VStr "Table");
                       ("options", VStr "Sales Taxes")]])];
     get_sample_documents := fun _ _ => [] |}.
(** The metadata a caller passed, [{}] standing for [None]. *)
Definition given (metadata : option attrs) : attrs :=
  match metadata with Some m => m | None => [] end.

(** The entry of a node, a missing node reading as a bare one. *)
Definition entry_of (g : MultiDiGraph) (n : value) : node_entry :=
  match node_get g n with
  | Some e => e
  | None => {| attr := []; succ := [] |}
  end.

(** A server whose schema for every type carries a module and two fields. *)
Definition described_connector : ERPNextConnector :=
  {| test_connection := true;
     get_doctypes := [VStr "Customer"];
     get_doctype_schema := fun _ =>
       [("module", VStr "Selling");
        ("fields", VList [VDict [("fieldtype", VStr "Data")];
                          VDict [("fieldtype", VStr "Link");
                                 ("options", VStr "Territory")]]);
        ("is_submittable", VInt 1)];
     get_sample_documents := fun _ _ => [] |}.

(** A node with no attribute and no edge, as [add_edge] creates one. *)
Definition bare_node : node_entry := {| attr := []; succ := [] |}.

(** The graph with the node [n] added bare unless it is there. *)
Definition with_node (g : MultiDiGraph) (n : value) : MultiDiGraph :=
  if node_mem g n then g else g ++ [(n, bare_node)].

(** How many edges lead from [u] to [v], parallel edges included. *)
Definition parallel_edges (g : MultiDiGraph) (u v : value) : nat :=
  List.length
    (filter (fun e => key_eqb (edge_source e) u && key_eqb (edge_target e) v)
       (edges g)).

(** The same record added again and again, each time with other data. *)
Definition upserts (w : World) (doctype : string) (doc_name : value)
  (data : list attrs) (b : Builder) : Builder :=
  fold_left (fun b doc_data =>
               snd (add_document_node w doctype doc_name doc_data b)) data b.

(** The attributes of a node, none for a missing one. *)
Definition node_attrs (g : MultiDiGraph) (n : value) : attrs :=
  attr (entry_of g n).

(** [m] keeps the property [P] of the whole state, whether it returns or
    raises. *)
Definition keeps {S A : Type} (P : S -> Prop) (m : M S A) : Prop :=
  forall s, P s -> P (snd (m s)).

(** The books of an instance-level build balance during the reference
    pass: counting from [c] edges, every relationship found is an edge of
    the graph, and nothing else has changed in the results or around the
    graph since the pass began. *)
Definition references_balance (c : nat) (b0 : Builder) (r0 : DocumentResults)
  (s : Builder * DocumentResults) : Prop :=
  number_of_edges (graph (fst s)) = c + document_relationships_found (snd s) /\
  documents_processed (snd s) = documents_processed r0 /\
  document_errors (snd s) = document_errors r0 /\
  document_error (snd s) = document_error r0 /\
  results_doctype (snd s) = results_doctype r0 /\
  document_nodes (snd s) = document_nodes r0 /\
  output_dir (fst s) = output_dir b0 /\
  written (fst s) = written b0.

(** An [errors] entry of the node pass of the type-level build. *)
Definition is_node_error (e : error_entry) : bool :=
  match e with ErrorAddingDocType _ _ => true | _ => false end.

(** The books of the type-level build during the node pass: no edge is
    added, and each type processed accounts for at most one new node. *)
Definition nodes_balance (b0 : Builder) (s : Builder * SchemaResults) : Prop :=
  number_of_nodes (graph (fst s))
  <= number_of_nodes (graph b0) + doctypes_processed (snd s) /\
  edges (graph (fst s)) = edges (graph b0) /\
  schema_relationships_found (snd s) = 0 /\
  schema_error (snd s) = None /\
  output_dir (fst s) = output_dir b0 /\
  written (fst s) = written b0 /\
  clock (fst s) = clock b0.

(** The books of the type-level build during the edge pass: counting from
    [c] edges, every relationship found is an edge of the graph. *)
Definition edges_balance (c : nat) (b0 : Builder) (r0 : SchemaResults)
  (s : Builder * SchemaResults) : Prop :=
  number_of_edges (graph (fst s)) = c + schema_relationships_found (snd s) /\
  doctypes_processed (snd s) = doctypes_processed r0 /\
  filter is_node_error (schema_errors (snd s))
  = filter is_node_error (schema_errors r0) /\
  schema_error (snd s) = schema_error r0 /\
  output_dir (fst s) = output_dir b0 /\
  written (fst s) = written b0.

(** The sum of the counts of a histogram. *)
Definition total (h : list (value * nat)) : nat :=
  fold_right (fun kv acc => snd kv + acc) 0 h.

(** Every tag the statistics would count can be a dictionary key. *)
Definition tags_hashable (g : MultiDiGraph) : bool :=
  forallb hashable (node_type_tags g)
  && forallb hashable (relationship_type_tags g).

(** Scores in descending order. *)
Fixpoint descending (l : list (value * Q)) : Prop :=
  match l with
  | [] => True
  | x :: r => (forall y, In y r -> (snd y <= snd x)%Q) /\ descending r
  end.

(** A graph one of whose nodes carries a list as its [node_type]. *)
Definition odd_tag_graph : MultiDiGraph :=
  graph (snd (add_doctype_node offline_world (VStr "Customer")
                (Some [("node_type", VList [])]) (init_builder "out"))).




(** The five instance-level builds of the complete build, run on their own. *)
Definition document_builds (w : World) (b : Builder) : Builder :=
  run (map (fun doctype => (w, BuildDocumentRelationshipGraph doctype 10))
         key_doctypes) b.


(** The selling server answering requests while the connection test fails. *)
Definition untested_connector : ERPNextConnector :=
  {| test_connection := false;
     get_doctypes := get_doctypes selling_connector;
     get_doctype_schema := get_doctype_schema selling_connector;
     get_sample_documents := get_sample_documents selling_connector |}.


(* ================================================================== *)
(** ** The connector: [ERPNextConnector] in [erpnext_connector.py] *)
(* ================================================================== *)

Module Connector.

(** What [requests] hands back: the status code, and the body as
    [response.json()] decodes it, which raises when the body is not JSON. *)
Record Response : Type := {
  status_code : Z;
  json : outcome value
}.

(** What [subprocess.run] hands back. *)
Record CompletedProcess : Type := {
  returncode : Z;
  stdout : string
}.

(** The outside of the connector.  A request or a subprocess may be
    answered or raise, and the answer may change from one call to the next:
    each takes the number of calls made before it.  The connector treats
    all exceptions alike, so their classes are not told apart here.
    - [requests_get]: [requests.get(url, timeout=5)];
    - [session_get]: [self.session.get(url)];
    - [subprocess_run]: [subprocess.run(args, cwd=..., input=...)];
    - [path_exists]: [Path(p).exists()], a test of the file system that
      answers yes or no;
    - [parent_name]: [Path(p).parent.name];
    - [repr_value]: the text of [str()] on a list or a dictionary. *)
Record Outside : Type := {
  requests_get : nat -> string -> outcome Response;
  session_get : nat -> string -> outcome Response;
  subprocess_run :
    nat -> list string -> option string -> option string
    -> outcome CompletedProcess;
  path_exists : nat -> string -> bool;
  parent_name : string -> string;
  repr_value : value -> string
}.

(** The attributes of a connector the methods read or write.  [bench] holds
    [bench_path] and [site_name], which are set together and do not exist
    before: [hasattr(self, 'bench_path')] is [bench <> None]. *)
Record State : Type := {
  base_url : string;
  connected : bool;
  bench : option (string * string);
  calls : nat
}.

Definition called (c : State) : State :=
  {| base_url := base_url c; connected := connected c; bench := bench c;
     calls := S (calls c) |}.

Definition set_base_url (url : string) (c : State) : State :=
  {| base_url := url; connected := connected c; bench := bench c;
     calls := calls c |}.

Definition set_connected (c : State) : State :=
  {| base_url := base_url c; connected := true; bench := bench c;
     calls := calls c |}.

Definition set_bench (bench_path site_name : string) (c : State) : State :=
  {| base_url := base_url c; connected := connected c;
     bench := Some (bench_path, site_name); calls := calls c |}.

(** A call to the outside: it is answered by the number of earlier calls. *)
Definition outside {A : Type} (f : nat -> outcome A) : M State A :=
  fun c => (f (calls c), called c).

Definition outside_pure {A : Type} (f : nat -> A) : M State A :=
  fun c => (Ret (f (calls c)), called c).

(** [s.rstrip('/')] *)
Fixpoint rstrip_slash (s : string) : string :=
  match s with
  | EmptyString => EmptyString
  | String c r =>
      match rstrip_slash r with
      | EmptyString => if Ascii.eqb c "/" then EmptyString else String c EmptyString
      | r' => String c r'
      end
  end.

(** [ERPNextConnector(base_url)] *)
Definition init (url : string) : State :=
  {| base_url := rstrip_slash url; connected := false; bench := None;
     calls := 0 |}.

(** The double quote, for the commands sent to the bench console. *)
Definition dq : string := String "034"%char EmptyString.

(** [body.get('data', default)] on a decoded body. *)
Definition get_data (body : value) (default : value) : outcome value :=
  match body with
  | VDict d => Ret (py_get_default d "data" default)
  | _ => Raise (AttributeError "object has no attribute 'get'")
  end.

(** The API branch shared by the three readers: fetch [url] and, on status
    200, return the [data] entry of the body. *)
Definition fetch_data (o : Outside) (url : string) (default : value)
  : M State value :=
  (response <- outside (fun n => session_get o n url) ;;
   if (status_code response =? 200)%Z then
     (body <- lift_outcome (json response) ;;
      lift_outcome (get_data body default))
   else ret default)%py.

(** The bench branch shared by the three readers: run the console with
    [cmd] as its input and return the empty answer. *)
Definition bench_console (o : Outside) (bench_path site_name cmd : string)
  (default : value) : M State value :=
  (_ <- outside (fun n => subprocess_run o n
                            ["bench"; "--site"; site_name; "console"]
                            (Some bench_path) (Some cmd)) ;;
   ret default)%py.

Definition get_doctypes (o : Outside) : M State value :=
  (c <- get_state ;;
   if negb (connected c) then ret (VList [])
   else
     try_except
       (match bench c with
        | Some (bench_path, site_name) =>
            bench_console o bench_path site_name
              ("frappe.get_all(" ++ dq ++ "DocType" ++ dq ++ ", fields=["
               ++ dq ++ "name" ++ dq ++ ", " ++ dq ++ "module" ++ dq ++ ", "
               ++ dq ++ "custom" ++ dq ++ ", " ++ dq ++ "is_virtual" ++ dq
               ++ "])")
              (VList [])
        | None =>
            fetch_data o (base_url c ++ "/api/resource/DocType") (VList [])
        end)
       (fun _ => ret (VList [])))%py.

Definition get_doctype_schema (o : Outside) (doctype : value)
  : M State value :=
  (c <- get_state ;;
   try_except
     (match bench c with
      | Some (bench_path, site_name) =>
          bench_console o bench_path site_name
            ("frappe.get_doc(" ++ dq ++ "DocType" ++ dq ++ ", " ++ dq
             ++ py_str (repr_value o) doctype ++ dq ++ ").as_dict()")
            (VDict [])
      | None =>
          fetch_data o
            (base_url c ++ "/api/resource/DocType/"
             ++ py_str (repr_value o) doctype)
            (VDict [])
      end)
     (fun _ => ret (VDict [])))%py.

Definition get_sample_documents (o : Outside) (doctype : value) (limit : Z)
  : M State value :=
  (c <- get_state ;;
   try_except
     (match bench c with
      | Some (bench_path, site_name) =>
          bench_console o bench_path site_name
            ("frappe.get_all(" ++ dq ++ py_str (repr_value o) doctype ++ dq
             ++ ", limit=" ++ str_of_Z limit ++ ")")
            (VList [])
      | None =>
          fetch_data o
            (base_url c ++ "/api/resource/" ++ py_str (repr_value o) doctype
             ++ "?limit=" ++ str_of_Z limit)
            (VList [])
      end)
     (fun _ => ret (VList [])))%py.

(** A running instance, as [discover_erpnext_instances] records it; the
    dictionary also carries the constant [status] ['active']. *)
Record Instance : Type := {
  instance_url : string;
  instance_response : value
}.

Definition instance_dict (i : Instance) : attrs :=
  [ ("url", VStr (instance_url i)); ("status", VStr "active");
    ("response", instance_response i) ].

Definition ports : list Z := [8000; 8001; 8080; 9000]%Z.

(** The body of the loop over the ports: any exception skips the port. *)
Definition probe (o : Outside) (port : Z) : M State (option Instance) :=
  try_except
    (let url := ("http://localhost:" ++ str_of_Z port)%string in
     response <- outside (fun n => requests_get o n
                            (url ++ "/api/method/ping")%string) ;;
     if (status_code response =? 200)%Z then
       (body <- lift_outcome (json response) ;;
        ret (Some {| instance_url := url; instance_response := body |}))
     else ret None)%py
    (fun _ => ret None).

Definition found {A : Type} (l : list (option A)) : list A :=
  flat_map (fun x => match x with Some a => [a] | None => [] end) l.

Definition discover_erpnext_instances (o : Outside) : M State (list Instance) :=
  (probes <- collect ports (probe o) ;;
   try_except
     (_ <- outside (fun n => subprocess_run o n ["ps"; "aux"] None None) ;;
      ret tt)
     (fun _ => ret tt) ;;;
   ret (found probes))%py.

(** Whitespace as [str.strip] sees it, for characters below 256. *)
Definition is_space (c : ascii) : bool :=
  let n := nat_of_ascii c in
  ((9 <=? n) && (n <=? 13)) || ((28 <=? n) && (n <=? 32))
  || (n =? 133) || (n =? 160).

Fixpoint lstrip (s : string) : string :=
  match s with
  | String c r => if is_space c then lstrip r else s
  | EmptyString => EmptyString
  end.

Fixpoint rstrip (s : string) : string :=
  match s with
  | EmptyString => EmptyString
  | String c r =>
      match rstrip r with
      | EmptyString => if is_space c then EmptyString else String c EmptyString
      | r' => String c r'
      end
  end.

(** [s.strip()] *)
Definition strip (s : string) : string := rstrip (lstrip s).

(** [s.split('\n')] *)
Fixpoint split_lines (s : string) : list string :=
  match s with
  | EmptyString => [EmptyString]
  | String c r =>
      if Ascii.eqb c "010"%char then EmptyString :: split_lines r
      else
        match split_lines r with
        | line :: lines => String c line :: lines
        | [] => [String c EmptyString]
        end
  end.

(** The loop of [_setup_bench_connection] over the paths [find] printed:
    the first one that is not empty and exists names the site. *)
Fixpoint first_site (o : Outside) (bench_path : string)
  (site_configs : list string) : M State bool :=
  match site_configs with
  | [] => ret false
  | config_path :: r =>
      if String.eqb config_path "" then first_site o bench_path r
      else
        (there <- outside_pure (fun n => path_exists o n config_path) ;;
         if there then
           (modify (set_bench bench_path (parent_name o config_path)) ;;;
            ret true)
         else first_site o bench_path r)%py
  end.

Definition _setup_bench_connection (o : Outside) (bench_path : string)
  : M State bool :=
  try_except
    (result <- outside (fun n => subprocess_run o n
                         ["find"; (bench_path ++ "/sites")%string; "-name";
                          "site_config.json"; "-not"; "-path"; "*/assets/*"]
                         None None) ;;
     first_site o bench_path (split_lines (strip (stdout result))))%py
    (fun _ => ret false).

Definition bench_paths : list string :=
  [ "/Users/mekdesyared/frappe-bench";
    "/Users/mekdesyared/erpnext-mcp-builder/bench-setup/frappe-bench" ].

(** The loop of [connect_to_existing_bench]: the first bench that exists
    and answers with return code 0 decides; one that raises or answers
    otherwise is skipped. *)
Fixpoint try_benches (o : Outside) (paths : list string) : M State bool :=
  match paths with
  | [] => ret false
  | bench_path :: r =>
      (there <- outside_pure (fun n => path_exists o n bench_path) ;;
       if there then
         (decided <-
            try_except
              (result <- outside (fun n => subprocess_run o n
                                   ["bench"; "--site"; "all"; "list-apps"]
                                   (Some bench_path) None) ;;
               if (returncode result =? 0)%Z then
                 (ok <- _setup_bench_connection o bench_path ;;
                  ret (Some ok))
               else ret None)
              (fun _ => ret None) ;;
          match decided with
          | Some ok => ret ok
          | None => try_benches o r
          end)
       else try_benches o r)%py
  end.

Definition connect_to_existing_bench (o : Outside) : M State bool :=
  try_benches o bench_paths.

(** The dictionary [test_connection] returns. *)
Record Status : Type := {
  status_connected : bool;
  status_method : option string;
  status_details : attrs;
  instances_found : list Instance
}.

(** [getattr(self, 'bench_path', None)] and [getattr(self, 'site_name',
    None)] *)
Definition bench_details (c : State) : attrs :=
  match bench c with
  | Some (bench_path, site_name) =>
      [("bench_path", VStr bench_path); ("site_name", VStr site_name)]
  | None => [("bench_path", VNone); ("site_name", VNone)]
  end.

(** The first half of [test_connection]: the first instance found is pinged
    through the session. *)
Definition try_api (o : Outside) (instances : list Instance)
  : M State (bool * attrs) :=
  match instances with
  | [] => ret (false, [])
  | instance :: _ =>
      (modify (set_base_url (instance_url instance)) ;;;
       c <- get_state ;;
       try_except
         (response <- outside (fun n => session_get o n
                                 (base_url c ++ "/api/method/ping")%string) ;;
          if (status_code response =? 200)%Z then
            (modify set_connected ;;;
             ret (true, instance_dict instance))
          else ret (false, []))
         (fun e => ret (false, [("error", VStr (exn_message e))])))%py
  end.

Definition test_connection (o : Outside) : M State Status :=
  (instances <- discover_erpnext_instances o ;;
   api <- try_api o instances ;;
   if fst api then
     ret {| status_connected := true; status_method := Some "api";
            status_details := snd api; instances_found := instances |}
   else
     (ok <- connect_to_existing_bench o ;;
      if ok then
        (c <- get_state ;;
         modify set_connected ;;;
         ret {| status_connected := true; status_method := Some "bench";
                status_details := bench_details c;
                instances_found := instances |})
      else
        ret {| status_connected := false; status_method := None;
               status_details := snd api; instances_found := instances |}))%py.

End Connector.

(** What the API branch of a reader yields when its request is the call
    number [n]: the [data] entry of the body when the request returns with
    status 200 and a JSON object, the empty answer in every other case. *)
Definition api_answer (o : Connector.Outside) (n : nat) (url : string)
  (default : value) : value :=
  match Connector.session_get o n url with
  | Ret response =>
      if (Connector.status_code response =? 200)%Z then
        match Connector.json response with
        | Ret (VDict d) => py_get_default d "data" default
        | _ => default
        end
      else default
  | Raise _ => default
  end.

(** What the probe of one port yields when its request is the call number
    [n]. *)
Definition probe_answer (o : Connector.Outside) (n : nat) (port : Z)
  : option Connector.Instance :=
  let url := ("http://localhost:" ++ str_of_Z port)%string in
  match Connector.requests_get o n (url ++ "/api/method/ping")%string with
  | Ret response =>
      if (Connector.status_code response =? 200)%Z then
        match Connector.json response with
        | Ret body =>
            Some {| Connector.instance_url := url;
                    Connector.instance_response := body |}
        | Raise _ => None
        end
      else None
  | Raise _ => None
  end.

(** The connector after [k] more calls to the outside. *)
Definition after_calls (k : nat) (c : Connector.State) : Connector.State :=
  {| Connector.base_url := Connector.base_url c;
     Connector.connected := Connector.connected c;
     Connector.bench := Connector.bench c;
     Connector.calls := k + Connector.calls c |}.

(** What a search for a bench among [paths] may do to the connector: it
    records a bench from [paths] when it succeeds and leaves the record
    alone when it fails; the URL and the flag are not touched. *)
Definition bench_search (paths : list string) (c : Connector.State)
  (ok : bool) (c' : Connector.State) : Prop :=
  Connector.base_url c' = Connector.base_url c /\
  Connector.connected c' = Connector.connected c /\
  Connector.calls c <= Connector.calls c' /\
  if ok then exists p site, In p paths /\ Connector.bench c' = Some (p, site)
  else Connector.bench c' = Connector.bench c.

(** The URLs the readers fetch. *)
Definition doctypes_url (c : Connector.State) : string :=
  Connector.base_url c ++ "/api/resource/DocType".

Definition schema_url (o : Connector.Outside) (c : Connector.State)
  (doctype : value) : string :=
  Connector.base_url c ++ "/api/resource/DocType/"
  ++ py_str (Connector.repr_value o) doctype.

Definition documents_url (o : Connector.Outside) (c : Connector.State)
  (doctype : value) (limit : Z) : string :=
  Connector.base_url c ++ "/api/resource/" ++ py_str (Connector.repr_value o) doctype
  ++ "?limit=" ++ str_of_Z limit.

(** A server that answers every request with status 200 and the same JSON
    object, no bench on disk. *)
Definition answering (body : value) : Connector.Outside :=
  {| Connector.requests_get := fun _ _ =>
       Ret {| Connector.status_code := 200; Connector.json := Ret body |};
     Connector.session_get := fun _ _ =>
       Ret {| Connector.status_code := 200; Connector.json := Ret body |};
     Connector.subprocess_run := fun _ _ _ _ =>
       Raise (ValueError "no such file");
     Connector.path_exists := fun _ _ => false;
     Connector.parent_name := fun _ => "";
     Connector.repr_value := fun _ => "" |}.

(** No server answers, and the first bench is on disk with one site. *)
Definition bench_only : Connector.Outside :=
  {| Connector.requests_get := fun _ _ => Raise (ValueError "refused");
     Connector.session_get := fun _ _ => Raise (ValueError "refused");
     Connector.subprocess_run := fun _ args _ _ =>
       match args with
       | "find" :: _ =>
           Ret {| Connector.returncode := 0;
                  Connector.stdout :=
                    "/Users/mekdesyared/frappe-bench/sites/site1/site_config.json"
                    ++ String "010"%char "" |}
       | _ => Ret {| Connector.returncode := 0; Connector.stdout := "" |}
       end;
     Connector.path_exists := fun _ _ => true;
     Connector.parent_name := fun _ => "site1";
     Connector.repr_value := fun _ => "" |}.

(** Two clock readings that print the same time stamp. *)
Definition same_second (t1 t2 : datetime) : Prop :=
  year t1 = year t2 /\ month t1 = month t2 /\ day t1 = day t2 /\
  hour t1 = hour t2 /\ minute t1 = minute t2 /\ second t1 = second t2.

(** Whether the node pass can add the type [d] to a graph that accepts the
    same names as [g0]: its attributes can be computed and its name can be
    a node. *)
Definition addable (w : World) (g0 : MultiDiGraph) (d : value) : bool :=
  match doctype_metadata w d None with
  | Ret _ => endpoint_ok g0 d
  | Raise _ => false
  end.

(** The edges the edge pass adds for the type [d] when [has] tells the
    nodes: one per resolved target that is a node, none when [d] itself is
    not one. *)
Definition relationships_of (w : World) (has : value -> bool) (d : value) : nat :=
  if has d then
    List.length (filter has (links_to (discover_doctype_relationships w d)))
    + List.length (filter has (child_tables (discover_doctype_relationships w d)))
  else 0.

Definition sum_list (l : list nat) : nat := fold_right Nat.add 0 l.

(** The graph accepts the same names as [g0]. *)
Definition accepts_like (g0 g : MultiDiGraph) : Prop :=
  forall d, endpoint_ok g d = endpoint_ok g0 d.


(* ================================================================== *)
(** * Properties *)
(* ================================================================== *)

(** ** Keys *)

Lemma key_eqb_sym (a b : value) : key_eqb a b = key_eqb b a.
Proof.
  destruct a, b; simpl; auto using Z.eqb_sym, String.eqb_sym.
  destruct b, b0; reflexivity.
Qed.

Lemma key_eqb_trans (a b c : value) :
  key_eqb a b = true -> key_eqb b c = true -> key_eqb a c = true.
Proof.
  destruct a, b, c; simpl; try discriminate; auto; intros H1 H2;
    repeat match goal with
           | H : Bool.eqb _ _ = true |- _ => apply Bool.eqb_prop in H
           | H : (_ =? _)%Z = true |- _ => apply Z.eqb_eq in H
           | H : String.eqb _ _ = true |- _ => apply String.eqb_eq in H
           end; subst;
    rewrite ?Bool.eqb_reflx, ?Z.eqb_refl, ?String.eqb_refl; auto;
    repeat match goal with b : bool |- _ => destruct b end;
    simpl in *; congruence.
Qed.

Lemma key_eqb_congr (a b c : value) :
  key_eqb a b = true -> key_eqb a c = key_eqb b c.
Proof.
  intros Hab.
  destruct (key_eqb b c) eqn:Hbc.
  - eapply key_eqb_trans; eauto.
  - destruct (key_eqb a c) eqn:Hac; auto.
    rewrite <- Hbc. symmetry. eapply key_eqb_trans; [| exact Hac].
    rewrite key_eqb_sym. exact Hab.
Qed.

Lemma key_eqb_refl (a : value) : hashable a = true -> key_eqb a a = true.
Proof.
  destruct a; simpl; try discriminate; intros _;
    auto using Z.eqb_refl, String.eqb_refl.
  destruct b; reflexivity.
Qed.

Lemma key_eqb_hashable_l (a b : value) : key_eqb a b = true -> hashable a = true.
Proof. destruct a, b; simpl; auto; discriminate. Qed.

Lemma key_eqb_hashable_r (a b : value) : key_eqb a b = true -> hashable b = true.
Proof. destruct a, b; simpl; auto; discriminate. Qed.

Lemma key_eqb_str_l (a : value) (s : string) :
  key_eqb a (VStr s) = true -> a = VStr s.
Proof.
  destruct a; simpl; try discriminate.
  intros H. apply String.eqb_eq in H. congruence.
Qed.

Lemma key_eqb_str (s t : string) : key_eqb (VStr s) (VStr t) = String.eqb s t.
Proof. reflexivity. Qed.

(** ** Dictionaries *)

Section DictFacts.
Context {K V : Type}.
Variable eqb : K -> K -> bool.

Lemma dict_set_absent (d : list (K * V)) k v :
  dict_get eqb d k = None -> dict_set eqb d k v = d ++ [(k, v)].
Proof.
  induction d as [|[k0 v0] r IH]; simpl; auto.
  destruct (eqb k0 k); [discriminate|].
  intros H. now rewrite IH.
Qed.

(** Assigning to a key that is present rewrites one cell and keeps the
    stored key. *)
Lemma dict_set_present (d : list (K * V)) k v v0 :
  dict_get eqb d k = Some v0 ->
  exists pre k0 post,
    d = pre ++ (k0, v0) :: post /\
    dict_set eqb d k v = pre ++ (k0, v) :: post /\
    eqb k0 k = true /\
    dict_get eqb pre k = None.
Proof.
  induction d as [|[k1 v1] r IH]; simpl; [discriminate|].
  destruct (eqb k1 k) eqn:E.
  - intros [= ->]. exists [], k1, r. simpl. auto.
  - intros H. destruct (IH H) as (pre & k0 & post & -> & -> & Hk & Hp).
    exists ((k1, v1) :: pre), k0, post. simpl. rewrite E. auto.
Qed.

Lemma dict_set_keys (d : list (K * V)) k v :
  map fst (dict_set eqb d k v) =
  if dict_mem eqb d k then map fst d else map fst d ++ [k].
Proof.
  unfold dict_mem.
  induction d as [|[k0 v0] r IH]; simpl; auto.
  destruct (eqb k0 k); simpl; auto.
  rewrite IH. destruct (dict_get eqb r k); reflexivity.
Qed.

Lemma dict_set_length (d : list (K * V)) k v :
  List.length (dict_set eqb d k v) =
  if dict_mem eqb d k then List.length d else S (List.length d).
Proof.
  rewrite <- !(length_map fst), dict_set_keys.
  destruct (dict_mem eqb d k); auto.
  rewrite length_app. simpl. lia.
Qed.

(** Membership only looks at the keys. *)
Lemma dict_mem_keys (d d' : list (K * V)) k :
  map fst d = map fst d' -> dict_mem eqb d k = dict_mem eqb d' k.
Proof.
  unfold dict_mem. revert d'.
  induction d as [|[k0 v0] r IH]; intros [|[k1 v1] r']; simpl;
    try discriminate; auto.
  intros [= -> H]. destruct (eqb k1 k); auto.
Qed.

Lemma dict_mem_app (d d' : list (K * V)) k :
  dict_mem eqb (d ++ d') k = dict_mem eqb d k || dict_mem eqb d' k.
Proof.
  unfold dict_mem. induction d as [|[k0 v0] r IH]; simpl; auto.
  destruct (eqb k0 k); auto.
Qed.

Lemma dict_get_app (d d' : list (K * V)) k :
  dict_get eqb (d ++ d') k =
  match dict_get eqb d k with Some v => Some v | None => dict_get eqb d' k end.
Proof.
  induction d as [|[k0 v0] r IH]; simpl; auto.
  destruct (eqb k0 k); auto.
Qed.

Lemma dict_mem_set_mono (d : list (K * V)) k v k' :
  dict_mem eqb d k' = true -> dict_mem eqb (dict_set eqb d k v) k' = true.
Proof.
  intros H.
  destruct (dict_mem eqb d k) eqn:E.
  - rewrite (dict_mem_keys (dict_set eqb d k v) d); auto.
    rewrite dict_set_keys, E. reflexivity.
  - unfold dict_mem in E. destruct (dict_get eqb d k) eqn:G; [discriminate|].
    rewrite (dict_set_absent _ _ _ G).
    rewrite dict_mem_app, H. reflexivity.
Qed.

Lemma dict_get_In (d : list (K * V)) k v :
  dict_get eqb d k = Some v -> exists k0, In (k0, v) d /\ eqb k0 k = true.
Proof.
  induction d as [|[k0 v0] r IH]; simpl; [discriminate|].
  destruct (eqb k0 k) eqn:E.
  - intros [= ->]. eauto.
  - intros H. destruct (IH H) as (k1 & Hin & Hk). eauto.
Qed.

(** The laws that need [eqb] to behave as an equality on keys. *)
Section Per.
Hypothesis eqb_congr : forall a b c, eqb a b = true -> eqb a c = eqb b c.
Hypothesis eqb_sym : forall a b, eqb a b = eqb b a.

Lemma dict_get_congr (d : list (K * V)) k k' :
  eqb k k' = true -> dict_get eqb d k = dict_get eqb d k'.
Proof.
  intros H. induction d as [|[k0 v0] r IH]; simpl; auto.
  rewrite IH.
  replace (eqb k0 k') with (eqb k0 k); auto.
  rewrite (eqb_sym k0 k), (eqb_sym k0 k'). auto.
Qed.

Lemma dict_get_set (d : list (K * V)) k v k' :
  eqb k k = true ->
  dict_get eqb (dict_set eqb d k v) k' =
  if eqb k k' then Some v else dict_get eqb d k'.
Proof.
  intros Hr. induction d as [|[k0 v0] r IH]; simpl.
  - destruct (eqb k k'); reflexivity.
  - destruct (eqb k0 k) eqn:E; simpl.
    + rewrite (eqb_congr _ _ k' E). destruct (eqb k k'); reflexivity.
    + rewrite IH. destruct (eqb k0 k') eqn:E'; auto.
      destruct (eqb k k') eqn:E''; auto.
      rewrite (eqb_congr _ _ k E'), eqb_sym in E. congruence.
Qed.
End Per.
End DictFacts.

Lemma key_eqb_int (k : value) (z : Z) :
  key_eqb k (VInt z) = true <-> key_number k = Some z.
Proof.
  destruct k; simpl; split; try discriminate;
    rewrite ?Z.eqb_eq; congruence.
Qed.

Lemma keys_from_le (kd : keydict) (n : nat) :
  List.length (keys_from kd n) <= List.length kd.
Proof. apply filter_length_le. Qed.

Lemma keys_from_mono (kd : keydict) (n : nat) :
  List.length (keys_from kd (S n)) <= List.length (keys_from kd n).
Proof.
  unfold keys_from.
  induction kd as [|[k d] r IH]; [auto|].
  cbn [filter fst].
  destruct (key_number k) as [z|]; auto.
  destruct (Z.of_nat (S n) <=? z)%Z eqn:E1.
  - replace (Z.of_nat n <=? z)%Z with true
      by (symmetry; apply Z.leb_le; apply Z.leb_le in E1; lia).
    cbn [List.length]. lia.
  - destruct (Z.of_nat n <=? z)%Z; cbn [List.length]; lia.
Qed.

Lemma keys_from_taken (kd : keydict) (n : nat) :
  dict_mem key_eqb kd (VInt (Z.of_nat n)) = true ->
  List.length (keys_from kd (S n)) < List.length (keys_from kd n).
Proof.
  unfold dict_mem.
  induction kd as [|[k d] r IH]; cbn [dict_get]; [discriminate|].
  destruct (key_eqb k (VInt (Z.of_nat n))) eqn:E.
  - intros _. apply key_eqb_int in E.
    pose proof (keys_from_mono r n) as Hm.
    unfold keys_from in *. cbn [filter fst]. rewrite E.
    replace (Z.of_nat (S n) <=? Z.of_nat n)%Z with false
      by (symmetry; apply Z.leb_gt; lia).
    rewrite Z.leb_refl. cbn [List.length]. lia.
  - intros H. specialize (IH H).
    unfold keys_from in *. cbn [filter fst].
    destruct (key_number k) as [z|]; auto.
    destruct (Z.of_nat (S n) <=? z)%Z eqn:E1.
    + replace (Z.of_nat n <=? z)%Z with true
        by (symmetry; apply Z.leb_le; apply Z.leb_le in E1; lia).
      cbn [List.length]. lia.
    + destruct (Z.of_nat n <=? z)%Z; cbn [List.length]; lia.
Qed.

Lemma first_free_key_fresh (fuel : nat) (kd : keydict) (n : nat) :
  List.length (keys_from kd n) < fuel ->
  dict_mem key_eqb kd (VInt (Z.of_nat (first_free_key fuel kd n))) = false.
Proof.
  revert n. induction fuel as [|fuel IH]; intros n H; [lia|].
  simpl. destruct (dict_mem key_eqb kd (VInt (Z.of_nat n))) eqn:E; auto.
  apply IH. pose proof (keys_from_taken kd n E). lia.
Qed.

(** [new_edge_key] never returns a key in use. *)
Lemma new_edge_key_fresh (g : MultiDiGraph) (u v : value) e kd :
  node_get g u = Some e ->
  dict_get key_eqb (succ e) v = Some kd ->
  dict_get key_eqb kd (new_edge_key g u v) = None.
Proof.
  intros Hu Hv. unfold new_edge_key. rewrite Hu, Hv.
  pose proof (first_free_key_fresh (S (List.length kd)) kd (List.length kd)) as H.
  unfold dict_mem in H.
  destruct (dict_get key_eqb kd _); auto.
  assert (true = false); [|discriminate].
  apply H. pose proof (keys_from_le kd (List.length kd)). lia.
Qed.

Lemma new_edge_key_hashable (g : MultiDiGraph) (u v : value) :
  hashable (new_edge_key g u v) = true.
Proof.
  unfold new_edge_key.
  destruct (node_get g u); auto. destruct (dict_get key_eqb (succ n) v); auto.
Qed.

(** ** Edges of a graph *)

Lemma edges_app (g g' : MultiDiGraph) : edges (g ++ g') = edges g ++ edges g'.
Proof. unfold edges. apply flat_map_app. Qed.

Lemma edges_cons (u : value) (e : node_entry) (g : MultiDiGraph) :
  edges ((u, e) :: g) = edges_from u e ++ edges g.
Proof. reflexivity. Qed.

Lemma edges_from_succ (u : value) (e : node_entry) :
  edges_from u e = edges_of_succ u (succ e).
Proof. reflexivity. Qed.

Lemma edges_of_succ_app u s s' :
  edges_of_succ u (s ++ s') = edges_of_succ u s ++ edges_of_succ u s'.
Proof. unfold edges_of_succ. apply flat_map_app. Qed.

Lemma edges_new_node (g : MultiDiGraph) (n : value) (a : attrs) :
  edges (g ++ [(n, {| attr := a; succ := [] |})]) = edges g.
Proof. rewrite edges_app. simpl. apply app_nil_r. Qed.

(** Rewriting the attributes of a node leaves the edges alone. *)
Lemma edges_set_attr (g : MultiDiGraph) (n : value) (e : node_entry) (a : attrs) :
  node_get g n = Some e ->
  edges (dict_set key_eqb g n {| attr := a; succ := succ e |}) = edges g.
Proof.
  intros H. destruct (dict_set_present key_eqb g n {| attr := a; succ := succ e |} e H)
    as (pre & k0 & post & -> & -> & _ & _).
  rewrite !edges_app, !edges_cons. reflexivity.
Qed.

(** ** add_node *)

Lemma node_mem_get (g : MultiDiGraph) (n : value) :
  node_mem g n = match node_get g n with Some _ => true | None => false end.
Proof. reflexivity. Qed.

Lemma has_node_mem (g : MultiDiGraph) (n : value) :
  has_node g n = node_mem g n.
Proof.
  unfold has_node. destruct (hashable n) eqn:H; auto.
  simpl. unfold node_mem, dict_mem.
  destruct (dict_get key_eqb g n) eqn:G; auto.
  apply dict_get_In in G. destruct G as (k0 & _ & Hk).
  apply key_eqb_hashable_r in Hk. congruence.
Qed.

Lemma is_none_eqb (n : value) : key_eqb n VNone = true <-> n = VNone.
Proof. destruct n; simpl; split; congruence. Qed.

Lemma nx_add_node_ok (n : value) (a : attrs) (g : MultiDiGraph) :
  endpoint_ok g n = true ->
  exists g', nx_add_node n a g = (Ret tt, g') /\
    edges g' = edges g /\
    map fst g' = (if node_mem g n then map fst g else map fst g ++ [n]) /\
    node_get g' n =
      Some {| attr := attr_update (match node_get g n with
                                   | Some e => attr e | None => [] end) a;
              succ := match node_get g n with
                      | Some e => succ e | None => [] end |}.
Proof.
  unfold endpoint_ok, nx_add_node. intros H.
  apply andb_true_iff in H. destruct H as [Hh Hn]. rewrite Hh. simpl.
  rewrite node_mem_get in *.
  destruct (node_get g n) as [e|] eqn:G.
  - eexists. split; [reflexivity|]. split; [|split].
    + apply edges_set_attr; auto.
    + rewrite dict_set_keys. unfold node_get in G. unfold dict_mem.
      rewrite G. reflexivity.
    + unfold node_get.
      rewrite (dict_get_set key_eqb key_eqb_congr key_eqb_sym)
        by (apply key_eqb_refl; auto).
      rewrite key_eqb_refl; auto.
  - simpl in Hn. destruct n; try discriminate; simpl;
      (eexists; split; [reflexivity|]; split; [apply edges_new_node|];
       split; [rewrite map_app; reflexivity|]);
      unfold node_get in *; rewrite dict_get_app, G; simpl;
      rewrite ?Z.eqb_refl, ?String.eqb_refl, ?Bool.eqb_reflx; auto.
Qed.

(** A call that raises leaves the graph as it was. *)
Lemma nx_add_node_raise (n : value) (a : attrs) (g g' : MultiDiGraph) e :
  nx_add_node n a g = (Raise e, g') -> g' = g /\ endpoint_ok g n = false.
Proof.
  unfold nx_add_node, endpoint_ok. rewrite node_mem_get.
  destruct (hashable n); simpl; [|intros [= _ <-]; auto].
  destruct (node_get g n); [discriminate|].
  destruct n; simpl; try discriminate. intros [= _ <-]. auto.
Qed.

Lemma nx_add_node_number (n : value) (a : attrs) (g g' : MultiDiGraph) o :
  nx_add_node n a g = (o, g') ->
  number_of_nodes g' =
  match o with
  | Ret _ => if node_mem g n then number_of_nodes g else number_of_nodes g + 1
  | Raise _ => number_of_nodes g
  end.
Proof.
  intros H. destruct o as [[]|e].
  - destruct (endpoint_ok g n) eqn:E.
    + destruct (nx_add_node_ok n a g E) as (g1 & H1 & _ & Hk & _).
      rewrite H in H1. injection H1 as <-.
      unfold number_of_nodes. rewrite <- !(length_map fst), Hk.
      destruct (node_mem g n); auto. rewrite length_app. reflexivity.
    + exfalso. revert H E. unfold nx_add_node, endpoint_ok.
      rewrite node_mem_get.
      destruct (hashable n); simpl; [|discriminate].
      destruct (node_get g n); [discriminate|].
      destruct n; simpl; discriminate.
  - apply nx_add_node_raise in H. destruct H as [-> _]. reflexivity.
Qed.

(** ** add_edge *)

Lemma ensure_node_ok (n : value) (g : MultiDiGraph) :
  endpoint_ok g n = true ->
  ensure_node n g =
    (Ret tt, if node_mem g n then g else g ++ [(n, {| attr := []; succ := [] |})]).
Proof.
  unfold endpoint_ok, ensure_node. intros H.
  apply andb_true_iff in H. destruct H as [-> Hn]. simpl.
  destruct (node_mem g n); auto.
  destruct n; simpl in *; auto; discriminate.
Qed.

Lemma ensure_node_fail (n : value) (g : MultiDiGraph) :
  endpoint_ok g n = false -> exists e, ensure_node n g = (Raise e, g).
Proof.
  unfold endpoint_ok, ensure_node.
  destruct (hashable n); simpl; [|eauto].
  destruct (node_mem g n); simpl; [discriminate|].
  destruct n; simpl; try discriminate; eauto.
Qed.

Lemma node_mem_new (g : MultiDiGraph) (n : value) (e : node_entry) :
  hashable n = true -> node_mem (g ++ [(n, e)]) n = true.
Proof.
  intros H. unfold node_mem. rewrite dict_mem_app.
  unfold dict_mem at 2. simpl. rewrite key_eqb_refl by auto.
  apply orb_true_r.
Qed.

Lemma node_mem_app_l (g g' : MultiDiGraph) (n : value) :
  node_mem g n = true -> node_mem (g ++ g') n = true.
Proof. intros H. unfold node_mem in *. rewrite dict_mem_app, H. reflexivity. Qed.

Lemma endpoint_ok_app (g g' : MultiDiGraph) (n : value) :
  endpoint_ok g n = true -> endpoint_ok (g ++ g') n = true.
Proof.
  unfold endpoint_ok. intros H. apply andb_true_iff in H. destruct H as [-> H].
  simpl. apply orb_true_iff in H. destruct H as [H| ->].
  - rewrite node_mem_app_l; auto.
  - apply orb_true_r.
Qed.

(** Storing an edge under a key that is free adds one entry to the edge
    list and moves none. *)
Lemma edges_split (pre post : MultiDiGraph) (u0 : value) (e : node_entry) :
  edges (pre ++ (u0, e) :: post) =
  edges pre ++ edges_of_succ u0 (succ e) ++ edges post.
Proof. rewrite edges_app, edges_cons. reflexivity. Qed.

Lemma edges_of_succ_split (u0 v0 : value) s1 s2 (kd : keydict) :
  edges_of_succ u0 (s1 ++ (v0, kd) :: s2) =
  edges_of_succ u0 s1 ++ map (fun c => (u0, v0, fst c, snd c)) kd
  ++ edges_of_succ u0 s2.
Proof. rewrite edges_of_succ_app. reflexivity. Qed.

Lemma put_edge_keys (g : MultiDiGraph) (u v k : value) (a : attrs) :
  map fst (put_edge u v k a g) = map fst g.
Proof.
  unfold put_edge. destruct (node_get g u) eqn:Hu; auto.
  rewrite dict_set_keys. unfold node_get in Hu. unfold dict_mem.
  rewrite Hu. reflexivity.
Qed.

Lemma put_edge_fresh (g : MultiDiGraph) (u v k : value) (a : attrs) e :
  node_get g u = Some e ->
  hashable v = true ->
  match dict_get key_eqb (succ e) v with
  | Some kd => dict_get key_eqb kd k = None
  | None => True
  end ->
  exists l1 l2 u0 v0,
    edges g = l1 ++ l2 /\
    edges (put_edge u v k a g) = l1 ++ (u0, v0, k, attr_update [] a) :: l2 /\
    key_eqb u0 u = true /\ key_eqb v0 v = true.
Proof.
  intros Hu Hv Hk. unfold put_edge. rewrite Hu.
  set (kd' := match dict_get key_eqb (succ e) v with
              | Some kd => _ | None => _ end).
  set (e' := {| attr := attr e; succ := dict_set key_eqb (succ e) v kd' |}).
  destruct (dict_set_present key_eqb g u e' e Hu)
    as (pre & u0 & post & Hg & Hg' & Hu0 & _).
  rewrite Hg', Hg, !edges_split. subst e'. cbn [succ].
  destruct (dict_get key_eqb (succ e) v) as [kd|] eqn:Gv.
  - destruct (dict_set_present key_eqb (succ e) v kd' kd Gv)
      as (s1 & v0 & s2 & Hs & Hs' & Hv0 & _).
    rewrite Hs', Hs, !edges_of_succ_split. subst kd'. rewrite Hk.
    rewrite (dict_set_absent key_eqb kd k _ Hk), map_app.
    exists (edges pre ++ edges_of_succ u0 s1
            ++ map (fun c => (u0, v0, fst c, snd c)) kd),
           (edges_of_succ u0 s2 ++ edges post), u0, v0.
    cbn [map fst snd].
    repeat split; auto; rewrite <- ?app_assoc; cbn [app]; auto.
  - rewrite (dict_set_absent key_eqb (succ e) v _ Gv). subst kd'.
    exists (edges pre ++ edges_of_succ u0 (succ e)), (edges post), u0, v.
    rewrite edges_of_succ_app. cbn [edges_of_succ flat_map map fst snd app].
    repeat split; auto using key_eqb_refl; rewrite <- ?app_assoc; reflexivity.
Qed.


Lemma endpoint_ok_hashable (g : MultiDiGraph) (n : value) :
  endpoint_ok g n = true -> hashable n = true.
Proof. unfold endpoint_ok. intros H. apply andb_true_iff in H. tauto. Qed.

Lemma node_mem_endpoint_ok (g : MultiDiGraph) (n : value) :
  node_mem g n = true -> endpoint_ok g n = true.
Proof.
  intros H. unfold endpoint_ok. rewrite H, andb_true_r.
  rewrite <- has_node_mem in H. unfold has_node in H.
  apply andb_true_iff in H. tauto.
Qed.

Lemma ensure_node_spec (n : value) (g : MultiDiGraph) :
  endpoint_ok g n = true ->
  exists g1,
    ensure_node n g = (Ret tt, g1) /\
    edges g1 = edges g /\
    node_mem g1 n = true /\
    (forall m, node_mem g m = true -> node_mem g1 m = true) /\
    (node_mem g n = true -> g1 = g) /\
    number_of_nodes g <= number_of_nodes g1.
Proof.
  intros H. rewrite (ensure_node_ok n g H).
  pose proof (endpoint_ok_hashable g n H) as Hh.
  destruct (node_mem g n) eqn:E.
  - exists g. auto 10.
  - eexists. split; [reflexivity|].
    repeat split; auto using edges_new_node, node_mem_new, node_mem_app_l.
    + discriminate.
    + unfold number_of_nodes. rewrite length_app. lia.
Qed.

(** [add_edge] without a key: one more edge, nothing else moved. *)
Lemma nx_add_edge_new (u v : value) (a : attrs) (g : MultiDiGraph) :
  endpoint_ok g u = true -> endpoint_ok g v = true ->
  exists g' k l1 l2 u0 v0,
    nx_add_edge u v None a g = (Ret k, g') /\
    edges g = l1 ++ l2 /\
    edges g' = l1 ++ (u0, v0, k, attr_update [] a) :: l2 /\
    key_eqb u0 u = true /\ key_eqb v0 v = true /\
    node_mem g' u = true /\ node_mem g' v = true /\
    (forall n, node_mem g n = true -> node_mem g' n = true) /\
    (node_mem g u = true -> node_mem g v = true -> map fst g' = map fst g) /\
    number_of_nodes g <= number_of_nodes g'.
Proof.
  intros Hu Hv.
  destruct (ensure_node_spec u g Hu) as (g1 & R1 & E1 & M1 & Mono1 & Same1 & N1).
  assert (Hv1 : endpoint_ok g1 v = true).
  { destruct (node_mem g u) eqn:E; [rewrite Same1; auto|].
    rewrite (ensure_node_ok u g Hu), E in R1. injection R1 as <-.
    apply endpoint_ok_app; auto. }
  destruct (ensure_node_spec v g1 Hv1) as (g2 & R2 & E2 & M2 & Mono2 & Same2 & N2).
  unfold nx_add_edge, bind, get_state, modify, ret. rewrite R1, R2.
  rewrite new_edge_key_hashable. cbn [negb].
  assert (Mu2 : node_mem g2 u = true) by auto.
  rewrite node_mem_get in Mu2.
  destruct (node_get g2 u) as [e|] eqn:G2; [|discriminate].
  destruct (put_edge_fresh g2 u v (new_edge_key g2 u v) a e G2
              (endpoint_ok_hashable _ _ Hv))
    as (l1 & l2 & u0 & v0 & Eg & Eg' & Hu0 & Hv0).
  { destruct (dict_get key_eqb (succ e) v) eqn:Gv; auto.
    eapply new_edge_key_fresh; eauto. }
  exists (put_edge u v (new_edge_key g2 u v) a g2), (new_edge_key g2 u v),
         l1, l2, u0, v0.
  assert (Hmem : forall n, node_mem (put_edge u v (new_edge_key g2 u v) a g2) n
                           = node_mem g2 n).
  { intros n. unfold node_mem. apply dict_mem_keys. apply put_edge_keys. }
  split; [reflexivity|]. split; [congruence|]. split; [exact Eg'|].
  split; [exact Hu0|]. split; [exact Hv0|].
  split; [rewrite Hmem, node_mem_get, G2; reflexivity|].
  split; [rewrite Hmem; exact M2|].
  split; [intros n Hn; rewrite Hmem; auto|].
  split.
  - intros Mu Mv. rewrite put_edge_keys.
    rewrite Same2; rewrite Same1; auto.
  - unfold number_of_nodes in *.
    rewrite <- (length_map fst (put_edge _ _ _ _ _)), put_edge_keys, length_map.
    lia.
Qed.

(** [add_edge] raises before touching the graph when its source is not an
    acceptable node. *)
Lemma nx_add_edge_bad_source (u v : value) key (a : attrs) (g : MultiDiGraph) :
  endpoint_ok g u = false ->
  exists e, nx_add_edge u v key a g = (Raise e, g).
Proof.
  intros H. destruct (ensure_node_fail u g H) as (e & He).
  exists e. unfold nx_add_edge, bind. rewrite He. reflexivity.
Qed.

(** ** String-keyed dictionaries *)

Lemma string_eqb_congr (a b c : string) :
  String.eqb a b = true -> String.eqb a c = String.eqb b c.
Proof. intros H. apply String.eqb_eq in H. now subst. Qed.

Lemma attr_get_set (d : attrs) (k : string) (v : value) (k' : string) :
  attr_get (attr_set d k v) k' =
  if String.eqb k k' then Some v else attr_get d k'.
Proof.
  unfold attr_get, attr_set.
  apply (dict_get_set String.eqb string_eqb_congr String.eqb_sym).
  apply String.eqb_refl.
Qed.

Lemma attr_mem_set (d : attrs) (k : string) (v : value) (k' : string) :
  attr_mem (attr_set d k v) k' = String.eqb k k' || attr_mem d k'.
Proof.
  unfold attr_mem, dict_mem. fold (attr_get (attr_set d k v) k').
  rewrite attr_get_set. destruct (String.eqb k k'); reflexivity.
Qed.

Lemma dict_remove_absent (d : attrs) (k : string) :
  attr_mem d k = false -> dict_remove String.eqb d k = d.
Proof.
  unfold attr_mem, dict_mem, dict_remove.
  induction d as [|[k0 v0] r IH]; simpl; auto.
  destruct (String.eqb k0 k); [discriminate|].
  intros H. simpl. now rewrite IH.
Qed.

Lemma reserved_free_kwargs (w : World) (b : Builder) kind md :
  reserved_free md = true ->
  add_edge_clash (edge_kwargs w b kind md) = false /\
  attr_mem (edge_kwargs w b kind md) "key" = false.
Proof.
  unfold reserved_free, add_edge_clash, edge_kwargs. intros H.
  apply andb_true_iff in H. destruct H as [H Hv].
  apply andb_true_iff in H. destruct H as [H Hu].
  apply andb_true_iff in H. destruct H as [Hk Hs].
  apply negb_true_iff in Hk, Hs, Hu, Hv.
  rewrite !attr_mem_set, Hk, Hs, Hu, Hv. auto.
Qed.

(** ** add_relationship_edge *)

Lemma add_relationship_edge_unfold (w : World) (u v : value) kind md b :
  add_relationship_edge w u v kind md b =
  call_add_edge u v (edge_kwargs w b kind md) (tick b).
Proof. reflexivity. Qed.

Lemma add_relationship_edge_new (w : World) (u v : value) kind md (b : Builder) :
  endpoint_ok (graph b) u = true ->
  endpoint_ok (graph b) v = true ->
  reserved_free md = true ->
  exists b' k l1 l2 u0 v0,
    add_relationship_edge w u v kind md b = (Ret tt, b') /\
    edges (graph b) = l1 ++ l2 /\
    edges (graph b') =
      l1 ++ (u0, v0, k, attr_update [] (edge_kwargs w b kind md)) :: l2 /\
    key_eqb u0 u = true /\ key_eqb v0 v = true /\
    node_mem (graph b') u = true /\ node_mem (graph b') v = true /\
    (forall n, node_mem (graph b) n = true -> node_mem (graph b') n = true) /\
    (node_mem (graph b) u = true -> node_mem (graph b) v = true ->
     map fst (graph b') = map fst (graph b)) /\
    number_of_nodes (graph b) <= number_of_nodes (graph b') /\
    output_dir b' = output_dir b /\ written b' = written b /\
    clock b' = S (clock b).
Proof.
  intros Hu Hv Hr.
  destruct (reserved_free_kwargs w b kind md Hr) as (Kc & Kk).
  rewrite add_relationship_edge_unfold. unfold call_add_edge.
  rewrite Kc.
  rewrite (dict_remove_absent _ _ Kk).
  unfold attr_mem, dict_mem in Kk. fold (attr_get (edge_kwargs w b kind md) "key") in Kk.
  destruct (attr_get (edge_kwargs w b kind md) "key"); [discriminate|].
  destruct (nx_add_edge_new u v (edge_kwargs w b kind md) (graph b) Hu Hv)
    as (g' & k & l1 & l2 & u0 & v0 & R & Eg & Eg' & Hu0 & Hv0 & Mu & Mv & Mono
          & Same & Nn).
  exists (with_graph (tick b) g'), k, l1, l2, u0, v0.
  unfold bind, on_graph, ret. cbn [graph tick]. rewrite R.
  cbn [graph with_graph output_dir written clock tick].
  repeat (split; [assumption || reflexivity|]). reflexivity.
Qed.


Lemma number_of_edges_insert (g g' : MultiDiGraph) l1 l2 e :
  edges g = l1 ++ l2 -> edges g' = l1 ++ e :: l2 ->
  number_of_edges g' = number_of_edges g + 1.
Proof.
  unfold number_of_edges. intros -> ->. rewrite !length_app. simpl. lia.
Qed.

Lemma number_of_nodes_keys (g g' : MultiDiGraph) :
  map fst g' = map fst g -> number_of_nodes g' = number_of_nodes g.
Proof.
  unfold number_of_nodes. intros H. now rewrite <- !(length_map fst), H.
Qed.

Lemma has_node_keys (g g' : MultiDiGraph) (n : value) :
  map fst g' = map fst g -> has_node g' n = has_node g n.
Proof.
  intros H. unfold has_node, node_mem.
  now rewrite (dict_mem_keys key_eqb g' g n H).
Qed.




(** [None] is handed back with a [ValueError]. *)
Lemma add_relationship_edge_none_rejected :
  fst (add_relationship_edge offline_world VNone (VStr "B") "links_to" None
         two_nodes)
  = Raise (ValueError "None cannot be a node").
Proof. reflexivity. Qed.

(** ** add_document_node *)

Lemma endpoint_ok_str (g : MultiDiGraph) (s : string) :
  endpoint_ok g (VStr s) = true.
Proof. unfold endpoint_ok. simpl. apply orb_true_r. Qed.

(** What one call of [add_document_node] does to the graph. *)
Lemma add_document_node_spec (w : World) (b : Builder)
  (doctype : string) (doc_name : value) (doc_data : attrs) :
  let node_id := document_node_id w doctype doc_name in
  exists b' key l1 l2,
    add_document_node w doctype doc_name doc_data b = (Ret node_id, b') /\
    edges (graph b) = l1 ++ l2 /\
    edges (graph b') =
      l1 ++ (VStr node_id, VStr doctype, key,
             [("relationship", VStr "instance_of")]) :: l2 /\
    node_mem (graph b') (VStr node_id) = true /\
    node_mem (graph b') (VStr doctype) = true.
Proof.
  intros node_id. unfold add_document_node. fold node_id.
  destruct (nx_add_node_ok (VStr node_id)
              (document_metadata w doctype doc_name doc_data) (graph b)
              (endpoint_ok_str _ _))
    as (g1 & R1 & E1 & K1 & _).
  destruct (nx_add_edge_new (VStr node_id) (VStr doctype)
              [("relationship", VStr "instance_of")] g1
              (endpoint_ok_str _ _) (endpoint_ok_str _ _))
    as (g2 & k & l1 & l2 & u0 & v0 & R2 & Eg & Eg' & Hu0 & Hv0 & Mu & Mv & _).
  apply key_eqb_str_l in Hu0, Hv0. subst u0 v0.
  exists (with_graph b g2), k, l1, l2.
  unfold bind, on_graph, ret. rewrite R1. cbn [graph with_graph]. rewrite R2.
  cbn [graph with_graph].
  split; [reflexivity|]. split; [congruence|]. auto.
Qed.

(** C4: every call of [add_document_node] returns the identifier
    [doctype::name] and adds exactly one edge, from that node to the node
    [doctype], whose data is [relationship = 'instance_of']; this holds for
    every graph, so also when the type node was never added before, and
    afterwards both nodes are in the graph. *)
Theorem add_document_node_instance_edge (w : World) (b : Builder)
  (doctype : string) (doc_name : value) (doc_data : attrs) :
  let node_id := document_node_id w doctype doc_name in
  exists b' key l1 l2,
    add_document_node w doctype doc_name doc_data b = (Ret node_id, b') /\
    edges (graph b) = l1 ++ l2 /\
    edges (graph b') =
      l1 ++ (VStr node_id, VStr doctype, key,
             [("relationship", VStr "instance_of")]) :: l2 /\
    number_of_edges (graph b') = number_of_edges (graph b) + 1 /\
    has_node (graph b') (VStr node_id) = true /\
    has_node (graph b') (VStr doctype) = true.
Proof.
  intros node_id.
  destruct (add_document_node_spec w b doctype doc_name doc_data)
    as (b' & key & l1 & l2 & R & Eg & Eg' & Mu & Mv).
  fold node_id in R, Eg', Mu.
  exists b', key, l1, l2.
  split; [exact R|]. split; [exact Eg|]. split; [exact Eg'|].
  split; [|split].
  - exact (number_of_edges_insert _ _ _ _ _ Eg Eg').
  - rewrite has_node_mem. exact Mu.
  - rewrite has_node_mem. exact Mv.
Qed.

(** ** add_doctype_node *)

Lemma with_graph_same (b : Builder) : with_graph b (graph b) = b.
Proof. destruct b; reflexivity. Qed.

Lemma node_mem_of_keys (g : MultiDiGraph) (n : value) :
  node_mem g n = existsb (fun k => key_eqb k n) (map fst g).
Proof.
  unfold node_mem, dict_mem.
  induction g as [|[k e] r IH]; simpl; auto.
  destruct (key_eqb k n); auto.
Qed.

(** What a call of [add_doctype_node] amounts to: when it returns, the
    attributes computed from the metadata and the schema were handed to
    [add_node]; when it raises, nothing was changed. *)
Lemma add_doctype_node_cases (w : World) (T : value) (m : option attrs)
  (b : Builder) :
  match add_doctype_node w T m b with
  | (Ret _, b') =>
      exists md,
        doctype_metadata w T m = Ret md /\
        add_node_clash md = false /\
        nx_add_node T md (graph b) = (Ret tt, graph b') /\
        b' = with_graph b (graph b')
  | (Raise _, b') => b' = b
  end.
Proof.
  unfold add_doctype_node, bind, lift_outcome, call_add_node.
  destruct (doctype_metadata w T m) as [md|e]; [|reflexivity].
  destruct (add_node_clash md) eqn:A; [reflexivity|].
  unfold on_graph.
  destruct (nx_add_node T md (graph b)) as [[[]|e] g'] eqn:R.
  - exists md. cbn [graph with_graph]. auto.
  - apply nx_add_node_raise in R. destruct R as [-> _]. apply with_graph_same.
Qed.

(** The call returns whenever the attributes can be computed, none of them
    is named after a parameter of [add_node], and the name can be a node. *)
Lemma add_doctype_node_returns (w : World) (T : value) (m : option attrs)
  (b : Builder) (md : attrs) :
  doctype_metadata w T m = Ret md ->
  add_node_clash md = false ->
  endpoint_ok (graph b) T = true ->
  exists b', add_doctype_node w T m b = (Ret tt, b').
Proof.
  intros Hmd Ha Hok.
  unfold add_doctype_node, bind, lift_outcome, call_add_node.
  rewrite Hmd, Ha. unfold on_graph.
  destruct (nx_add_node_ok T md (graph b) Hok) as (g' & -> & _). eauto.
Qed.

(** With the default metadata and a schema whose [fields] entry is a list
    (or missing), as the server sends it, the attributes can be computed. *)
Lemma doctype_metadata_default (w : World) (T : value) :
  is_list (py_get_default (get_doctype_schema (erpnext w) T) "fields" (VList []))
  = true ->
  exists md, doctype_metadata w T None = Ret md /\
             add_node_clash md = false.
Proof.
  unfold doctype_metadata. intros H.
  destruct (truthy (VDict (get_doctype_schema (erpnext w) T))).
  - destruct (py_get_default _ "fields" _); try discriminate.
    cbn [py_len]. eexists. split; reflexivity.
  - eexists. split; reflexivity.
Qed.



(** The first early return: the connection test fails. *)
Lemma build_doctype_schema_graph_not_connected (w : World) (b : Builder) :
  test_connection (erpnext w) = false ->
  build_doctype_schema_graph w b =
    (Ret (schema_set_error CouldNotConnect new_schema_results), b).
Proof.
  intros H. unfold build_doctype_schema_graph. rewrite H. reflexivity.
Qed.

(** The second early return: the server is reached and lists nothing. *)
Lemma build_doctype_schema_graph_no_doctypes (w : World) (b : Builder) :
  test_connection (erpnext w) = true ->
  get_doctypes (erpnext w) = [] ->
  build_doctype_schema_graph w b =
    (Ret (schema_set_error NoDocTypesFound new_schema_results), b).
Proof.
  intros Hc Hd. unfold build_doctype_schema_graph. rewrite Hc, Hd. reflexivity.
Qed.

(** C5: when the connection test fails, or succeeds with an empty type
    listing, the build returns at once: no type is counted, the builder
    (graph included) is handed back untouched, and the [error] entry tells
    the two cases apart: a connection failure in the first, "no types
    found" in the second. *)
Theorem build_doctype_schema_graph_aborts (w : World) (b : Builder) :
  test_connection (erpnext w) = false \/ get_doctypes (erpnext w) = [] ->
  build_doctype_schema_graph w b =
    (Ret {| doctypes_processed := 0; schema_relationships_found := 0;
            schema_errors := [];
            schema_error :=
              Some (if test_connection (erpnext w)
                    then NoDocTypesFound else CouldNotConnect) |}, b)
  /\ error_message CouldNotConnect = "Could not connect to ERPNext"
  /\ error_message NoDocTypesFound = "No DocTypes found"
  /\ error_message CouldNotConnect <> error_message NoDocTypesFound.
Proof.
  intros H. split; [|repeat split; discriminate].
  destruct (test_connection (erpnext w)) eqn:Hc.
  - destruct H as [H|H]; [discriminate|].
    exact (build_doctype_schema_graph_no_doctypes w b Hc H).
  - exact (build_doctype_schema_graph_not_connected w b Hc).
Qed.

Lemma build_doctype_schema_graph_aborts_witness :
  build_doctype_schema_graph offline_world (init_builder "out") =
    (Ret {| doctypes_processed := 0; schema_relationships_found := 0;
            schema_errors := []; schema_error := Some CouldNotConnect |},
     init_builder "out") /\
  build_doctype_schema_graph (world_of empty_connector) (init_builder "out") =
    (Ret {| doctypes_processed := 0; schema_relationships_found := 0;
            schema_errors := []; schema_error := Some NoDocTypesFound |},
     init_builder "out").
Proof.
  split.
  - exact (proj1 (build_doctype_schema_graph_aborts offline_world
                    (init_builder "out") (or_introl eq_refl))).
  - exact (proj1 (build_doctype_schema_graph_aborts (world_of empty_connector)
                    (init_builder "out") (or_intror eq_refl))).
Defined.



(** An empty schema ends the discovery before the static table is read. *)
Lemma discover_without_schema (w : World) (doctype : value) :
  get_doctype_schema (erpnext w) doctype = [] ->
  discover_doctype_relationships w doctype = no_relationships.
Proof.
  intros H. unfold discover_doctype_relationships, try_except, discover_try.
  rewrite H. reflexivity.
Qed.

(** With a schema that is not empty and whose fields are scanned without
    error, the associations of the static table are appended to what the
    fields gave. *)
Lemma discover_with_schema (w : World) (doctype : value) (fields : list value)
  (r : Relationships) :
  truthy (VDict (get_doctype_schema (erpnext w) doctype)) = true ->
  py_iter (py_get_default (get_doctype_schema (erpnext w) doctype) "fields"
             (VList [])) = Ret fields ->
  for_each fields scan_field no_relationships = (Ret tt, r) ->
  hashable doctype = true ->
  links_to (discover_doctype_relationships w doctype) =
  links_to r ++ match dict_get key_eqb known_relationships doctype with
                | Some l => l
                | None => []
                end.
Proof.
  intros Ht Hi Hs Hh.
  unfold discover_doctype_relationships, try_except, discover_try.
  rewrite Ht. cbn [negb]. unfold bind, lift_outcome. rewrite Hi, Hs.
  unfold known_for. rewrite Hh. cbn [negb].
  destruct (dict_get key_eqb known_relationships doctype);
    cbn; rewrite ?app_nil_r; reflexivity.
Qed.

(** C1, at the failing input: [Customer] is in the static table, the schema
    fetch yields the empty dictionary, and [links_to] comes back empty. *)
Theorem discover_customer_without_schema :
  dict_get key_eqb known_relationships (VStr "Customer")
  = Some [VStr "Sales Order"; VStr "Sales Invoice"; VStr "Quotation";
          VStr "Opportunity"] /\
  get_doctype_schema schemaless_connector (VStr "Customer") = [] /\
  links_to (discover_doctype_relationships (world_of schemaless_connector)
              (VStr "Customer")) = [].
Proof. repeat split. Qed.

Lemma length_edges_of_succ (u : value) (s : list (value * keydict)) :
  List.length (edges_of_succ u s) = sum_lengths s.
Proof.
  induction s as [|[v kd] r IH]; simpl; auto.
  rewrite length_app, length_map, IH. reflexivity.
Qed.

Lemma filter_source_edges_of_succ (u n : value) (s : list (value * keydict)) :
  filter (fun e => key_eqb (edge_source e) n) (edges_of_succ u s)
  = if key_eqb u n then edges_of_succ u s else [].
Proof.
  induction s as [|[v kd] r IH]; simpl.
  - destruct (key_eqb u n); reflexivity.
  - rewrite filter_app, IH.
    assert (H : filter (fun e => key_eqb (edge_source e) n)
                  (map (fun c : value * attrs => (u, v, fst c, snd c)) kd)
                = if key_eqb u n
                  then map (fun c : value * attrs => (u, v, fst c, snd c)) kd
                  else []).
    { induction kd as [|c kd IHk]; simpl.
      - destruct (key_eqb u n); reflexivity.
      - unfold edge_source at 1. simpl. rewrite IHk.
        destruct (key_eqb u n); reflexivity. }
    rewrite H. destruct (key_eqb u n); reflexivity.
Qed.

Lemma dict_get_none_congr {V : Type} (d : list (value * V)) (k k' : value) :
  key_eqb k k' = true -> dict_get key_eqb d k = None ->
  dict_get key_eqb d k' = None.
Proof.
  intros H G. rewrite <- G. symmetry.
  apply (dict_get_congr key_eqb key_eqb_congr key_eqb_sym). exact H.
Qed.

Lemma edges_out_absent (g : MultiDiGraph) (n : value) :
  node_get g n = None -> edges_out g n = 0.
Proof.
  unfold edges_out, node_get.
  induction g as [|[u e] r IH]; [reflexivity|].
  cbn [dict_get]. destruct (key_eqb u n) eqn:E; [discriminate|].
  intros H. rewrite edges_cons, filter_app, length_app, edges_from_succ.
  rewrite filter_source_edges_of_succ, E. simpl. auto.
Qed.

Lemma out_degree_edges (g : MultiDiGraph) (n : value) :
  unique_keys g = true -> out_degree g n = edges_out g n.
Proof.
  unfold out_degree, edges_out, node_get.
  induction g as [|[u e] r IH]; [reflexivity|].
  cbn [unique_keys dict_get].
  intros H. apply andb_true_iff in H. destruct H as [Hu Hr].
  rewrite edges_cons, filter_app, length_app, edges_from_succ.
  rewrite filter_source_edges_of_succ.
  destruct (key_eqb u n) eqn:E.
  - rewrite length_edges_of_succ.
    fold (edges_out r n). rewrite edges_out_absent; [lia|].
    apply negb_true_iff in Hu. unfold dict_mem in Hu.
    destruct (dict_get key_eqb r u) eqn:G; [discriminate|].
    eapply dict_get_none_congr; eauto.
  - simpl. auto.
Qed.

(** The edges of one successor dictionary that enter [n]. *)
Lemma filter_target_edges_of_succ (u n : value) (s : list (value * keydict)) :
  unique_keys s = true ->
  List.length (filter (fun e => key_eqb (edge_target e) n) (edges_of_succ u s))
  = match dict_get key_eqb s n with
    | Some kd => List.length kd
    | None => 0
    end.
Proof.
  induction s as [|[v kd] r IH]; simpl; auto.
  intros H. apply andb_true_iff in H. destruct H as [Hv Hr].
  rewrite filter_app, length_app, (IH Hr).
  assert (H : filter (fun e => key_eqb (edge_target e) n)
                (map (fun c : value * attrs => (u, v, fst c, snd c)) kd)
              = if key_eqb v n
                then map (fun c : value * attrs => (u, v, fst c, snd c)) kd
                else []).
  { clear. induction kd as [|c kd IHk]; simpl.
    - destruct (key_eqb v n); reflexivity.
    - unfold edge_target at 1. simpl. rewrite IHk.
      destruct (key_eqb v n); reflexivity. }
  rewrite H. destruct (key_eqb v n) eqn:E.
  - rewrite length_map.
    apply negb_true_iff in Hv. unfold dict_mem in Hv.
    destruct (dict_get key_eqb r v) eqn:G; [discriminate|].
    rewrite (dict_get_none_congr r v n E G). lia.
  - reflexivity.
Qed.

Lemma in_degree_edges (g : MultiDiGraph) (n : value) :
  forallb (fun ne => unique_keys (succ (snd ne))) g = true ->
  in_degree g n = edges_in g n.
Proof.
  unfold in_degree, edges_in.
  induction g as [|[u e] r IH]; [reflexivity|].
  cbn [fold_right forallb snd].
  intros H. apply andb_true_iff in H. destruct H as [Hu Hr].
  rewrite edges_cons, filter_app, length_app, edges_from_succ.
  rewrite (filter_target_edges_of_succ u n (succ e) Hu), <- (IH Hr).
  destruct (dict_get key_eqb (succ e) n); reflexivity.
Qed.

Lemma degree_congr (g : MultiDiGraph) (k n : value) :
  key_eqb k n = true -> degree g k = degree g n.
Proof.
  intros H. unfold degree, out_degree, in_degree, node_get.
  rewrite (dict_get_congr key_eqb key_eqb_congr key_eqb_sym g k n H).
  f_equal. induction g as [|[u e] r IH]; simpl; auto.
  rewrite (dict_get_congr key_eqb key_eqb_congr key_eqb_sym (succ e) k n H), IH.
  reflexivity.
Qed.

Lemma dict_get_map_keys {V W : Type} (f : value -> W) (d : list (value * V))
  (n : value) :
  dict_mem key_eqb d n = true ->
  exists k, key_eqb k n = true /\
    dict_get key_eqb (map (fun c => (fst c, f (fst c))) d) n = Some (f k).
Proof.
  unfold dict_mem. induction d as [|[k v] r IH]; simpl; [discriminate|].
  destruct (key_eqb k n) eqn:E; eauto.
Qed.

(** In a well-formed graph the degree networkx reports is the number of
    entries of the edge list that leave the node plus those that enter it. *)
Lemma degree_edges (g : MultiDiGraph) (n : value) :
  well_formed g = true -> degree g n = edges_out g n + edges_in g n.
Proof.
  unfold well_formed. intros H.
  apply andb_true_iff in H. destruct H as [Hu Hs]. unfold degree.
  now rewrite (out_degree_edges g n Hu), (in_degree_edges g n Hs).
Qed.

Lemma scaled_degree (g : MultiDiGraph) (n : value) :
  well_formed g = true ->
  (inject_Z (Z.of_nat (degree g n))
   * (1 / (inject_Z (Z.of_nat (List.length g)) - 1))
   == edge_count_centrality g n)%Q.
Proof.
  intros H. rewrite (degree_edges g n H), (Nat.add_comm (edges_out g n)).
  unfold edge_count_centrality, number_of_nodes, Qdiv.
  rewrite Qmult_1_l. reflexivity.
Qed.


Lemma centrality_of_node (g : MultiDiGraph) (n : value) :
  well_formed g = true ->
  2 <= number_of_nodes g ->
  has_node g n = true ->
  exists q,
    dict_get key_eqb (degree_centrality g) n = Some q /\
    (q == edge_count_centrality g n)%Q.
Proof.
  intros Hwf Hn Hm.
  rewrite has_node_mem in Hm. unfold degree_centrality.
  unfold number_of_nodes in Hn.
  destruct (List.length g <=? 1) eqn:L; [apply Nat.leb_le in L; lia|].
  set (s := (1 / (inject_Z (Z.of_nat (List.length g)) - 1))%Q).
  destruct (dict_get_map_keys
              (fun k => (inject_Z (Z.of_nat (degree g k)) * s)%Q) g n Hm)
    as (k & Hk & G).
  exists (inject_Z (Z.of_nat (degree g k)) * s)%Q. split; [exact G|].
  rewrite (degree_congr g k n Hk). apply scaled_degree, Hwf.
Qed.

(** The ranking shows entries of the centrality dictionary only. *)
Lemma insert_desc_In (x y : value * Q) (l : list (value * Q)) :
  In y (insert_desc x l) -> y = x \/ In y l.
Proof.
  induction l as [|z r IH]; cbn [insert_desc].
  - intros [<-|[]]. auto.
  - destruct (Qle_bool (snd z) (snd x)).
    + intros [<-|H]; auto.
    + intros [<-|H].
      * right. left. reflexivity.
      * destruct (IH H) as [->|H']; auto. right. right. exact H'.
Qed.


Lemma firstn_incl {A : Type} (k : nat) (l : list A) (y : A) :
  In y (firstn k l) -> In y l.
Proof.
  revert l. induction k as [|k IH]; intros [|x r]; cbn [firstn]; auto.
  - intros [].
  - intros [<-|H]; [left|right]; auto.
Qed.


(** With at most one node every centrality is 1. *)
Lemma degree_centrality_small (g : MultiDiGraph) (n : value) (q : Q) :
  number_of_nodes g <= 1 -> In (n, q) (degree_centrality g) -> q = 1%Q.
Proof.
  unfold degree_centrality, number_of_nodes. intros H.
  apply Nat.leb_le in H. rewrite H. intros Hin.
  apply in_map_iff in Hin. destruct Hin as (ne & E & _). congruence.
Qed.



Section Preserves.
Context {S : Type}.
Variable view : S -> MultiDiGraph.
Variable P : MultiDiGraph -> Prop.

Lemma preserves_ret {A} (a : A) : preserves view P (ret a).
Proof. intros s H. exact H. Qed.

Lemma preserves_raise {A} (e : exn) : preserves view P (@raise S A e).
Proof. intros s H. exact H. Qed.

Lemma preserves_lift_outcome {A} (o : outcome A) :
  preserves view P (lift_outcome o).
Proof. intros s H. exact H. Qed.

Lemma preserves_get_state : preserves view P get_state.
Proof. intros s H. exact H. Qed.

(** [s <- get_state ;; f s]: the value read is the current state. *)
Lemma preserves_read {A} (f : S -> M S A) :
  (forall s, P (view s) -> P (view (snd (f s s)))) ->
  preserves view P (bind get_state f).
Proof. intros Hf s H. unfold bind, get_state. apply Hf. exact H. Qed.

Lemma preserves_bind {A B} (m : M S A) (f : A -> M S B) :
  preserves view P m -> (forall a, preserves view P (f a)) ->
  preserves view P (bind m f).
Proof.
  intros Hm Hf s H. unfold bind. specialize (Hm s H).
  destruct (m s) as [[a|e] s']; cbn [snd] in *; auto.
  apply Hf. exact Hm.
Qed.

Lemma preserves_try_except {A} (m : M S A) (h : exn -> M S A) :
  preserves view P m -> (forall e, preserves view P (h e)) ->
  preserves view P (try_except m h).
Proof.
  intros Hm Hh s H. unfold try_except. specialize (Hm s H).
  destruct (m s) as [[a|e] s']; cbn [snd] in *; auto.
  apply Hh. exact Hm.
Qed.

Lemma preserves_for_each {X} (l : list X) (body : X -> M S unit) :
  (forall x, In x l -> preserves view P (body x)) ->
  preserves view P (for_each l body).
Proof.
  induction l as [|x r IH]; intros Hb; cbn [for_each].
  - apply preserves_ret.
  - apply preserves_bind.
    + apply Hb. left. reflexivity.
    + intros _. apply IH. intros y Hy. apply Hb. right. exact Hy.
Qed.

End Preserves.

Lemma preserves_on_builder {R A} (P : MultiDiGraph -> Prop) (m : M Builder A) :
  preserves graph P m -> preserves (@build_graph R) P (on_builder m).
Proof.
  intros Hm [b r] H. unfold on_builder, build_graph in *. cbn [fst snd] in *.
  specialize (Hm b H). destruct (m b) as [o b']. exact Hm.
Qed.

Lemma preserves_on_results {R} (P : MultiDiGraph -> Prop) (f : R -> R) :
  preserves (@build_graph R) P (on_results f).
Proof. intros [b r] H. exact H. Qed.

Lemma preserves_with_results {R} (P : MultiDiGraph -> Prop) (r0 : R)
  (m : M (Builder * R) unit) :
  preserves (@build_graph R) P m -> preserves graph P (with_results r0 m).
Proof.
  intros Hm b H. unfold with_results. specialize (Hm (b, r0) H).
  destruct (m (b, r0)) as [[[]|e] [b' r]]; exact Hm.
Qed.

Lemma preserves_on_graph {A} (P : MultiDiGraph -> Prop) (m : M MultiDiGraph A) :
  preserves (fun g => g) P m -> preserves graph P (on_graph m).
Proof.
  intros Hm b H. unfold on_graph. specialize (Hm (graph b) H).
  destruct (m (graph b)) as [o g]. exact Hm.
Qed.

Lemma preserves_on_files {A} (P : MultiDiGraph -> Prop) (m : M files A) :
  preserves graph P (on_files m).
Proof.
  intros b H. unfold on_files. destruct (m (written b)) as [o f]. exact H.
Qed.

Lemma preserves_datetime_now (P : MultiDiGraph -> Prop) (w : World) :
  preserves graph P (datetime_now w).
Proof. intros b H. exact H. Qed.

(** ** What the graph operations do to the edge list *)

Lemma nx_add_node_edges (n : value) (a : attrs) (g g' : MultiDiGraph) o :
  nx_add_node n a g = (o, g') -> edges g' = edges g.
Proof.
  intros H. destruct o as [[]|e].
  - destruct (endpoint_ok g n) eqn:E.
    + destruct (nx_add_node_ok n a g E) as (g1 & H1 & He & _).
      rewrite H in H1. now injection H1 as <-.
    + exfalso. revert H E. unfold nx_add_node, endpoint_ok.
      rewrite node_mem_get.
      destruct (hashable n); simpl; [|discriminate].
      destruct (node_get g n); [discriminate|].
      destruct n; simpl; discriminate.
  - apply nx_add_node_raise in H. now destruct H as [-> _].
Qed.

Lemma ensure_node_cases (n : value) (g : MultiDiGraph) :
  match ensure_node n g with
  | (Ret _, g1) =>
      endpoint_ok g n = true /\ edges g1 = edges g /\ node_mem g1 n = true /\
      (forall m, node_mem g m = true -> node_mem g1 m = true)
  | (Raise _, g1) => g1 = g
  end.
Proof.
  destruct (endpoint_ok g n) eqn:E.
  - destruct (ensure_node_spec n g E) as (g1 & -> & He & Hm & Hmono & _).
    auto.
  - destruct (ensure_node_fail n g E) as (e & ->). reflexivity.
Qed.


(** ** Merging attribute dictionaries *)

Lemma attr_update_cons (d r : attrs) (k : string) (v : value) :
  attr_update d ((k, v) :: r) = attr_update (attr_set d k v) r.
Proof. reflexivity. Qed.

Lemma attr_get_update_absent (a d : attrs) (k : string) :
  attr_mem a k = false -> attr_get (attr_update d a) k = attr_get d k.
Proof.
  revert d.
  induction a as [|[k0 v0] r IH]; intros d H; [reflexivity|].
  unfold attr_mem, dict_mem in H. cbn [dict_get] in H.
  destruct (String.eqb k0 k) eqn:E; [discriminate|].
  rewrite attr_update_cons, IH by exact H.
  rewrite attr_get_set, E. reflexivity.
Qed.

Lemma attr_get_update_present (a d : attrs) (k : string) (v : value) :
  attrs_unique a = true -> attr_get a k = Some v ->
  attr_get (attr_update d a) k = Some v.
Proof.
  revert d.
  induction a as [|[k0 v0] r IH]; intros d U G; [discriminate|].
  cbn [attrs_unique] in U. apply andb_true_iff in U. destruct U as [U1 U2].
  apply negb_true_iff in U1.
  unfold attr_get in G. cbn [dict_get] in G. rewrite attr_update_cons.
  destruct (String.eqb k0 k) eqn:E.
  - injection G as ->. apply String.eqb_eq in E. subst k0.
    rewrite attr_get_update_absent by exact U1.
    rewrite attr_get_set, String.eqb_refl. reflexivity.
  - apply IH; auto.
Qed.

Lemma attr_set_unique (d : attrs) (k : string) (v : value) :
  attrs_unique d = true -> attrs_unique (attr_set d k v) = true.
Proof.
  induction d as [|[k0 v0] r IH]; intros U; [reflexivity|].
  cbn [attrs_unique] in U. apply andb_true_iff in U. destruct U as [U1 U2].
  unfold attr_set. cbn [dict_set].
  destruct (String.eqb k0 k) eqn:E; cbn [attrs_unique].
  - rewrite U1, U2. reflexivity.
  - fold (attr_set r k v).
    rewrite attr_mem_set, (String.eqb_sym k k0), E, (IH U2).
    apply negb_true_iff in U1. rewrite U1. reflexivity.
Qed.






(** ** The tag invariant *)

Lemma add_doctype_node_edges (w : World) (T : value) (m : option attrs)
  (b : Builder) :
  edges (graph (snd (add_doctype_node w T m b))) = edges (graph b).
Proof.
  pose proof (add_doctype_node_cases w T m b) as C.
  destruct (add_doctype_node w T m b) as [[[]|e] b']; cbn [snd].
  - destruct C as (md & _ & _ & N & _). eapply nx_add_node_edges; eauto.
  - now subst b'.
Qed.



Lemma references_not_instance_of (f : string) :
  String.eqb ("references_" ++ f) "instance_of" = false.
Proof. reflexivity. Qed.


Lemma export_graph_keeps_graph (P : MultiDiGraph -> Prop) (w : World)
  (format : string) : preserves graph P (export_graph w format).
Proof.
  unfold export_graph.
  apply preserves_bind; [apply preserves_datetime_now|]. intros t.
  apply preserves_bind; [apply preserves_get_state|]. intros b.
  apply preserves_try_except; [|intros e; apply preserves_raise].
  apply preserves_bind; [|intros _; apply preserves_ret].
  destruct (String.eqb format "graphml"); [apply preserves_on_files|].
  destruct (String.eqb format "json"); [apply preserves_on_files|].
  destruct (String.eqb format "gexf"); [apply preserves_on_files|].
  apply preserves_raise.
Qed.

Lemma preserves_collect {S X Y : Type} (view : S -> MultiDiGraph)
  (P : MultiDiGraph -> Prop) (l : list X) (f : X -> M S Y) :
  (forall x, preserves view P (f x)) -> preserves view P (collect l f).
Proof.
  intros Hf. induction l as [|x r IH]; cbn [collect].
  - apply preserves_ret.
  - apply preserves_bind; [apply Hf|]. intros y.
    apply preserves_bind; [exact IH|]. intros ys. apply preserves_ret.
Qed.

Lemma export_all_keeps_graph (P : MultiDiGraph -> Prop) (w : World)
  (formats : list string) (acc : list Path) :
  preserves graph P (export_all w formats acc).
Proof.
  revert acc. induction formats as [|fmt r IH]; intros acc; cbn [export_all].
  - apply preserves_ret.
  - apply preserves_bind.
    + apply preserves_try_except; [|intros e; apply preserves_ret].
      apply preserves_bind; [apply export_graph_keeps_graph|].
      intros p. apply preserves_ret.
    + intros [p|]; [apply IH | apply preserves_ret].
Qed.

(** A property of the graph that the three elementary methods keep, each
    as the builds call it, is kept by the builds. *)
Section Builds.
Variable P : MultiDiGraph -> Prop.
Hypothesis doctype_node_keeps :
  forall w T m, preserves graph P (add_doctype_node w T m).
Hypothesis document_node_keeps :
  forall w doctype doc_name doc_data,
    preserves graph P (add_document_node w doctype doc_name doc_data).
Hypothesis relationship_edge_keeps :
  forall w u v kind,
    String.eqb kind "instance_of" = false ->
    preserves graph P (add_relationship_edge w u v kind None).

Lemma build_doctype_schema_graph_keeps (w : World) :
  preserves graph P (build_doctype_schema_graph w).
Proof.
  unfold build_doctype_schema_graph.
  destruct (negb (test_connection (erpnext w))); [apply preserves_ret|].
  destruct (get_doctypes (erpnext w)) as [|d0 ds]; [apply preserves_ret|].
  apply preserves_with_results, preserves_bind.
  - apply preserves_for_each. intros x _.
    apply preserves_try_except.
    + apply preserves_bind.
      * apply preserves_on_builder, doctype_node_keeps.
      * intros _. apply preserves_on_results.
    + intros e. apply preserves_on_results.
  - intros _. apply preserves_for_each. intros x _.
    apply preserves_try_except; [|intros e; apply preserves_on_results].
    apply preserves_bind; [|intros _];
      (apply preserves_for_each; intros t _;
       apply preserves_bind; [apply preserves_get_state|]; intros s;
       destruct (has_node (graph (fst s)) t); [|apply preserves_ret];
       apply preserves_bind; [|intros _; apply preserves_on_results];
       apply preserves_on_builder, relationship_edge_keeps; reflexivity).
Qed.

Lemma build_document_relationship_graph_keeps (w : World) (doctype : string)
  (limit : Z) :
  preserves graph P (build_document_relationship_graph w doctype limit).
Proof.
  unfold build_document_relationship_graph.
  apply preserves_with_results, preserves_try_except;
    [|intros e; apply preserves_on_results].
  destruct (get_sample_documents (erpnext w) doctype limit) as [|d0 ds];
    [apply preserves_on_results|].
  apply preserves_bind.
  - apply preserves_for_each. intros doc _.
    apply preserves_try_except; [|intros e; apply preserves_on_results].
    cbv zeta. destruct (truthy (py_get doc "name")); [|apply preserves_ret].
    apply preserves_bind.
    + apply preserves_on_builder, document_node_keeps.
    + intros node_id. apply preserves_on_results.
  - intros _. apply preserves_bind; [apply preserves_get_state|]. intros s.
    apply preserves_for_each. intros [node_id doc] _.
    apply preserves_try_except; [|intros e; apply preserves_on_results].
    apply preserves_for_each. intros [field_name field_value] _.
    destruct field_value; try apply preserves_ret.
    destruct (truthy (VStr s0)); [|apply preserves_ret].
    apply preserves_for_each. intros [other_node_id other_doc] _.
    destruct (negb (String.eqb other_node_id node_id)
              && eq_str (py_get other_doc "name") s0); [|apply preserves_ret].
    apply preserves_bind; [|intros _; apply preserves_on_results].
    apply preserves_on_builder, relationship_edge_keeps,
      references_not_instance_of.
Qed.

Lemma build_complete_knowledge_graph_keeps (w : World) :
  preserves graph P (build_complete_knowledge_graph w).
Proof.
  unfold build_complete_knowledge_graph.
  apply preserves_bind; [apply build_doctype_schema_graph_keeps|]. intros sg.
  apply preserves_bind.
  - apply preserves_collect. intros doctype.
    apply preserves_bind; [apply build_document_relationship_graph_keeps|].
    intros r. apply preserves_ret.
  - intros dgs. apply preserves_bind; [apply export_all_keeps_graph|].
    intros paths. apply preserves_bind; [apply preserves_get_state|].
    intros b. apply preserves_bind; [apply preserves_lift_outcome|].
    intros st. apply preserves_ret.
Qed.

End Builds.






(** ** Histograms *)

Lemma lookup_congr (h : list (value * nat)) (k k' : value) :
  key_eqb k k' = true -> lookup h k = lookup h k'.
Proof.
  intros H. unfold lookup.
  now rewrite (dict_get_congr key_eqb key_eqb_congr key_eqb_sym h k k' H).
Qed.

Lemma tally_cons (t0 : value) (r : list value) (t : value) :
  tally (t0 :: r) t = (if key_eqb t0 t then 1 else 0) + tally r t.
Proof. unfold tally. cbn [filter]. destruct (key_eqb t0 t); reflexivity. Qed.

(** Counting hashable tags never raises, and the entry of a tag is the count
    it started with plus the number of its occurrences. *)
Lemma count_tags_spec (tags : list value) (h0 : list (value * nat)) :
  forallb hashable tags = true ->
  exists h,
    count_tags tags h0 = Ret h /\
    forall t,
      dict_get key_eqb h t =
      if tally tags t =? 0 then dict_get key_eqb h0 t
      else Some (lookup h0 t + tally tags t).
Proof.
  revert h0. induction tags as [|t0 r IH]; intros h0 Hh.
  - exists h0. split; [reflexivity|]. intros t. reflexivity.
  - cbn [forallb] in Hh. apply andb_true_iff in Hh. destruct Hh as [H0 Hr].
    cbn [count_tags]. rewrite H0. cbn [negb].
    fold (lookup h0 t0).
    destruct (IH (dict_set key_eqb h0 t0 (lookup h0 t0 + 1)) Hr) as (h & R & Hh).
    exists h. split; [exact R|]. intros t. rewrite Hh, tally_cons.
    unfold lookup at 2.
    rewrite !(dict_get_set key_eqb key_eqb_congr key_eqb_sym)
      by (apply key_eqb_refl; exact H0).
    destruct (key_eqb t0 t) eqn:E.
    + rewrite (lookup_congr h0 t0 t E). cbn [Nat.add Nat.eqb].
      destruct (tally r t =? 0) eqn:Z.
      * apply Nat.eqb_eq in Z. rewrite Z. reflexivity.
      * f_equal. lia.
    + fold (lookup h0 t). reflexivity.
Qed.








Lemma nx_add_node_ret_ok (n : value) (a : attrs) (g g' : MultiDiGraph) :
  nx_add_node n a g = (Ret tt, g') -> endpoint_ok g n = true.
Proof.
  unfold nx_add_node, endpoint_ok. rewrite node_mem_get.
  destruct (hashable n); simpl; [|discriminate].
  destruct (node_get g n); [reflexivity|].
  destruct n; simpl; auto; discriminate.
Qed.

Lemma has_node_congr (g : MultiDiGraph) (k k' : value) :
  key_eqb k k' = true -> has_node g k = has_node g k'.
Proof.
  intros H. unfold has_node, node_mem, dict_mem.
  rewrite (dict_get_congr key_eqb key_eqb_congr key_eqb_sym g k k' H).
  now rewrite (key_eqb_hashable_l _ _ H), (key_eqb_hashable_r _ _ H).
Qed.

Lemma endpoint_ok_keys (g g' : MultiDiGraph) (n : value) :
  map fst g' = map fst g -> endpoint_ok g' n = endpoint_ok g n.
Proof.
  intros H. unfold endpoint_ok, node_mem.
  now rewrite (dict_mem_keys key_eqb g' g n H).
Qed.

Lemma doctype_metadata_none_keys (w : World) (d : value) (md : attrs) :
  doctype_metadata w d None = Ret md -> add_node_clash md = false.
Proof.
  unfold doctype_metadata.
  destruct (truthy (VDict (get_doctype_schema (erpnext w) d))).
  - destruct (py_len _); [|discriminate]. intros [= <-]. reflexivity.
  - intros [= <-]. reflexivity.
Qed.

(** When the attributes of a type cannot be computed, the resolver fails on
    the same schema and reports nothing. *)
Lemma doctype_metadata_raise_discovers_nothing (w : World) (d : value) m e :
  doctype_metadata w d m = Raise e -> discovers_nothing w d.
Proof.
  unfold doctype_metadata, discovers_nothing, discover_doctype_relationships,
    try_except, discover_try.
  destruct (truthy (VDict (get_doctype_schema (erpnext w) d)));
    [|discriminate]. cbn [negb].
  unfold bind, lift_outcome.
  destruct (py_get_default (get_doctype_schema (erpnext w) d) "fields" (VList []));
    cbn [py_len py_iter]; try discriminate; intros _; split; reflexivity.
Qed.

Lemma source_safe_mono (w : World) (g g' : MultiDiGraph) (d : value) :
  (forall n, node_mem g n = true -> node_mem g' n = true) ->
  source_safe w g d -> source_safe w g' d.
Proof.
  intros Hm [H|H]; [left|right; exact H].
  rewrite has_node_mem in *. auto.
Qed.

(** One step of the node pass. *)
Lemma add_doctype_node_safe (w : World) (d : value) (b : Builder) :
  let b' := snd (add_doctype_node w d None b) in
  (forall n, node_mem (graph b) n = true -> node_mem (graph b') n = true) /\
  source_safe w (graph b') d.
Proof.
  intros b'. subst b'.
  unfold add_doctype_node, bind, lift_outcome, call_add_node.
  destruct (doctype_metadata w d None) as [md|e] eqn:D; cbn [snd].
  - rewrite (doctype_metadata_none_keys w d md D). unfold on_graph.
    destruct (nx_add_node d md (graph b)) as [[[]|e] g'] eqn:N;
      cbn [snd graph with_graph].
    + pose proof (nx_add_node_ret_ok _ _ _ _ N) as Hok.
      destruct (nx_add_node_ok d md (graph b) Hok) as (g1 & N1 & _ & K & G).
      rewrite N in N1. injection N1 as <-. split.
      * intros n Hn. rewrite node_mem_of_keys, K.
        destruct (node_mem (graph b) d);
          rewrite ?existsb_app, <- node_mem_of_keys, Hn; reflexivity.
      * left. rewrite has_node_mem, node_mem_get, G. reflexivity.
    + apply nx_add_node_raise in N. destruct N as [-> Hbad]. split; [auto|].
      unfold endpoint_ok in Hbad. right.
      destruct (hashable d); [right|left; reflexivity].
      cbn [andb] in Hbad. apply orb_false_iff in Hbad. destruct Hbad as [_ Hn].
      apply negb_false_iff, is_none_eqb in Hn. left. exact Hn.
  - split; [auto|]. right. right. right.
    eapply doctype_metadata_raise_discovers_nothing; eauto.
Qed.

Lemma add_doctype_nodes_spec (w : World) (doctypes : list value)
  (s0 : Builder * SchemaResults) :
  let s1 := snd (add_doctype_nodes w doctypes s0) in
  edges (graph (fst s1)) = edges (graph (fst s0)) /\
  (forall n, node_mem (graph (fst s0)) n = true ->
             node_mem (graph (fst s1)) n = true) /\
  forall x, In x doctypes -> source_safe w (graph (fst s1)) (doctype_name x).
Proof.
  revert s0. induction doctypes as [|x r IH]; intros [b res]; cbn zeta.
  - split; [reflexivity|]. split; [auto|]. intros x [].
  - unfold add_doctype_nodes. cbn [for_each].
    fold (add_doctype_nodes w r).
    unfold bind at 1, try_except, bind, on_builder, on_results.
    cbn [fst snd].
    pose proof (add_doctype_node_safe w (doctype_name x) b) as [Hm Hs].
    pose proof (add_doctype_node_edges w (doctype_name x) None b) as He.
    destruct (add_doctype_node w (doctype_name x) None b) as [[[]|e] b1];
      cbn [fst snd] in *;
      (match goal with
       | |- context [add_doctype_nodes w r ?s] =>
           destruct (IH s) as (E1 & M1 & S1); cbn [fst snd] in *
       end;
       split; [congruence|]; split; [auto|];
       intros y [<-|Hy]; [eapply source_safe_mono; eauto | auto]).
Qed.

(** ** The edge pass *)

Lemma attr_get_edge_data_none (w : World) (b : Builder) (kind : string) :
  attr_get (attr_update [] (edge_kwargs w b kind None)) "relationship_type"
  = Some (VStr kind).
Proof. reflexivity. Qed.

Lemma add_relationship_edge_bad_source (w : World) (u v : value) kind md
  (b : Builder) :
  endpoint_ok (graph b) u = false ->
  graph (snd (add_relationship_edge w u v kind md b)) = graph b.
Proof.
  intros H. rewrite add_relationship_edge_unfold. unfold call_add_edge.
  destruct (add_edge_clash _); [reflexivity|].
  unfold bind, on_graph. cbn [graph tick].
  destruct (nx_add_edge_bad_source u v
              (attr_get (edge_kwargs w b kind md) "key")
              (dict_remove String.eqb (edge_kwargs w b kind md) "key")
              (graph b) H) as (e & ->).
  reflexivity.
Qed.

Lemma add_edges_to_known_inv (w : World) (g1 : MultiDiGraph) (d : value)
  (kind : string) (targets : list value) :
  has_node g1 d = true \/ endpoint_ok g1 d = false ->
  kind = "links_to" \/ kind = "has_child_table" ->
  preserves build_graph (edge_pass_inv g1) (add_edges_to_known w d kind targets).
Proof.
  intros Hd Hkind. unfold add_edges_to_known.
  apply preserves_for_each. intros t _.
  apply preserves_read. intros [b res] [Hk He].
  unfold build_graph in *. cbn [fst] in *.
  destruct (has_node (graph b) t) eqn:Htb; [|split; assumption].
  unfold bind, on_builder, on_results. cbn [fst snd].
  destruct Hd as [Hd|Hd].
  - (* the source is a node: one more edge, no new node *)
    assert (Hub : node_mem (graph b) d = true).
    { rewrite <- has_node_mem, (has_node_keys _ _ _ Hk). exact Hd. }
    assert (Hvb : node_mem (graph b) t = true) by (now rewrite <- has_node_mem).
    destruct (add_relationship_edge_new w d t kind None b
                (node_mem_endpoint_ok _ _ Hub) (node_mem_endpoint_ok _ _ Hvb)
                eq_refl)
      as (b' & k & l1 & l2 & u0 & v0 & R & Eg & Eg' & Hu0 & Hv0 & _ & _ & _
          & Same & _).
    rewrite R. cbn [fst snd]. split.
    + rewrite Same; auto.
    + intros e. rewrite Eg'. intros Hin.
      apply in_app_or in Hin. destruct Hin as [Hin|[<-|Hin]].
      * apply He. rewrite Eg. apply in_or_app. auto.
      * right. unfold schema_edge, edge_source, edge_target, edge_data.
        cbn [fst snd]. split; [|split].
        -- rewrite (has_node_congr g1 u0 d Hu0). exact Hd.
        -- rewrite (has_node_congr g1 v0 t Hv0),
             <- (has_node_keys _ _ t Hk). exact Htb.
        -- rewrite attr_get_edge_data_none.
           destruct Hkind as [-> | ->]; auto.
      * apply He. rewrite Eg. apply in_or_app. auto.
  - (* the source cannot be a node: the call raises, nothing changes *)
    assert (Hbad : endpoint_ok (graph b) d = false).
    { rewrite (endpoint_ok_keys _ _ d Hk). exact Hd. }
    pose proof (add_relationship_edge_bad_source w d t kind None b Hbad) as G.
    destruct (add_relationship_edge w d t kind None b) as [[[]|e] b'];
      cbn [fst snd] in *; rewrite G; split; assumption.
Qed.

Lemma source_safe_cases (w : World) (g : MultiDiGraph) (d : value) :
  source_safe w g d ->
  has_node g d = true \/ endpoint_ok g d = false \/ discovers_nothing w d.
Proof.
  intros [H|[H|[H|H]]]; auto.
  - right. left. unfold endpoint_ok. now rewrite H.
  - subst d. destruct (has_node g VNone) eqn:E; auto.
    right. left. rewrite has_node_mem in E. unfold endpoint_ok.
    rewrite E. reflexivity.
Qed.

Lemma add_doctype_relationships_inv (w : World) (g1 : MultiDiGraph)
  (doctypes : list value) :
  (forall x, In x doctypes -> source_safe w g1 (doctype_name x)) ->
  preserves build_graph (edge_pass_inv g1) (add_doctype_relationships w doctypes).
Proof.
  intros Hsafe. unfold add_doctype_relationships.
  apply preserves_for_each. intros x Hx. cbv zeta.
  apply preserves_try_except; [|intros e; apply preserves_on_results].
  destruct (source_safe_cases w g1 _ (Hsafe x Hx)) as [H|[H|[H1 H2]]].
  - apply preserves_bind; [|intros _];
      apply add_edges_to_known_inv; auto.
  - apply preserves_bind; [|intros _];
      apply add_edges_to_known_inv; auto.
  - rewrite H1, H2. apply preserves_bind; [|intros _]; apply preserves_ret.
Qed.

Lemma edge_pass_inv_start (g1 : MultiDiGraph) : edge_pass_inv g1 g1.
Proof. split; auto. Qed.

(** The edge pass adds an edge only between two nodes that are in the graph
    when the pass begins: it creates no node, and every edge of the final
    graph was there before or is a [links_to] / [has_child_table] edge whose
    source and target are both nodes the node pass left in the graph. *)
Lemma schema_edges_join_existing_nodes (w : World) (b : Builder)
  (doctypes : list value) :
  let s1 := snd (add_doctype_nodes w doctypes (b, new_schema_results)) in
  let s2 := snd (add_doctype_relationships w doctypes s1) in
  map fst (graph (fst s2)) = map fst (graph (fst s1)) /\
  forall e, In e (edges (graph (fst s2))) ->
    In e (edges (graph b)) \/
    (has_node (graph (fst s1)) (edge_source e) = true /\
     has_node (graph (fst s1)) (edge_target e) = true /\
     has_node (graph (fst s2)) (edge_source e) = true /\
     has_node (graph (fst s2)) (edge_target e) = true /\
     (attr_get (edge_data e) "relationship_type" = Some (VStr "links_to") \/
      attr_get (edge_data e) "relationship_type" = Some (VStr "has_child_table"))).
Proof.
  intros s1 s2.
  destruct (add_doctype_nodes_spec w doctypes (b, new_schema_results))
    as (E1 & _ & Hsafe).
  fold s1 in E1, Hsafe. cbn [fst] in E1.
  pose proof (add_doctype_relationships_inv w (graph (fst s1)) doctypes Hsafe
                s1 (edge_pass_inv_start _)) as [Hk He].
  fold s2 in Hk, He. unfold build_graph in *.
  split; [exact Hk|].
  intros e Hin. destruct (He e Hin) as [Hold|(Hs & Ht & Hkind)].
  - left. rewrite <- E1. exact Hold.
  - right. rewrite !(has_node_keys _ _ _ Hk). auto.
Qed.

(** Neither pass raises: every item runs under its own [try]. *)
Lemma for_each_returns {S X : Type} (l : list X) (body : X -> M S unit) (s : S) :
  (forall x s', In x l -> fst (body x s') = Ret tt) ->
  fst (for_each l body s) = Ret tt.
Proof.
  revert s. induction l as [|x r IH]; intros s H; [reflexivity|].
  cbn [for_each]. unfold bind.
  pose proof (H x s (or_introl eq_refl)) as Hx.
  destruct (body x s) as [o s']. cbn [fst] in Hx. subst o.
  apply IH. intros y s'' Hy. apply H. right. exact Hy.
Qed.

Lemma try_except_returns {S : Type} (m : M S unit) (h : exn -> M S unit) (s : S) :
  (forall e s', fst (h e s') = Ret tt) -> fst (try_except m h s) = Ret tt.
Proof.
  intros H. unfold try_except. destruct (m s) as [[[]|e] s']; auto.
Qed.

Lemma add_doctype_nodes_returns (w : World) (doctypes : list value)
  (s : Builder * SchemaResults) :
  fst (add_doctype_nodes w doctypes s) = Ret tt.
Proof.
  apply for_each_returns. intros x s' _. cbv zeta.
  apply try_except_returns. reflexivity.
Qed.

Lemma add_doctype_relationships_returns (w : World) (doctypes : list value)
  (s : Builder * SchemaResults) :
  fst (add_doctype_relationships w doctypes s) = Ret tt.
Proof.
  apply for_each_returns. intros x s' _. cbv zeta.
  apply try_except_returns. reflexivity.
Qed.

(** The build on a reachable server with a non-empty listing is the two
    passes run from fresh results; it returns the results they leave. *)
Lemma build_doctype_schema_graph_passes (w : World) (b : Builder) :
  test_connection (erpnext w) = true ->
  get_doctypes (erpnext w) <> [] ->
  let s1 := snd (add_doctype_nodes w (get_doctypes (erpnext w))
                   (b, new_schema_results)) in
  let s2 := snd (add_doctype_relationships w (get_doctypes (erpnext w)) s1) in
  build_doctype_schema_graph w b = (Ret (snd s2), fst s2).
Proof.
  intros Hc Hd s1 s2. unfold build_doctype_schema_graph.
  rewrite Hc. cbn [negb].
  destruct (get_doctypes (erpnext w)) as [|d0 ds] eqn:D; [congruence|].
  unfold with_results, bind. subst s2 s1.
  pose proof (add_doctype_nodes_returns w (d0 :: ds) (b, new_schema_results)) as R1.
  destruct (add_doctype_nodes w (d0 :: ds) (b, new_schema_results)) as [o1 s1].
  cbn [fst snd] in *. subst o1.
  pose proof (add_doctype_relationships_returns w (d0 :: ds) s1) as R2.
  destruct (add_doctype_relationships w (d0 :: ds) s1) as [o2 [b' r]].
  cbn [fst snd] in *. subst o2. reflexivity.
Qed.



(** ** Loops *)

Lemma for_each_skip {S X : Type} (l : list X) (body : X -> M S unit) (s : S) :
  (forall x, In x l -> body x s = (Ret tt, s)) ->
  for_each l body s = (Ret tt, s).
Proof.
  induction l as [|x r IH]; intros H; [reflexivity|].
  cbn [for_each]. unfold bind. rewrite (H x (or_introl eq_refl)).
  apply IH. intros y Hy. apply H. right. exact Hy.
Qed.

(** If every iteration returns and keeps [Q], and the iteration for one
    element of the list makes [Q] true, then [Q] holds after the loop. *)
Lemma for_each_establishes {S X : Type} (Q : S -> Prop) (l : list X)
  (body : X -> M S unit) (x0 : X) :
  In x0 l ->
  (forall x s, In x l -> fst (body x s) = Ret tt) ->
  (forall x s, In x l -> Q s -> Q (snd (body x s))) ->
  (forall s, Q (snd (body x0 s))) ->
  forall s, Q (snd (for_each l body s)).
Proof.
  intros Hin Hret Hkeep Hest.
  assert (Hall : forall l' s, incl l' l -> Q s -> Q (snd (for_each l' body s))).
  { induction l' as [|x r IH]; intros s Hl Hs; [exact Hs|].
    cbn [for_each]. unfold bind.
    pose proof (Hret x s (Hl x (or_introl eq_refl))) as Hx.
    pose proof (Hkeep x s (Hl x (or_introl eq_refl)) Hs) as Hq.
    destruct (body x s) as [o s']. cbn [fst snd] in *. subst o.
    apply IH; auto. intros y Hy. apply Hl. right. exact Hy. }
  assert (Hgen : forall l', incl l' l -> In x0 l' ->
                   forall s, Q (snd (for_each l' body s))).
  { induction l' as [|x r IH]; intros Hl Hx0 s; [destruct Hx0|].
    cbn [for_each]. unfold bind.
    pose proof (Hret x s (Hl x (or_introl eq_refl))) as Hx.
    assert (Hr : incl r l) by (intros y Hy; apply Hl; right; exact Hy).
    destruct Hx0 as [->|Hx0].
    - pose proof (Hest s) as Hq.
      destruct (body x0 s) as [o s']. cbn [fst snd] in *. subst o.
      apply Hall; auto.
    - destruct (body x s) as [o s']. cbn [fst] in Hx. subst o.
      apply IH; auto. }
  apply Hgen; auto. apply incl_refl.
Qed.

(** ** First loop: the nodes *)

Lemma add_document_nodes_step (w : World) (doctype : string) (doc : attrs)
  (b : Builder) (r : DocumentResults) :
  exists b',
    try_except
      (let doc_name := py_get doc "name" in
       if truthy doc_name then
         (node_id <- on_builder (add_document_node w doctype doc_name doc) ;;
          on_results (document_count_node (node_id, doc)))
       else ret tt)%py
      (fun e =>
         on_results (document_append_error
           (ErrorAddingDocument (py_get_default doc "name" (VStr "")) e)))
      (b, r)
    = (Ret tt,
       (b', if sampled doc
            then document_count_node (document_entry w doctype doc) r else r)) /\
    number_of_edges (graph b')
    = number_of_edges (graph b) + (if sampled doc then 1 else 0) /\
    (forall e, In e (edges (graph b)) -> In e (edges (graph b'))) /\
    (forall e, In e (edges (graph b')) ->
       In e (edges (graph b))
       \/ edge_data e = [("relationship", VStr "instance_of")]).
Proof.
  unfold try_except, sampled. cbv zeta.
  destruct (truthy (py_get doc "name")).
  - destruct (add_document_node_spec w b doctype (py_get doc "name") doc)
      as (b' & key & l1 & l2 & R & Eg & Eg' & _).
    pose proof (number_of_edges_insert _ _ _ _ _ Eg Eg') as Ne.
    exists b'. unfold bind, on_builder, on_results. cbn [fst snd]. rewrite R.
    cbn [fst snd]. split; [reflexivity|]. split; [exact Ne|]. split.
    + intros e. rewrite Eg, Eg'. intros Hin.
      apply in_app_or in Hin. apply in_or_app. destruct Hin; auto.
      right. right. assumption.
    + intros e. rewrite Eg, Eg'. intros Hin.
      apply in_app_or in Hin. destruct Hin as [Hin|[<-|Hin]].
      * left. apply in_or_app. auto.
      * right. reflexivity.
      * left. apply in_or_app. auto.
  - exists b. unfold ret. split; [reflexivity|]. split; [lia|]. auto.
Qed.

Lemma add_document_nodes_spec (w : World) (doctype : string)
  (documents : list attrs) (b : Builder) (r : DocumentResults) :
  exists b' r',
    add_document_nodes w doctype documents (b, r) = (Ret tt, (b', r')) /\
    document_nodes r' =
      document_nodes r ++ map (document_entry w doctype) (filter sampled documents) /\
    documents_processed r' =
      documents_processed r + List.length (filter sampled documents) /\
    document_relationships_found r' = document_relationships_found r /\
    number_of_edges (graph b') =
      number_of_edges (graph b) + List.length (filter sampled documents) /\
    (forall e, In e (edges (graph b)) -> In e (edges (graph b'))) /\
    (forall e, In e (edges (graph b')) ->
       In e (edges (graph b))
       \/ edge_data e = [("relationship", VStr "instance_of")]).
Proof.
  revert b r. induction documents as [|doc docs IH]; intros b r.
  - exists b, r. cbn. split; [reflexivity|]. rewrite app_nil_r.
    repeat split; auto; lia.
  - destruct (add_document_nodes_step w doctype doc b r)
      as (b1 & R1 & N1 & K1 & I1).
    destruct (IH b1 (if sampled doc
                     then document_count_node (document_entry w doctype doc) r
                     else r))
      as (b' & r' & R & Dn & Dp & Df & Ne & K & I).
    exists b', r'. split.
    { unfold add_document_nodes. cbn [for_each].
      fold (add_document_nodes w doctype docs).
      unfold bind at 1. cbv beta zeta in R1 |- *. rewrite R1. exact R. }
    cbn [filter].
    destruct (sampled doc); cbn [document_count_node document_nodes
      documents_processed document_relationships_found map List.length] in *.
    + rewrite Dn, Dp, Df, Ne, N1, <- app_assoc. cbn [app].
      repeat split; auto; try lia.
      intros e He. destruct (I e He) as [H|H]; auto.
    + rewrite Dn, Dp, Df, Ne, N1.
      repeat split; auto; try lia.
      intros e He. destruct (I e He) as [H|H]; auto.
Qed.

(** ** Second loop: the reference edges *)

(** An edge between two string-named nodes, without metadata: the call
    returns, keeps every edge and adds the one asked for. *)
Lemma add_reference_edge (w : World) (a b : string) (kind : string)
  (bld : Builder) :
  exists bld',
    add_relationship_edge w (VStr a) (VStr b) kind None bld = (Ret tt, bld') /\
    (forall e, In e (edges (graph bld)) -> In e (edges (graph bld'))) /\
    has_edge_of_kind a b kind (graph bld').
Proof.
  destruct (add_relationship_edge_new w (VStr a) (VStr b) kind None bld
              (endpoint_ok_str _ _) (endpoint_ok_str _ _) eq_refl)
    as (bld' & k & l1 & l2 & u0 & v0 & R & Eg & Eg' & Hu0 & Hv0 & _).
  apply key_eqb_str_l in Hu0, Hv0. subst u0 v0.
  exists bld'. split; [exact R|]. split.
  - intros e. rewrite Eg, Eg'. intros Hin.
    apply in_app_or in Hin. apply in_or_app. destruct Hin; auto.
    right. right. assumption.
  - exists k, (attr_update [] (edge_kwargs w bld kind None)). split.
    + rewrite Eg'. apply in_or_app. right. left. reflexivity.
    + apply attr_get_edge_data_none.
Qed.

Lemma has_edge_of_kind_mono (a b kind : string) (g g' : MultiDiGraph) :
  (forall e, In e (edges g) -> In e (edges g')) ->
  has_edge_of_kind a b kind g -> has_edge_of_kind a b kind g'.
Proof. intros H (key & data & Hin & Hk). exists key, data. auto. Qed.

Lemma link_field_to_others_unfold (w : World) nodes node_id field_name field_value :
  link_field_to_others w nodes node_id field_name field_value
  = for_each nodes (link_to_other w node_id field_name field_value).
Proof. reflexivity. Qed.

Lemma link_to_other_cases (w : World) node_id f s other
  (st : Builder * DocumentResults) :
  exists st',
    link_to_other w node_id f s other st = (Ret tt, st') /\
    (forall e, In e (edges (graph (fst st))) -> In e (edges (graph (fst st')))) /\
    (if negb (String.eqb (fst other) node_id) && eq_str (py_get (snd other) "name") s
     then has_edge_of_kind node_id (fst other) ("references_" ++ f) (graph (fst st'))
     else st' = st).
Proof.
  destruct other as [oid odoc]. destruct st as [b r].
  unfold link_to_other. cbn [fst snd].
  destruct (negb (String.eqb oid node_id) && eq_str (py_get odoc "name") s).
  - destruct (add_reference_edge w node_id oid ("references_" ++ f) b)
      as (b' & R & K & E).
    eexists. unfold bind, on_builder, on_results. cbn [fst snd]. rewrite R.
    cbn [fst snd]. split; [reflexivity|]. auto.
  - exists (b, r). auto.
Qed.

Section Keeps.
Variables (w : World) (a b kind : string).

Lemma link_to_other_keeps node_id f s other st :
  build_has_edge a b kind st ->
  build_has_edge a b kind (snd (link_to_other w node_id f s other st)).
Proof.
  intros H. destruct (link_to_other_cases w node_id f s other st)
    as (st' & -> & K & _).
  cbn [snd]. eapply has_edge_of_kind_mono; eauto.
Qed.

Lemma link_to_other_returns node_id f s other st :
  fst (link_to_other w node_id f s other st) = Ret tt.
Proof.
  destruct (link_to_other_cases w node_id f s other st) as (st' & -> & _).
  reflexivity.
Qed.

Lemma for_each_keeps {X : Type} (l : list X)
  (body : X -> M (Builder * DocumentResults) unit) st :
  (forall x s, In x l -> build_has_edge a b kind s ->
               build_has_edge a b kind (snd (body x s))) ->
  build_has_edge a b kind st ->
  build_has_edge a b kind (snd (for_each l body st)).
Proof.
  revert st. induction l as [|x r IH]; intros st Hb H; [exact H|].
  cbn [for_each]. unfold bind.
  pose proof (Hb x st (or_introl eq_refl) H) as Hx.
  destruct (body x st) as [[[]|e] st1]; cbn [snd] in *; auto.
  apply IH; auto. intros y s Hy. apply Hb. right. exact Hy.
Qed.

Lemma link_field_to_others_keeps nodes node_id f s st :
  build_has_edge a b kind st ->
  build_has_edge a b kind (snd (link_field_to_others w nodes node_id f s st)).
Proof.
  rewrite link_field_to_others_unfold. apply for_each_keeps.
  intros x s0 _. apply link_to_other_keeps.
Qed.

Lemma link_field_to_others_returns nodes node_id f s st :
  fst (link_field_to_others w nodes node_id f s st) = Ret tt.
Proof.
  rewrite link_field_to_others_unfold. apply for_each_returns.
  intros x s0 _. apply link_to_other_returns.
Qed.
End Keeps.

Lemma link_document_unfold (w : World) nodes node_id doc :
  link_document w nodes node_id doc = for_each doc (link_field w nodes node_id).
Proof. reflexivity. Qed.

Lemma add_document_references_unfold (w : World) nodes :
  add_document_references w nodes = for_each nodes (link_node w nodes).
Proof. reflexivity. Qed.

Lemma link_field_returns (w : World) nodes node_id item st :
  fst (link_field w nodes node_id item st) = Ret tt.
Proof.
  destruct item as [f v]. unfold link_field.
  destruct v; try reflexivity.
  destruct (truthy (VStr s)); [|reflexivity].
  apply link_field_to_others_returns.
Qed.

Lemma link_document_returns (w : World) nodes node_id doc st :
  fst (link_document w nodes node_id doc st) = Ret tt.
Proof.
  rewrite link_document_unfold. apply for_each_returns.
  intros x s _. apply link_field_returns.
Qed.

Lemma link_node_is_link_document (w : World) nodes node_id doc st :
  link_node w nodes (node_id, doc) st = link_document w nodes node_id doc st.
Proof.
  unfold link_node, try_except.
  pose proof (link_document_returns w nodes node_id doc st) as H.
  destruct (link_document w nodes node_id doc st) as [o st'].
  cbn [fst] in H. subst o. reflexivity.
Qed.

Lemma link_node_returns (w : World) nodes node st :
  fst (link_node w nodes node st) = Ret tt.
Proof.
  destruct node as [node_id doc]. rewrite link_node_is_link_document.
  apply link_document_returns.
Qed.

Lemma add_document_references_returns (w : World) nodes st :
  fst (add_document_references w nodes st) = Ret tt.
Proof.
  rewrite add_document_references_unfold. apply for_each_returns.
  intros x s _. apply link_node_returns.
Qed.

Section Established.
Variables (w : World) (a b kind : string).

Lemma link_field_keeps nodes node_id item st :
  build_has_edge a b kind st ->
  build_has_edge a b kind (snd (link_field w nodes node_id item st)).
Proof.
  destruct item as [f v]. unfold link_field.
  destruct v; try (intros H; exact H).
  destruct (truthy (VStr s)); [|intros H; exact H].
  apply link_field_to_others_keeps.
Qed.

Lemma link_document_keeps nodes node_id doc st :
  build_has_edge a b kind st ->
  build_has_edge a b kind (snd (link_document w nodes node_id doc st)).
Proof.
  rewrite link_document_unfold. apply for_each_keeps.
  intros x s _. apply link_field_keeps.
Qed.

Lemma link_node_keeps nodes node st :
  build_has_edge a b kind st ->
  build_has_edge a b kind (snd (link_node w nodes node st)).
Proof.
  destruct node as [node_id doc]. rewrite link_node_is_link_document.
  apply link_document_keeps.
Qed.
End Established.

(** Whenever a sampled record [A] has a string field equal to the name of a
    sampled record [B] with another node identifier, the second loop leaves
    an edge from [A]'s node to [B]'s node of kind [references_<field>]. *)
Lemma add_document_references_links (w : World) (nodes : list (string * attrs))
  (idA idB : string) (A B : attrs) (f s : string)
  (st : Builder * DocumentResults) :
  In (idA, A) nodes -> In (idB, B) nodes ->
  In (f, VStr s) A -> s <> "" ->
  py_get B "name" = VStr s ->
  idB <> idA ->
  has_edge_of_kind idA idB ("references_" ++ f)
    (graph (fst (snd (add_document_references w nodes st)))).
Proof.
  intros HA HB Hf Hs Hname Hne.
  rewrite add_document_references_unfold.
  apply (for_each_establishes
           (build_has_edge idA idB ("references_" ++ f))
           nodes (link_node w nodes) (idA, A) HA).
  - intros x s0 _. apply link_node_returns.
  - intros x s0 _. apply link_node_keeps.
  - intros s0. rewrite link_node_is_link_document, link_document_unfold.
    apply (for_each_establishes
             (build_has_edge idA idB ("references_" ++ f))
             A (link_field w nodes idA) (f, VStr s) Hf).
    + intros x s1 _. apply link_field_returns.
    + intros x s1 _. apply link_field_keeps.
    + intros s1. unfold link_field.
      assert (Ht : truthy (VStr s) = true).
      { cbn [truthy]. apply negb_true_iff, String.eqb_neq. exact Hs. }
      rewrite Ht, link_field_to_others_unfold.
      apply (for_each_establishes
               (build_has_edge idA idB ("references_" ++ f))
               nodes (link_to_other w idA f s) (idB, B) HB).
      * intros x s2 _. apply link_to_other_returns.
      * intros x s2 _. apply link_to_other_keeps.
      * intros s2.
        destruct (link_to_other_cases w idA f s (idB, B) s2) as (s3 & -> & _ & C).
        cbn [fst snd] in *.
        apply String.eqb_neq in Hne. rewrite Hne, Hname in C.
        cbn [negb andb eq_str] in C. rewrite String.eqb_refl in C. exact C.
Qed.

(** When no such pair exists the second loop changes nothing. *)
Lemma add_document_references_none (w : World) (nodes : list (string * attrs))
  (st : Builder * DocumentResults) :
  (forall idA A idB B f s,
      In (idA, A) nodes -> In (idB, B) nodes ->
      In (f, VStr s) A -> s <> "" -> idB <> idA ->
      py_get B "name" <> VStr s) ->
  add_document_references w nodes st = (Ret tt, st).
Proof.
  intros H. rewrite add_document_references_unfold.
  apply for_each_skip. intros [idA A] HA.
  rewrite link_node_is_link_document, link_document_unfold.
  apply for_each_skip. intros [f v] Hf. unfold link_field.
  destruct v; try reflexivity.
  destruct (truthy (VStr s)) eqn:Ht; [|reflexivity].
  rewrite link_field_to_others_unfold.
  apply for_each_skip. intros [idB B] HB. unfold link_to_other.
  destruct (String.eqb idB idA) eqn:E; [reflexivity|]. cbn [negb andb].
  unfold eq_str.
  destruct (py_get B "name") as [| | |n| |] eqn:N; try reflexivity.
  destruct (String.eqb n s) eqn:En; [|reflexivity].
  exfalso. apply String.eqb_eq in En. subst n.
  apply String.eqb_neq in E.
  cbn [truthy] in Ht. apply negb_true_iff, String.eqb_neq in Ht.
  exact (H idA A idB B f s HA HB Hf Ht E N).
Qed.

Lemma in_document_entries (w : World) (doctype : string) (documents : list attrs)
  (id : string) (doc : attrs) :
  In (id, doc) (map (document_entry w doctype) (filter sampled documents)) <->
  In doc documents /\ sampled doc = true /\
  id = document_node_id w doctype (py_get doc "name").
Proof.
  rewrite in_map_iff. split.
  - intros (d & E & Hin). apply filter_In in Hin. destruct Hin as [Hin Hs].
    unfold document_entry in E. injection E as <- <-. auto.
  - intros (Hin & Hs & ->). exists doc. split; [reflexivity|].
    apply filter_In. auto.
Qed.

(** C9: the instance-level build returns, and whenever a sampled record [A]
    carries a string field [f] whose value is the name of a sampled record
    [B] with another node, the graph has an edge from [A]'s node to [B]'s
    node of kind [references_f]; when no record's name is the value of a
    field of a record with another node, no reference edge is produced: the
    count is zero and the only new edges are the [instance_of] edges, one
    per record processed. *)
Theorem document_references (w : World) (b : Builder) (doctype : string)
  (limit : Z) :
  let documents := get_sample_documents (erpnext w) doctype limit in
  let node_of := fun doc => document_node_id w doctype (py_get doc "name") in
  exists res b',
    build_document_relationship_graph w doctype limit b = (Ret res, b') /\
    (forall A B f s,
        In A documents -> In B documents ->
        truthy (py_get A "name") = true ->
        In (f, VStr s) A -> s <> "" ->
        py_get B "name" = VStr s ->
        node_of B <> node_of A ->
        has_edge_of_kind (node_of A) (node_of B) ("references_" ++ f) (graph b')) /\
    ((forall A B f s,
        In A documents -> In B documents ->
        truthy (py_get A "name") = true ->
        In (f, VStr s) A -> s <> "" ->
        node_of B <> node_of A ->
        py_get B "name" <> VStr s) ->
     document_relationships_found res = 0 /\
     number_of_edges (graph b')
     = number_of_edges (graph b) + documents_processed res /\
     forall e, In e (edges (graph b')) ->
       In e (edges (graph b))
       \/ edge_data e = [("relationship", VStr "instance_of")]).
Proof.
  intros documents node_of.
  unfold build_document_relationship_graph, with_results, try_except.
  fold documents.
  destruct documents as [|d0 ds] eqn:D.
  - eexists _, b. unfold on_results. cbn [fst snd].
    split; [reflexivity|]. split.
    + intros A B f s [].
    + intros _. cbn. split; [reflexivity|]. split; [lia|]. auto.
  - rewrite <- D. clear D d0 ds.
    destruct (add_document_nodes_spec w doctype documents b
                (new_document_results doctype))
      as (b1 & r1 & R1 & Dn & Dp & Df & Ne & K & I).
    cbn [new_document_results document_nodes documents_processed
           document_relationships_found app Nat.add] in Dn, Dp, Df.
    pose proof (add_document_references_returns w (document_nodes r1) (b1, r1))
      as R2.
    destruct (add_document_references w (document_nodes r1) (b1, r1))
      as [o2 [b2 r2]] eqn:E2.
    cbn [fst] in R2. subst o2.
    exists r2, b2. split.
    { destruct documents as [|d0 ds]; unfold bind, get_state; rewrite R1;
        cbn [snd]; rewrite E2; reflexivity. }
    split.
    + intros A B f s HA HB HtA Hf Hs Hname Hne.
      pose proof (add_document_references_links w (document_nodes r1)
                    (node_of A) (node_of B) A B f s (b1, r1)) as L.
      rewrite E2 in L. cbn [fst snd] in L. apply L; auto.
      * rewrite Dn. apply in_document_entries. auto.
      * rewrite Dn. apply in_document_entries. split; [exact HB|].
        split; [|reflexivity]. unfold sampled. rewrite Hname. cbn [truthy].
        apply negb_true_iff, String.eqb_neq. exact Hs.
    + intros Hnone.
      rewrite add_document_references_none in E2.
      * injection E2 as <- <-. rewrite Df, Dp, Ne. auto.
      * intros idA A idB B f s HA HB Hf Hs Hne.
        rewrite Dn in HA, HB.
        apply in_document_entries in HA, HB.
        destruct HA as (HA & SA & ->). destruct HB as (HB & SB & ->).
        exact (Hnone A B f s HA HB SA Hf Hs Hne).
Qed.

Lemma document_references_witness :
  has_edge_of_kind "Customer::A" "Customer::B" "references_customer"
    (graph (snd (build_document_relationship_graph selling_world "Customer" 10
                   (init_builder "out")))) /\
  number_of_edges
    (graph (snd (build_document_relationship_graph (world_of unrelated_connector)
                   "Item" 10 (init_builder "out")))) = 0 + 2.
Proof.
  split.
  - destruct (document_references selling_world (init_builder "out") "Customer" 10)
      as (res & b' & R & Hlink & _).
    rewrite R. cbn [snd].
    apply (Hlink [("name", VStr "A"); ("customer", VStr "B")]
                 [("name", VStr "B")] "customer" "B").
    + left. reflexivity.
    + right. left. reflexivity.
    + reflexivity.
    + right. left. reflexivity.
    + discriminate.
    + reflexivity.
    + discriminate.
  - destruct (document_references (world_of unrelated_connector)
                (init_builder "out") "Item" 10)
      as (res & b' & R & _ & Hnone).
    rewrite R. cbn [snd].
    destruct Hnone as (_ & Hn & _).
    + intros A B f s HA HB _ Hf Hs Hne.
      cbn in HA, HB.
      destruct HA as [<-|[<-|[]]]; destruct HB as [<-|[<-|[]]];
        cbn in Hf; cbn in Hne;
        repeat (destruct Hf as [Hf|Hf]; [injection Hf as <- <-|]);
        try destruct Hf; cbn; try congruence.
    + assert (Hp : documents_processed res = 2).
      { revert R. clear. vm_compute. intros R. injection R as <- _. reflexivity. }
      rewrite Hn, Hp. reflexivity.
Defined.

Lemma same_node_records_not_linked :
  exists res b',
    build_document_relationship_graph (world_of duplicate_connector) "Item" 10
      (init_builder "out") = (Ret res, b') /\
    documents_processed res = 2 /\
    document_relationships_found res = 0 /\
    number_of_nodes (graph b') = 2 /\
    number_of_edges (graph b') = 2.
Proof. eexists _, _. split; [reflexivity|]. repeat split. Qed.



Lemma unique_keys_keys {V W : Type} (d : list (value * V)) (d' : list (value * W)) :
  map fst d = map fst d' -> unique_keys d = unique_keys d'.
Proof.
  revert d'. induction d as [|[k v] r IH]; intros [|[k' v'] r'] H;
    try discriminate; [reflexivity|].
  cbn [map fst] in H. injection H as -> H.
  cbn [unique_keys]. rewrite (IH r' H). f_equal. f_equal.
  unfold dict_mem. clear IH.
  revert r' H. induction r as [|[k0 v0] r IH]; intros [|[k1 v1] r'] H;
    try discriminate; [reflexivity|].
  cbn [map fst] in H. injection H as -> H. cbn [dict_get].
  destruct (key_eqb k1 k'); auto.
Qed.

Lemma unique_keys_app_new {V : Type} (d : list (value * V)) (k : value) (v : V) :
  unique_keys d = true -> dict_mem key_eqb d k = false ->
  unique_keys (d ++ [(k, v)]) = true.
Proof.
  induction d as [|[k0 v0] r IH]; intros U A; [reflexivity|].
  cbn [unique_keys] in U. apply andb_true_iff in U. destruct U as [U1 U2].
  unfold dict_mem in A. cbn [dict_get] in A.
  destruct (key_eqb k0 k) eqn:E; [discriminate|].
  cbn [app unique_keys]. rewrite IH by assumption.
  rewrite dict_mem_app. apply negb_true_iff in U1. rewrite U1.
  unfold dict_mem. cbn [dict_get]. rewrite key_eqb_sym, E. reflexivity.
Qed.

Lemma unique_keys_set {V : Type} (d : list (value * V)) (k : value) (v : V) :
  unique_keys d = true -> unique_keys (dict_set key_eqb d k v) = true.
Proof.
  intros U. destruct (dict_get key_eqb d k) as [v0|] eqn:G.
  - rewrite (unique_keys_keys (dict_set key_eqb d k v) d); auto.
    rewrite dict_set_keys. unfold dict_mem. rewrite G. reflexivity.
  - rewrite (dict_set_absent key_eqb d k v G).
    apply unique_keys_app_new; auto. unfold dict_mem. now rewrite G.
Qed.

Lemma forallb_set {V : Type} (q : V -> bool) (d : list (value * V))
  (k : value) (v : V) :
  forallb (fun c => q (snd c)) d = true -> q v = true ->
  forallb (fun c => q (snd c)) (dict_set key_eqb d k v) = true.
Proof.
  intros H Hv. induction d as [|[k0 v0] r IH]; cbn [dict_set forallb snd].
  - now rewrite Hv.
  - cbn [forallb snd] in H. apply andb_true_iff in H. destruct H as [H0 Hr].
    destruct (key_eqb k0 k); cbn [forallb snd].
    + now rewrite Hv, Hr.
    + now rewrite H0, IH.
Qed.

Lemma well_formed_set (g : MultiDiGraph) (n : value) (e : node_entry) :
  is_well_formed g -> unique_keys (succ e) = true ->
  is_well_formed (dict_set key_eqb g n e).
Proof.
  unfold is_well_formed, well_formed. intros H He.
  apply andb_true_iff in H. destruct H as [U F].
  rewrite unique_keys_set by exact U.
  rewrite (forallb_set (fun e => unique_keys (succ e)) g n e F He). reflexivity.
Qed.

Lemma well_formed_get (g : MultiDiGraph) (n : value) (e : node_entry) :
  is_well_formed g -> node_get g n = Some e -> unique_keys (succ e) = true.
Proof.
  unfold is_well_formed, well_formed. intros H G.
  apply andb_true_iff in H. destruct H as [_ F].
  apply dict_get_In in G. destruct G as (k0 & Hin & _).
  rewrite forallb_forall in F. exact (F _ Hin).
Qed.

Lemma well_formed_new_node (g : MultiDiGraph) (n : value) (a : attrs) :
  is_well_formed g -> node_mem g n = false ->
  is_well_formed (g ++ [(n, {| attr := a; succ := [] |})]).
Proof.
  unfold is_well_formed, well_formed. intros H A.
  apply andb_true_iff in H. destruct H as [U F].
  rewrite unique_keys_app_new by assumption.
  rewrite forallb_app, F. reflexivity.
Qed.

Lemma nx_add_node_well_formed (n : value) (a : attrs) :
  preserves (fun g => g) is_well_formed (nx_add_node n a).
Proof.
  intros g H. unfold nx_add_node.
  destruct (hashable n); cbn [negb snd]; [|exact H].
  destruct (node_get g n) as [e|] eqn:G; cbn [snd].
  - apply well_formed_set; auto. cbn [succ]. eapply well_formed_get; eauto.
  - destruct n; cbn [snd]; try exact H;
      apply well_formed_new_node; auto; rewrite node_mem_get, G; reflexivity.
Qed.

Lemma ensure_node_well_formed (n : value) :
  preserves (fun g => g) is_well_formed (ensure_node n).
Proof.
  intros g H. unfold ensure_node.
  destruct (hashable n); cbn [negb snd]; [|exact H].
  destruct (node_mem g n) eqn:A; cbn [snd]; [exact H|].
  destruct n; cbn [snd]; try exact H; apply well_formed_new_node; auto.
Qed.

Lemma put_edge_well_formed (u v k : value) (a : attrs) (g : MultiDiGraph) :
  is_well_formed g -> is_well_formed (put_edge u v k a g).
Proof.
  intros H. unfold put_edge.
  destruct (node_get g u) as [e|] eqn:G; [|exact H].
  apply well_formed_set; auto. cbn [succ].
  apply unique_keys_set. eapply well_formed_get; eauto.
Qed.

Lemma nx_add_edge_well_formed (u v : value) (key : option value) (a : attrs) :
  preserves (fun g => g) is_well_formed (nx_add_edge u v key a).
Proof.
  unfold nx_add_edge.
  apply preserves_bind; [apply ensure_node_well_formed|]. intros _.
  apply preserves_bind; [apply ensure_node_well_formed|]. intros _.
  apply preserves_bind; [apply preserves_get_state|]. intros g0.
  destruct (negb (hashable _)); [apply preserves_raise|].
  apply preserves_bind; [|intros _; apply preserves_ret].
  intros g H. apply put_edge_well_formed, H.
Qed.

Lemma add_doctype_node_well_formed (w : World) (T : value) (m : option attrs) :
  preserves graph is_well_formed (add_doctype_node w T m).
Proof.
  unfold add_doctype_node.
  apply preserves_bind; [apply preserves_lift_outcome|]. intros md.
  unfold call_add_node. destruct (add_node_clash md);
    [apply preserves_raise|].
  apply preserves_on_graph, nx_add_node_well_formed.
Qed.

Lemma add_document_node_well_formed (w : World) (doctype : string)
  (doc_name : value) (doc_data : attrs) :
  preserves graph is_well_formed (add_document_node w doctype doc_name doc_data).
Proof.
  unfold add_document_node.
  apply preserves_bind;
    [apply preserves_on_graph, nx_add_node_well_formed|]. intros _.
  apply preserves_bind;
    [apply preserves_on_graph, nx_add_edge_well_formed|]. intros _.
  apply preserves_ret.
Qed.

Lemma add_relationship_edge_well_formed (w : World) (u v : value)
  (kind : string) (md : option attrs) :
  preserves graph is_well_formed (add_relationship_edge w u v kind md).
Proof.
  unfold add_relationship_edge.
  apply preserves_bind; [apply preserves_datetime_now|]. intros t.
  unfold call_add_edge.
  destruct (add_edge_clash _); [apply preserves_raise|].
  apply preserves_bind; [|intros _; apply preserves_ret].
  apply preserves_on_graph, nx_add_edge_well_formed.
Qed.

Lemma run_op_well_formed (w : World) (o : op) (b : Builder) :
  is_well_formed (graph b) -> is_well_formed (graph (run_op w o b)).
Proof.
  intros H. destruct o; cbn [run_op].
  - apply add_doctype_node_well_formed, H.
  - apply add_document_node_well_formed, H.
  - apply add_relationship_edge_well_formed, H.
  - apply (build_doctype_schema_graph_keeps is_well_formed); auto.
    + apply add_doctype_node_well_formed.
    + intros; apply add_relationship_edge_well_formed.
  - apply (build_document_relationship_graph_keeps is_well_formed); auto.
    + apply add_document_node_well_formed.
    + intros; apply add_relationship_edge_well_formed.
  - apply export_graph_keeps_graph, H.
  - apply (build_complete_knowledge_graph_keeps is_well_formed); auto.
    + apply add_doctype_node_well_formed.
    + apply add_document_node_well_formed.
    + intros; apply add_relationship_edge_well_formed.
Qed.

(** Whatever the builder is asked to do, its graph stays well formed. *)
Lemma run_well_formed (trace : list (World * op)) (b : Builder) :
  is_well_formed (graph b) -> is_well_formed (graph (run trace b)).
Proof.
  revert b. induction trace as [|[w o] r IH]; intros b H; [exact H|].
  unfold run. cbn [fold_left fst snd]. apply IH, run_op_well_formed, H.
Qed.

(** The centrality of a node of a graph the builder has built. *)
Corollary built_graph_centrality (dir : string) (trace : list (World * op))
  (n : value) :
  let g := graph (run trace (init_builder dir)) in
  2 <= number_of_nodes g ->
  has_node g n = true ->
  exists q,
    dict_get key_eqb (degree_centrality g) n = Some q /\
    (q == inject_Z (Z.of_nat (edges_in g n + edges_out g n))
          / (inject_Z (Z.of_nat (number_of_nodes g)) - 1))%Q.
Proof.
  intros g. apply centrality_of_node.
  apply (run_well_formed trace (init_builder dir)). reflexivity.
Qed.

(* ================================================================== *)
(** * Further properties *)
(* ================================================================== *)

(** ** The resolver *)

Lemma scan_field_dict (f : attrs) (r : Relationships) :
  scan_field (VDict f) r =
  (Ret tt, append_child_tables (table_target (VDict f))
             (append_links_to (link_target (VDict f)) r)).
Proof.
  unfold scan_field, link_target, table_target, modify, ret,
    append_links_to, append_child_tables.
  destruct r as [l lf c].
  destruct (eq_str (py_get f "fieldtype") "Link" && truthy (py_get f "options"));
    [|destruct (eq_str (py_get f "fieldtype") "Table"
                && truthy (py_get f "options"))];
    cbn; rewrite ?app_nil_r; reflexivity.
Qed.

Lemma scan_field_not_dict (field : value) (r : Relationships) :
  is_dict field = false ->
  exists e, scan_field field r = (Raise e, r).
Proof.
  destruct field; try discriminate; intros _; eexists; reflexivity.
Qed.

(** Scanning well-formed fields appends their targets in order. *)
Lemma scan_fields_dicts (fields : list value) (r : Relationships) :
  forallb is_dict fields = true ->
  for_each fields scan_field r =
  (Ret tt,
   {| links_to := links_to r ++ flat_map link_target fields;
      linked_from := linked_from r;
      child_tables := child_tables r ++ flat_map table_target fields |}).
Proof.
  revert r. induction fields as [|f fs IH]; intros r H.
  - cbn. rewrite !app_nil_r. destruct r; reflexivity.
  - cbn [forallb] in H. apply andb_true_iff in H. destruct H as [Hf Hfs].
    destruct f; try discriminate.
    cbn [for_each]. unfold bind. rewrite scan_field_dict, (IH _ Hfs).
    cbn [links_to linked_from child_tables append_links_to append_child_tables
         flat_map].
    rewrite <- !app_assoc. reflexivity.
Qed.

(** A field that is not a dictionary stops the scan where it stands. *)
Lemma scan_fields_broken (pre rest : list value) (bad : value)
  (r : Relationships) :
  forallb is_dict pre = true -> is_dict bad = false ->
  exists e,
    for_each (pre ++ bad :: rest) scan_field r =
    (Raise e,
     {| links_to := links_to r ++ flat_map link_target pre;
        linked_from := linked_from r;
        child_tables := child_tables r ++ flat_map table_target pre |}).
Proof.
  revert r. induction pre as [|f fs IH]; intros r H Hb.
  - destruct (scan_field_not_dict bad r Hb) as (e & He).
    exists e. cbn [app for_each]. unfold bind. rewrite He.
    cbn. rewrite !app_nil_r. destruct r; reflexivity.
  - cbn [forallb] in H. apply andb_true_iff in H. destruct H as [Hf Hfs].
    destruct f; try discriminate.
    destruct (IH (append_child_tables (table_target (VDict d))
                    (append_links_to (link_target (VDict d)) r)) Hfs Hb)
      as (e & He).
    exists e. cbn [app for_each]. unfold bind. rewrite scan_field_dict, He.
    cbn [links_to linked_from child_tables append_links_to append_child_tables
         flat_map].
    rewrite <- !app_assoc. reflexivity.
Qed.

Lemma scan_field_linked_from (field : value) (r : Relationships) :
  linked_from (snd (scan_field field r)) = linked_from r.
Proof.
  destruct field; try reflexivity.
  rewrite scan_field_dict. reflexivity.
Qed.

Lemma for_each_scan_linked_from (fields : list value) (r : Relationships) :
  linked_from (snd (for_each fields scan_field r)) = linked_from r.
Proof.
  revert r. induction fields as [|f fs IH]; intros r; [reflexivity|].
  cbn [for_each]. unfold bind.
  pose proof (scan_field_linked_from f r) as H.
  destruct (scan_field f r) as [[[]|e] r']; cbn [snd] in *.
  - rewrite IH. exact H.
  - exact H.
Qed.

(** X1: whatever the server sends, the resolver reports no [linked_from]
    entry: the list is created empty and no path of the method adds to it. *)
Theorem discover_never_fills_linked_from (w : World) (doctype : value) :
  linked_from (discover_doctype_relationships w doctype) = [].
Proof.
  unfold discover_doctype_relationships, try_except, discover_try.
  destruct (negb (truthy (VDict (get_doctype_schema (erpnext w) doctype))));
    [reflexivity|].
  unfold bind, lift_outcome.
  destruct (py_iter _) as [fields|e]; [|reflexivity].
  pose proof (for_each_scan_linked_from fields no_relationships) as H.
  destruct (for_each fields scan_field no_relationships) as [[[]|e] r];
    cbn [snd] in H; [|exact H].
  destruct (known_for doctype) as [[l|]|e]; cbn; exact H.
Qed.

(** X2: for a schema that is not empty and whose [fields] entry is a list of
    dictionaries, the resolver returns, in field order, the [options] of the
    [Link] fields followed by the static table's entry for the type under
    [links_to], and the [options] of the [Table] fields under
    [child_tables]; a field whose [options] is missing or empty contributes
    nothing. *)
Theorem discover_scans_fields (w : World) (doctype : value)
  (fields : list value) :
  truthy (VDict (schema_of w doctype)) = true ->
  py_get_default (schema_of w doctype) "fields" (VList []) = VList fields ->
  forallb is_dict fields = true ->
  hashable doctype = true ->
  discover_doctype_relationships w doctype =
  {| links_to := flat_map link_target fields ++ known_targets doctype;
     linked_from := [];
     child_tables := flat_map table_target fields |}.
Proof.
  unfold schema_of. intros Ht Hf Hd Hh.
  unfold discover_doctype_relationships, try_except, discover_try.
  rewrite Ht, Hf. cbn [negb py_iter]. unfold bind, lift_outcome.
  rewrite (scan_fields_dicts fields no_relationships Hd).
  unfold known_for, known_targets. rewrite Hh. cbn [negb].
  destruct (dict_get key_eqb known_relationships doctype);
    cbn; rewrite ?app_nil_r; reflexivity.
Qed.

Lemma discover_scans_fields_witness :
  discover_doctype_relationships selling_world (VStr "Sales Order") =
  {| links_to := [VStr "Customer"; VStr "Sales Invoice"; VStr "Delivery Note";
                  VStr "Sales Order Item"];
     linked_from := [];
     child_tables := [VStr "Sales Taxes"] |}.
Proof.
  exact (discover_scans_fields selling_world (VStr "Sales Order") _
           eq_refl eq_refl eq_refl eq_refl).
Defined.

(** X3: a field that is not a dictionary ends the scan with an exception the
    method swallows: the result holds what the fields before it gave, the
    fields after it are not looked at, and the static table's entry is not
    appended. *)
Theorem discover_stops_at_malformed_field (w : World) (doctype : value)
  (pre rest : list value) (bad : value) :
  truthy (VDict (schema_of w doctype)) = true ->
  py_get_default (schema_of w doctype) "fields" (VList [])
  = VList (pre ++ bad :: rest) ->
  forallb is_dict pre = true ->
  is_dict bad = false ->
  discover_doctype_relationships w doctype =
  {| links_to := flat_map link_target pre;
     linked_from := [];
     child_tables := flat_map table_target pre |}.
Proof.
  unfold schema_of. intros Ht Hf Hd Hb.
  unfold discover_doctype_relationships, try_except, discover_try.
  rewrite Ht, Hf. cbn [negb py_iter]. unfold bind, lift_outcome.
  destruct (scan_fields_broken pre rest bad no_relationships Hd Hb) as (e & ->).
  reflexivity.
Qed.

Lemma discover_stops_at_malformed_field_witness :
  discover_doctype_relationships (world_of broken_connector) (VStr "Sales Order")
  = {| links_to := [VStr "Customer"]; linked_from := []; child_tables := [] |}.
Proof.
  exact (discover_stops_at_malformed_field (world_of broken_connector)
           (VStr "Sales Order")
           [VDict [("fieldtype", VStr "Link"); ("options", VStr "Customer")]]
           [VDict [("fieldtype", VStr "Table"); ("options", VStr "Sales Taxes")]]
           (VStr "oops") eq_refl eq_refl eq_refl eq_refl).
Defined.

(** ** Attributes of a type node *)

Lemma attr_get_update (d e : attrs) (k : string) :
  attrs_unique e = true ->
  attr_get (attr_update d e) k =
  match attr_get e k with Some v => Some v | None => attr_get d k end.
Proof.
  intros U. destruct (attr_get e k) as [v|] eqn:G.
  - apply attr_get_update_present; assumption.
  - apply attr_get_update_absent. unfold attr_mem, dict_mem.
    unfold attr_get in G. rewrite G. reflexivity.
Qed.

Lemma attr_update_unique (d e : attrs) :
  attrs_unique d = true -> attrs_unique (attr_update d e) = true.
Proof.
  revert d. induction e as [|[k v] r IH]; intros d U; [exact U|].
  rewrite attr_update_cons. apply IH, attr_set_unique, U.
Qed.

(** [add_node] leaves the entries of the other nodes alone. *)
Lemma nx_add_node_others (n : value) (a : attrs) (g : MultiDiGraph) (n' : value) :
  key_eqb n n' = false ->
  node_get (snd (nx_add_node n a g)) n' = node_get g n'.
Proof.
  intros Hne. unfold nx_add_node.
  destruct (negb (hashable n)); [reflexivity|].
  destruct (node_get g n) as [e|] eqn:G.
  - cbn [snd]. unfold node_get.
    rewrite (dict_get_set key_eqb key_eqb_congr key_eqb_sym), Hne; [reflexivity|].
    unfold node_get in G. apply dict_get_In in G.
    destruct G as (k0 & _ & Hk). apply key_eqb_refl.
    eapply key_eqb_hashable_r; eauto.
  - destruct n; cbn [snd]; try reflexivity;
      unfold node_get; rewrite dict_get_app; cbn [dict_get];
      rewrite Hne; destruct (dict_get key_eqb g n'); reflexivity.
Qed.

Lemma schema_metadata_unique (schema : attrs) (n : nat) :
  attrs_unique (schema_metadata schema n) = true.
Proof. reflexivity. Qed.

(** X4: when the schema of the type is not empty, a call that returns leaves
    the node with the attributes computed from the schema, whatever the
    caller's metadata said under the same names: [node_type] is
    ['doctype'], [module] defaults to ['Unknown'], [field_count] is the
    length of the [fields] entry, and the two flags are booleans. *)
Theorem add_doctype_node_schema_attributes (w : World) (T : value)
  (m : option attrs) (b b' : Builder) :
  attrs_unique (given m) = true ->
  truthy (VDict (schema_of w T)) = true ->
  add_doctype_node w T m b = (Ret tt, b') ->
  exists e n,
    node_get (graph b') T = Some e /\
    py_len (py_get_default (schema_of w T) "fields" (VList [])) = Ret n /\
    attr_get (attr e) "node_type" = Some (VStr "doctype") /\
    attr_get (attr e) "module"
    = Some (py_get_default (schema_of w T) "module" (VStr "Unknown")) /\
    attr_get (attr e) "is_custom"
    = Some (py_get_default (schema_of w T) "custom" (VInt 0)) /\
    attr_get (attr e) "is_virtual"
    = Some (py_get_default (schema_of w T) "is_virtual" (VInt 0)) /\
    attr_get (attr e) "field_count" = Some (VInt (Z.of_nat n)) /\
    attr_get (attr e) "has_web_view"
    = Some (VBool (truthy (py_get_default (schema_of w T) "has_web_view" (VInt 0)))) /\
    attr_get (attr e) "is_submittable"
    = Some (VBool (truthy (py_get_default (schema_of w T) "is_submittable" (VInt 0)))).
Proof.
  unfold schema_of, given. intros U Ht R.
  pose proof (add_doctype_node_cases w T m b) as C. rewrite R in C.
  destruct C as (md & D & _ & N & _).
  unfold doctype_metadata in D. rewrite Ht in D.
  destruct (py_len (py_get_default (get_doctype_schema (erpnext w) T) "fields"
                      (VList []))) as [n|e0] eqn:L; [|discriminate].
  assert (E : md = attr_update (match m with Some m0 => m0 | None => [] end)
                     (schema_metadata (get_doctype_schema (erpnext w) T) n))
    by congruence.
  clear D.
  pose proof (nx_add_node_ret_ok _ _ _ _ N) as Hok.
  destruct (nx_add_node_ok T md (graph b) Hok) as (g1 & N1 & _ & _ & G).
  rewrite N in N1. injection N1 as <-.
  eexists _, n. split; [exact G|]. split; [reflexivity|].
  cbn [attr].
  assert (Um : attrs_unique md = true) by (rewrite E; apply attr_update_unique, U).
  assert (Hg : forall k v,
             attr_get (schema_metadata (get_doctype_schema (erpnext w) T) n) k
             = Some v ->
             attr_get (attr_update (match node_get (graph b) T with
                                    | Some e => attr e | None => [] end) md) k
             = Some v).
  { intros k v Hk. rewrite (attr_get_update _ _ _ Um), E,
      (attr_get_update _ _ _ (schema_metadata_unique _ _)), Hk. reflexivity. }
  repeat split; apply Hg; reflexivity.
Qed.

Lemma add_doctype_node_schema_attributes_witness :
  exists e,
    node_get
      (graph (snd (add_doctype_node (world_of described_connector)
                     (VStr "Customer")
                     (Some [("node_type", VStr "mine"); ("owner", VStr "me")])
                     (init_builder "out"))))
      (VStr "Customer") = Some e /\
    attr_get (attr e) "node_type" = Some (VStr "doctype") /\
    attr_get (attr e) "field_count" = Some (VInt 2) /\
    attr_get (attr e) "owner" = Some (VStr "me").
Proof.
  destruct (add_doctype_node_schema_attributes (world_of described_connector)
              (VStr "Customer")
              (Some [("node_type", VStr "mine"); ("owner", VStr "me")])
              (init_builder "out") _ eq_refl eq_refl eq_refl)
    as (e & n & G & L & Hnt & _ & _ & _ & Hfc & _).
  exists e. split; [exact G|]. split; [exact Hnt|]. split.
  - injection L as <-. exact Hfc.
  - revert G. clear. cbn. intros [= <-]. reflexivity.
Defined.

Lemma dict_set_same {V : Type} (d : list (value * V)) (k : value) (v : V) :
  dict_get key_eqb d k = Some v -> dict_set key_eqb d k v = d.
Proof.
  induction d as [|[k0 v0] r IH]; cbn [dict_get dict_set]; [discriminate|].
  destruct (key_eqb k0 k).
  - intros [= ->]. reflexivity.
  - intros H. rewrite (IH H). reflexivity.
Qed.

(** X5: when the schema of the type is empty (the fetch failed, or the
    connector works through the bench) and no metadata is passed, the call
    returns for every name that can be a node; a new name becomes a node
    without attributes, and for a name that is a node already the builder
    is left exactly as it was. *)
Theorem add_doctype_node_without_schema (w : World) (T : value) (b : Builder) :
  truthy (VDict (schema_of w T)) = false ->
  endpoint_ok (graph b) T = true ->
  add_doctype_node w T None b =
  (Ret tt,
   if node_mem (graph b) T then b
   else with_graph b (graph b ++ [(T, {| attr := []; succ := [] |})])).
Proof.
  unfold schema_of. intros Ht Hok.
  unfold add_doctype_node, bind, lift_outcome, doctype_metadata, call_add_node.
  rewrite Ht. cbn [add_node_clash attr_mem dict_mem dict_get orb].
  unfold on_graph, nx_add_node.
  rewrite (endpoint_ok_hashable _ _ Hok). cbn [negb].
  rewrite node_mem_get.
  destruct (node_get (graph b) T) as [e|] eqn:G.
  - cbn [attr_update dict_update fold_left].
    replace {| attr := attr e; succ := succ e |} with e by (destruct e; reflexivity).
    unfold node_get in G. rewrite (dict_set_same _ _ _ G).
    rewrite with_graph_same. reflexivity.
  - unfold endpoint_ok in Hok. rewrite node_mem_get, G in Hok.
    destruct T; try discriminate; reflexivity.
Qed.

Lemma add_doctype_node_without_schema_witness :
  add_doctype_node offline_world (VStr "Customer") None (init_builder "out") =
  (Ret tt,
   with_graph (init_builder "out")
     [(VStr "Customer", {| attr := []; succ := [] |})]).
Proof.
  exact (add_doctype_node_without_schema offline_world (VStr "Customer")
           (init_builder "out") eq_refl eq_refl).
Defined.

(** X6: [add_doctype_node] touches one node only.  Whether it returns or
    raises, the edges, the entries of all other nodes, the output directory,
    the files and the clock are as before; when it raises the builder is
    unchanged altogether. *)
Theorem add_doctype_node_touches_one_node (w : World) (T : value)
  (m : option attrs) (b : Builder) :
  let b' := snd (add_doctype_node w T m b) in
  edges (graph b') = edges (graph b) /\
  (forall n, key_eqb T n = false ->
             node_get (graph b') n = node_get (graph b) n) /\
  output_dir b' = output_dir b /\ written b' = written b /\
  clock b' = clock b /\
  (forall e, fst (add_doctype_node w T m b) = Raise e -> b' = b).
Proof.
  intros b'. subst b'.
  split; [apply add_doctype_node_edges|].
  pose proof (add_doctype_node_cases w T m b) as C.
  destruct (add_doctype_node w T m b) as [[[]|e] b1]; cbn [fst snd].
  - destruct C as (md & _ & _ & N & ->). cbn [output_dir written clock with_graph].
    split; [|repeat split; discriminate].
    intros n Hne. pose proof (nx_add_node_others T md (graph b) n Hne) as H.
    rewrite N in H. exact H.
  - subst b1. repeat split; auto.
Qed.

(** ** Nodes and attributes under [add_edge] *)

Lemma put_edge_attr (u v k : value) (a : attrs) (g : MultiDiGraph) (n : value) :
  option_map attr (node_get (put_edge u v k a g) n)
  = option_map attr (node_get g n).
Proof.
  unfold put_edge. destruct (node_get g u) as [e|] eqn:G; [|reflexivity].
  assert (Hr : key_eqb u u = true).
  { unfold node_get in G. apply dict_get_In in G. destruct G as (k0 & _ & Hk).
    apply key_eqb_refl. eapply key_eqb_hashable_r; eauto. }
  unfold node_get.
  rewrite (dict_get_set key_eqb key_eqb_congr key_eqb_sym) by exact Hr.
  destruct (key_eqb u n) eqn:E; [|reflexivity].
  rewrite <- (dict_get_congr key_eqb key_eqb_congr key_eqb_sym g u n E).
  unfold node_get in G. rewrite G. reflexivity.
Qed.

Lemma with_node_endpoint_ok (g : MultiDiGraph) (u v : value) :
  endpoint_ok g v = true -> endpoint_ok (with_node g u) v = true.
Proof.
  intros H. unfold with_node. destruct (node_mem g u); [exact H|].
  apply endpoint_ok_app, H.
Qed.

(** [add_edge] without a key, on acceptable endpoints: both are made nodes,
    then the edge is stored under a new key. *)
Lemma nx_add_edge_unfold (u v : value) (a : attrs) (g : MultiDiGraph) :
  endpoint_ok g u = true -> endpoint_ok g v = true ->
  let g2 := with_node (with_node g u) v in
  nx_add_edge u v None a g =
  (Ret (new_edge_key g2 u v), put_edge u v (new_edge_key g2 u v) a g2).
Proof.
  intros Hu Hv g2. unfold nx_add_edge, bind, get_state, modify, ret.
  rewrite (ensure_node_ok u g Hu). fold bare_node. fold (with_node g u).
  rewrite (ensure_node_ok v _ (with_node_endpoint_ok g u v Hv)).
  fold bare_node. fold (with_node (with_node g u) v). fold g2.
  rewrite new_edge_key_hashable. reflexivity.
Qed.

Lemma node_get_with_node (g : MultiDiGraph) (u n : value) :
  option_map attr (node_get (with_node g u) n) =
  if node_mem g n then option_map attr (node_get g n)
  else if node_mem g u then None
  else if key_eqb u n then Some [] else None.
Proof.
  unfold with_node. rewrite (node_mem_get g n).
  destruct (node_mem g u) eqn:Mu.
  - destruct (node_get g n); reflexivity.
  - unfold node_get. rewrite dict_get_app. cbn [dict_get].
    destruct (dict_get key_eqb g n); [reflexivity|].
    destruct (key_eqb u n); reflexivity.
Qed.

Lemma with_node_keys (g : MultiDiGraph) (u : value) :
  map fst (with_node g u) = map fst g ++ (if node_mem g u then [] else [u]).
Proof.
  unfold with_node. destruct (node_mem g u).
  - now rewrite app_nil_r.
  - now rewrite map_app.
Qed.

Lemma string_app_neq (s t : string) : t <> "" -> (s ++ t)%string <> s.
Proof.
  intros Ht H. apply Ht.
  induction s as [|c s IH]; [exact H|].
  cbn in H. injection H as H. auto.
Qed.

Lemma document_node_id_neq (w : World) (doctype : string) (doc_name : value) :
  String.eqb (document_node_id w doctype doc_name) doctype = false.
Proof.
  apply String.eqb_neq. unfold document_node_id.
  apply string_app_neq. discriminate.
Qed.

Lemma node_mem_with_node (g : MultiDiGraph) (u n : value) :
  hashable u = true ->
  node_mem (with_node g u) n = node_mem g n || key_eqb u n.
Proof.
  intros Hh. unfold with_node. destruct (node_mem g u) eqn:Mu.
  - destruct (key_eqb u n) eqn:E; [|now rewrite orb_false_r].
    rewrite orb_true_r. rewrite <- Mu. unfold node_mem, dict_mem.
    now rewrite (dict_get_congr key_eqb key_eqb_congr key_eqb_sym g u n E).
  - unfold node_mem. rewrite dict_mem_app. unfold dict_mem at 2.
    cbn [dict_get]. destruct (key_eqb u n); reflexivity.
Qed.

(** ** Instance nodes *)

(** What [add_document_node] leaves: the node list, and the attributes of
    the instance node. *)
Lemma add_document_node_nodes (w : World) (b : Builder) (doctype : string)
  (doc_name : value) (doc_data : attrs) :
  let node_id := VStr (document_node_id w doctype doc_name) in
  let b' := snd (add_document_node w doctype doc_name doc_data b) in
  map fst (graph b') =
    map fst (graph b)
    ++ (if node_mem (graph b) node_id then [] else [node_id])
    ++ (if node_mem (graph b) (VStr doctype) then [] else [VStr doctype]) /\
  option_map attr (node_get (graph b') node_id) =
    Some (attr_update (node_attrs (graph b) node_id)
            (document_metadata w doctype doc_name doc_data)) /\
  (forall n, key_eqb node_id n = false ->
     option_map attr (node_get (graph b') n) =
     if node_mem (graph b) n then option_map attr (node_get (graph b) n)
     else if key_eqb (VStr doctype) n then Some [] else None).
Proof.
  intros node_id b'. subst b'. unfold add_document_node.
  fold (document_node_id w doctype doc_name).
  change (VStr (document_node_id w doctype doc_name)) with node_id.
  destruct (nx_add_node_ok node_id (document_metadata w doctype doc_name doc_data)
              (graph b) (endpoint_ok_str _ _))
    as (g1 & R1 & _ & K1 & G1).
  unfold bind, on_graph, ret. rewrite R1. cbn [graph with_graph].
  rewrite (nx_add_edge_unfold node_id (VStr doctype) _ g1
             (endpoint_ok_str _ _) (endpoint_ok_str _ _)).
  cbn [snd graph with_graph].
  assert (M1 : node_mem g1 node_id = true).
  { rewrite node_mem_get, G1. reflexivity. }
  assert (W1 : with_node g1 node_id = g1).
  { unfold with_node. rewrite M1. reflexivity. }
  rewrite W1.
  assert (Hne : key_eqb node_id (VStr doctype) = false).
  { apply document_node_id_neq. }
  assert (Md : node_mem g1 (VStr doctype) = node_mem (graph b) (VStr doctype)).
  { rewrite !node_mem_of_keys, K1.
    destruct (node_mem (graph b) node_id); [reflexivity|].
    rewrite existsb_app. cbn [existsb]. rewrite Hne. cbn.
    now rewrite orb_false_r. }
  split; [|split].
  - rewrite put_edge_keys, with_node_keys, K1, Md.
    destruct (node_mem (graph b) node_id); rewrite ?app_nil_r, <- ?app_assoc;
      reflexivity.
  - rewrite put_edge_attr.
    rewrite node_get_with_node, M1, G1. cbn [option_map attr].
    unfold node_attrs, entry_of.
    destruct (node_get (graph b) node_id); reflexivity.
  - intros n Hn. rewrite put_edge_attr, node_get_with_node, Md.
    pose proof (nx_add_node_others node_id
                  (document_metadata w doctype doc_name doc_data) (graph b) n Hn)
      as Ho.
    rewrite R1 in Ho. cbn [snd] in Ho.
    assert (Mn : node_mem g1 n = node_mem (graph b) n).
    { rewrite !node_mem_get, Ho. reflexivity. }
    rewrite Mn, Ho.
    destruct (node_mem (graph b) n) eqn:E; [reflexivity|].
    destruct (node_mem (graph b) (VStr doctype)) eqn:E'; [|reflexivity].
    destruct (key_eqb (VStr doctype) n) eqn:E''; [|reflexivity].
    exfalso.
    assert (H : node_mem (graph b) (VStr doctype) = node_mem (graph b) n).
    { unfold node_mem, dict_mem.
      now rewrite (dict_get_congr key_eqb key_eqb_congr key_eqb_sym _ _ _ E''). }
    congruence.
Qed.

Lemma add_document_node_step (w : World) (b : Builder) (doctype : string)
  (doc_name : value) (doc_data : attrs) :
  let node_id := VStr (document_node_id w doctype doc_name) in
  let b' := snd (add_document_node w doctype doc_name doc_data b) in
  number_of_edges (graph b') = number_of_edges (graph b) + 1 /\
  parallel_edges (graph b') node_id (VStr doctype)
  = parallel_edges (graph b) node_id (VStr doctype) + 1 /\
  number_of_nodes (graph b') =
    number_of_nodes (graph b)
    + (if has_node (graph b) node_id then 0 else 1)
    + (if has_node (graph b) (VStr doctype) then 0 else 1) /\
  has_node (graph b') node_id = true /\
  has_node (graph b') (VStr doctype) = true.
Proof.
  intros node_id b'.
  destruct (add_document_node_spec w b doctype doc_name doc_data)
    as (b1 & key & l1 & l2 & R & Eg & Eg' & Mu & Mv).
  assert (Hb : b' = b1) by (subst b'; rewrite R; reflexivity).
  rewrite <- Hb in *. clear Hb R b1.
  split; [exact (number_of_edges_insert _ _ _ _ _ Eg Eg')|].
  split; [|split; [|split]].
  - unfold parallel_edges. rewrite Eg, Eg', !filter_app, !length_app.
    cbn [filter edge_source edge_target fst snd].
    unfold node_id. cbn [key_eqb]. rewrite !String.eqb_refl.
    cbn [andb length]. lia.
  - destruct (add_document_node_nodes w b doctype doc_name doc_data) as (K & _).
    fold b' node_id in K. rewrite !has_node_mem.
    unfold number_of_nodes. rewrite <- !(length_map fst), K, !length_app.
    destruct (node_mem (graph b) node_id), (node_mem (graph b) (VStr doctype));
      cbn [length]; lia.
  - rewrite has_node_mem. exact Mu.
  - rewrite has_node_mem. exact Mv.
Qed.

Lemma upserts_cons (w : World) (doctype : string) (doc_name : value)
  (d : attrs) (r : list attrs) (b : Builder) :
  upserts w doctype doc_name (d :: r) b
  = upserts w doctype doc_name r
      (snd (add_document_node w doctype doc_name d b)).
Proof. reflexivity. Qed.

(** X7: adding the same record again never replaces its [instance_of] edge:
    after the record was added [n] times, with whatever data, the graph has
    [n] more edges, all of them parallel edges from the instance node to the
    type node, while no call after the first adds a node. *)
Theorem upserts_accumulate_edges (w : World) (doctype : string)
  (doc_name : value) (data : list attrs) (b : Builder) :
  let node_id := VStr (document_node_id w doctype doc_name) in
  let b' := upserts w doctype doc_name data b in
  number_of_edges (graph b') = number_of_edges (graph b) + List.length data /\
  parallel_edges (graph b') node_id (VStr doctype)
  = parallel_edges (graph b) node_id (VStr doctype) + List.length data /\
  forall doc_data,
    number_of_nodes (graph (upserts w doctype doc_name data
                              (snd (add_document_node w doctype doc_name
                                      doc_data b))))
    = number_of_nodes (graph (snd (add_document_node w doctype doc_name
                                     doc_data b))).
Proof.
  intros node_id b'. subst b'.
  assert (Hcount : forall data b,
    number_of_edges (graph (upserts w doctype doc_name data b))
    = number_of_edges (graph b) + List.length data /\
    parallel_edges (graph (upserts w doctype doc_name data b)) node_id
      (VStr doctype)
    = parallel_edges (graph b) node_id (VStr doctype) + List.length data).
  { clear. intros data. induction data as [|d r IH]; intros b.
    - cbn. split; lia.
    - rewrite upserts_cons.
      destruct (IH (snd (add_document_node w doctype doc_name d b))) as [E P].
      destruct (add_document_node_step w b doctype doc_name d)
        as (E1 & P1 & _).
      cbv zeta in E1, P1. fold node_id in P1.
      rewrite E, P, E1, P1. cbn [length]. split; lia. }
  assert (Hnodes : forall data b,
    has_node (graph b) node_id = true ->
    has_node (graph b) (VStr doctype) = true ->
    number_of_nodes (graph (upserts w doctype doc_name data b))
    = number_of_nodes (graph b)).
  { clear. intros data. induction data as [|d r IH]; intros b Hn Ht.
    - reflexivity.
    - rewrite upserts_cons.
      destruct (add_document_node_step w b doctype doc_name d)
        as (_ & _ & N1 & Hn1 & Ht1).
      cbv zeta in N1, Hn1, Ht1. fold node_id in N1, Hn1.
      rewrite IH by assumption. rewrite N1, Hn, Ht. lia. }
  destruct (Hcount data b) as [E P].
  split; [exact E|]. split; [exact P|].
  intros doc_data.
  destruct (add_document_node_step w b doctype doc_name doc_data)
    as (_ & _ & _ & Hn1 & Ht1).
  apply Hnodes; assumption.
Qed.

(** X8: [add_document_node] creates exactly those of its two nodes that are
    missing, the instance node and the type node.  A type node it creates
    has no attributes at all (the statistics count it under the node type
    ['unknown']), and a type node that exists keeps the attributes it
    has. *)
Theorem add_document_node_creates_missing_nodes (w : World) (b : Builder)
  (doctype : string) (doc_name : value) (doc_data : attrs) :
  let node_id := VStr (document_node_id w doctype doc_name) in
  let b' := snd (add_document_node w doctype doc_name doc_data b) in
  number_of_nodes (graph b') =
    number_of_nodes (graph b)
    + (if has_node (graph b) node_id then 0 else 1)
    + (if has_node (graph b) (VStr doctype) then 0 else 1) /\
  option_map attr (node_get (graph b') (VStr doctype)) =
    (if has_node (graph b) (VStr doctype)
     then option_map attr (node_get (graph b) (VStr doctype))
     else Some []) /\
  forall n, key_eqb node_id n = false -> key_eqb (VStr doctype) n = false ->
    option_map attr (node_get (graph b') n)
    = option_map attr (node_get (graph b) n).
Proof.
  intros node_id b'.
  destruct (add_document_node_step w b doctype doc_name doc_data)
    as (_ & _ & N & _).
  destruct (add_document_node_nodes w b doctype doc_name doc_data)
    as (_ & _ & Ho).
  fold node_id b' in N, Ho.
  split; [exact N|]. split.
  - rewrite (Ho (VStr doctype) (document_node_id_neq w doctype doc_name)).
    rewrite has_node_mem. cbn [key_eqb]. rewrite String.eqb_refl. reflexivity.
  - intros n Hn Ht. rewrite (Ho n Hn), Ht.
    rewrite node_mem_get. destruct (node_get (graph b) n); reflexivity.
Qed.

Lemma document_metadata_unique (w : World) (doctype : string)
  (doc_name : value) (doc_data : attrs) :
  attrs_unique (document_metadata w doctype doc_name doc_data) = true.
Proof.
  unfold document_metadata, copy_business_fields.
  cbn [fold_left business_fields].
  destruct (truthy (py_get doc_data "customer")),
           (truthy (py_get doc_data "supplier")),
           (truthy (py_get doc_data "company")),
           (truthy (py_get doc_data "item_code")),
           (truthy (py_get doc_data "project")); reflexivity.
Qed.

Lemma document_metadata_business (w : World) (doctype : string)
  (doc_name : value) (doc_data : attrs) (f : string) :
  In f business_fields ->
  attr_get (document_metadata w doctype doc_name doc_data) f =
  if truthy (py_get doc_data f)
  then Some (VStr (py_str (repr_container w) (py_get doc_data f)))
  else None.
Proof.
  unfold document_metadata, copy_business_fields.
  cbn [fold_left business_fields In].
  intros [<-|[<-|[<-|[<-|[<-|[]]]]]];
    destruct (truthy (py_get doc_data "customer")),
             (truthy (py_get doc_data "supplier")),
             (truthy (py_get doc_data "company")),
             (truthy (py_get doc_data "item_code")),
             (truthy (py_get doc_data "project")); reflexivity.
Qed.

Lemma document_metadata_fixed (w : World) (doctype : string)
  (doc_name : value) (doc_data : attrs) (k : string) (v : value) :
  attr_get [ ("node_type", VStr "document"); ("doctype", VStr doctype);
             ("name", doc_name);
             ("status", py_get_default doc_data "status" (VStr "Unknown"));
             ("docstatus", py_get_default doc_data "docstatus" (VInt 0));
             ("creation", py_get_default doc_data "creation" (VStr ""));
             ("modified", py_get_default doc_data "modified" (VStr "")) ] k
  = Some v ->
  attr_get (document_metadata w doctype doc_name doc_data) k = Some v.
Proof.
  unfold document_metadata, copy_business_fields.
  cbn [fold_left business_fields].
  intros H.
  destruct (truthy (py_get doc_data "customer")),
           (truthy (py_get doc_data "supplier")),
           (truthy (py_get doc_data "company")),
           (truthy (py_get doc_data "item_code")),
           (truthy (py_get doc_data "project"));
    repeat (rewrite attr_get_set;
            match goal with
            | |- (if String.eqb ?a k then _ else _) = _ =>
                destruct (String.eqb_spec a k) as [<-|_];
                [cbn in H; discriminate|]
            end);
    exact H.
Qed.

(** X9: adding a record merges into the attributes of its node and never
    deletes one.  After the call the node carries [node_type], [doctype],
    [name] and [status] (['Unknown'] when the record has none) from this
    call; a business field of the record that is set is stored as a string;
    one that is missing or empty leaves the value stored by an earlier call
    in place, as does every attribute the call does not compute. *)
Theorem add_document_node_merges_attributes (w : World) (b : Builder)
  (doctype : string) (doc_name : value) (doc_data : attrs) :
  let node_id := VStr (document_node_id w doctype doc_name) in
  let b' := snd (add_document_node w doctype doc_name doc_data b) in
  let old := node_attrs (graph b) node_id in
  let new := node_attrs (graph b') node_id in
  attr_get new "node_type" = Some (VStr "document") /\
  attr_get new "doctype" = Some (VStr doctype) /\
  attr_get new "name" = Some doc_name /\
  attr_get new "status" = Some (py_get_default doc_data "status" (VStr "Unknown")) /\
  (forall f, In f business_fields ->
     attr_get new f =
     if truthy (py_get doc_data f)
     then Some (VStr (py_str (repr_container w) (py_get doc_data f)))
     else attr_get old f) /\
  (forall k, attr_mem (document_metadata w doctype doc_name doc_data) k = false ->
     attr_get new k = attr_get old k).
Proof.
  intros node_id b' old new.
  destruct (add_document_node_nodes w b doctype doc_name doc_data)
    as (_ & A & _).
  fold node_id b' in A.
  assert (Hnew : new = attr_update old
                         (document_metadata w doctype doc_name doc_data)).
  { subst new old. unfold node_attrs at 1, entry_of.
    destruct (node_get (graph b') node_id) as [e|]; [|discriminate].
    cbn [option_map] in A. congruence. }
  pose proof (document_metadata_unique w doctype doc_name doc_data) as U.
  assert (Hfix : forall k v,
    attr_get [ ("node_type", VStr "document"); ("doctype", VStr doctype);
               ("name", doc_name);
               ("status", py_get_default doc_data "status" (VStr "Unknown"));
               ("docstatus", py_get_default doc_data "docstatus" (VInt 0));
               ("creation", py_get_default doc_data "creation" (VStr ""));
               ("modified", py_get_default doc_data "modified" (VStr "")) ] k
    = Some v -> attr_get new k = Some v).
  { intros k v H. rewrite Hnew, (attr_get_update _ _ _ U),
      (document_metadata_fixed w doctype doc_name doc_data k v H). reflexivity. }
  repeat (split; [apply Hfix; reflexivity|]).
  split.
  - intros f Hf. rewrite Hnew, (attr_get_update _ _ _ U),
      (document_metadata_business w doctype doc_name doc_data f Hf).
    destruct (truthy (py_get doc_data f)); reflexivity.
  - intros k Hk. rewrite Hnew. apply attr_get_update_absent. exact Hk.
Qed.

(** ** Relationship edges *)

Lemma edge_kwargs_unique (w : World) (b : Builder) (kind : string)
  (md : option attrs) :
  attrs_unique (given md) = true ->
  attrs_unique (edge_kwargs w b kind md) = true.
Proof.
  intros U. unfold edge_kwargs. apply attr_set_unique, attr_set_unique, U.
Qed.

(** X10: an edge added by [add_relationship_edge] carries the kind passed
    as argument under [relationship_type] and the reading of the clock under
    [created_at], whatever the caller's metadata said under these two names;
    every other entry of the metadata becomes an attribute of the edge
    unchanged, and the call reads the clock once. *)
Theorem add_relationship_edge_stamps_edge (w : World) (u v : value)
  (kind : string) (md : option attrs) (b : Builder) :
  endpoint_ok (graph b) u = true ->
  endpoint_ok (graph b) v = true ->
  reserved_free md = true ->
  attrs_unique (given md) = true ->
  exists b' e l1 l2,
    add_relationship_edge w u v kind md b = (Ret tt, b') /\
    edges (graph b) = l1 ++ l2 /\
    edges (graph b') = l1 ++ e :: l2 /\
    key_eqb (edge_source e) u = true /\
    key_eqb (edge_target e) v = true /\
    attr_get (edge_data e) "relationship_type" = Some (VStr kind) /\
    attr_get (edge_data e) "created_at"
    = Some (VStr (isoformat (now w (clock b)))) /\
    (forall k, k <> "relationship_type" -> k <> "created_at" ->
               attr_get (edge_data e) k = attr_get (given md) k) /\
    clock b' = S (clock b).
Proof.
  intros Hu Hv Hr U.
  destruct (add_relationship_edge_new w u v kind md b Hu Hv Hr)
    as (b' & k & l1 & l2 & u0 & v0 & R & Eg & Eg' & Hu0 & Hv0 & _ & _ & _ & _
        & _ & _ & _ & Hc).
  exists b', (u0, v0, k, attr_update [] (edge_kwargs w b kind md)), l1, l2.
  split; [exact R|]. split; [exact Eg|]. split; [exact Eg'|].
  split; [exact Hu0|]. split; [exact Hv0|].
  pose proof (edge_kwargs_unique w b kind md U) as Uk.
  unfold edge_data. cbn [snd].
  split; [|split; [|split; [|exact Hc]]].
  - rewrite (attr_get_update _ _ _ Uk). unfold edge_kwargs.
    rewrite !attr_get_set. reflexivity.
  - rewrite (attr_get_update _ _ _ Uk). unfold edge_kwargs.
    rewrite !attr_get_set. reflexivity.
  - intros k0 H1 H2. rewrite (attr_get_update _ _ _ Uk). unfold edge_kwargs.
    rewrite !attr_get_set.
    destruct (String.eqb_spec "created_at" k0) as [E|_]; [congruence|].
    destruct (String.eqb_spec "relationship_type" k0) as [E|_]; [congruence|].
    unfold given. destruct (attr_get _ k0); reflexivity.
Qed.

Lemma add_relationship_edge_stamps_edge_witness :
  exists b' e,
    add_relationship_edge offline_world (VStr "A") (VStr "B") "links_to"
      (Some [("relationship_type", VStr "mine"); ("weight", VInt 3)]) two_nodes
    = (Ret tt, b') /\
    edges (graph b') = [e] /\
    attr_get (edge_data e) "relationship_type" = Some (VStr "links_to") /\
    attr_get (edge_data e) "created_at" = Some (VStr "2025-01-02T03:04:05") /\
    attr_get (edge_data e) "weight" = Some (VInt 3).
Proof.
  destruct (add_relationship_edge_stamps_edge offline_world (VStr "A") (VStr "B")
              "links_to"
              (Some [("relationship_type", VStr "mine"); ("weight", VInt 3)])
              two_nodes eq_refl eq_refl eq_refl eq_refl)
    as (b' & e & l1 & l2 & R & Eg & Eg' & _ & _ & Hk & Hc & Ho & _).
  exists b', e. split; [exact R|].
  destruct l1; [|discriminate]. destruct l2; [|discriminate].
  split; [exact Eg'|]. split; [exact Hk|]. split; [exact Hc|].
  rewrite Ho by discriminate. reflexivity.
Defined.

(** X11: a call of [add_relationship_edge] whose target cannot be a node
    (a list, a dictionary, or [None]) raises and adds no edge, but it is not
    undone: the clock was read, and a source that is acceptable and new has
    been made a node already and stays in the graph, without attributes. *)
Theorem add_relationship_edge_rejected_target (w : World) (u v : value)
  (kind : string) (md : option attrs) (b : Builder) :
  add_edge_clash (edge_kwargs w b kind md) = false ->
  endpoint_ok (graph b) v = false ->
  exists e,
    add_relationship_edge w u v kind md b =
    (Raise e,
     with_graph (tick b)
       (if endpoint_ok (graph b) u then with_node (graph b) u else graph b)) /\
    edges (if endpoint_ok (graph b) u then with_node (graph b) u else graph b)
    = edges (graph b).
Proof.
  intros Hc Hv. rewrite add_relationship_edge_unfold. unfold call_add_edge.
  rewrite Hc. unfold on_graph, nx_add_edge, bind. cbn [graph tick].
  destruct (endpoint_ok (graph b) u) eqn:Hu.
  - rewrite (ensure_node_ok u _ Hu). fold bare_node. fold (with_node (graph b) u).
    assert (Hv1 : endpoint_ok (with_node (graph b) u) v = false).
    { unfold endpoint_ok in *.
      destruct (hashable v) eqn:Hh; [|reflexivity]. cbn [andb] in *.
      apply orb_false_iff in Hv. destruct Hv as [Mv Nv].
      rewrite Nv, orb_false_r.
      rewrite node_mem_with_node, Mv
        by (apply andb_true_iff in Hu; tauto).
      cbn [orb]. destruct (key_eqb u v) eqn:E; [|reflexivity].
      exfalso. apply negb_false_iff, is_none_eqb in Nv. subst v.
      apply is_none_eqb in E. subst u.
      rewrite Mv in Hu. discriminate. }
    destruct (ensure_node_fail v _ Hv1) as (e & ->).
    exists e. split; [reflexivity|].
    unfold with_node. destruct (node_mem (graph b) u); [reflexivity|].
    apply edges_new_node.
  - destruct (ensure_node_fail u _ Hu) as (e & ->).
    exists e. split; reflexivity.
Qed.

Lemma add_relationship_edge_rejected_target_witness :
  exists e,
    add_relationship_edge offline_world (VStr "C") VNone "links_to" None two_nodes
    = (Raise e,
       with_graph (tick two_nodes)
         (graph two_nodes ++ [(VStr "C", bare_node)])) /\
    number_of_edges (graph two_nodes ++ [(VStr "C", bare_node)]) = 0.
Proof.
  destruct (add_relationship_edge_rejected_target offline_world (VStr "C") VNone
              "links_to" None two_nodes eq_refl eq_refl) as (e & R & E).
  exists e. split; [exact R|]. reflexivity.
Defined.

(** ** Invariants of the whole state *)

Lemma keeps_ret {S A : Type} (P : S -> Prop) (a : A) : keeps P (ret a).
Proof. intros s H. exact H. Qed.

Lemma keeps_bind {S A B : Type} (P : S -> Prop) (m : M S A) (f : A -> M S B) :
  keeps P m -> (forall a, keeps P (f a)) -> keeps P (bind m f).
Proof.
  intros Hm Hf s H. unfold bind. specialize (Hm s H).
  destruct (m s) as [[a|e] s']; cbn [snd] in *; [apply Hf|]; exact Hm.
Qed.

Lemma keeps_try_except {S A : Type} (P : S -> Prop) (m : M S A)
  (h : exn -> M S A) :
  keeps P m -> (forall e, keeps P (h e)) -> keeps P (try_except m h).
Proof.
  intros Hm Hh s H. unfold try_except. specialize (Hm s H).
  destruct (m s) as [[a|e] s']; cbn [snd] in *; [|apply Hh]; exact Hm.
Qed.

Lemma keeps_for_each {S X : Type} (P : S -> Prop) (l : list X)
  (body : X -> M S unit) :
  (forall x, In x l -> keeps P (body x)) -> keeps P (for_each l body).
Proof.
  induction l as [|x r IH]; intros Hb; [apply keeps_ret|].
  cbn [for_each]. apply keeps_bind.
  - apply Hb. left. reflexivity.
  - intros _. apply IH. intros y Hy. apply Hb. right. exact Hy.
Qed.

Lemma keeps_read {S A : Type} (P : S -> Prop) (f : S -> M S A) :
  (forall s, P s -> P (snd (f s s))) -> keeps P (bind get_state f).
Proof. intros Hf s H. unfold bind, get_state. apply Hf. exact H. Qed.

(** ** The books of the instance-level build *)

Lemma link_to_other_balance (w : World) (c : nat) (b0 : Builder)
  (r0 : DocumentResults) node_id f s other :
  keeps (references_balance c b0 r0) (link_to_other w node_id f s other).
Proof.
  intros [b r] H. destruct other as [oid odoc].
  unfold link_to_other.
  destruct (negb (String.eqb oid node_id) && eq_str (py_get odoc "name") s);
    [|exact H].
  destruct (add_relationship_edge_new w (VStr node_id) (VStr oid)
              ("references_" ++ f) None b
              (endpoint_ok_str _ _) (endpoint_ok_str _ _) eq_refl)
    as (b' & k & l1 & l2 & u0 & v0 & R & Eg & Eg' & _ & _ & _ & _ & _ & _ & _
        & Ho & Hw & _).
  unfold bind, on_builder, on_results. cbn [fst snd]. rewrite R. cbn [fst snd].
  unfold references_balance in *. cbn [fst snd] in *.
  destruct H as (E & Hp & He & Her & Hd & Hn & Hdir & Hfs).
  rewrite (number_of_edges_insert _ _ _ _ _ Eg Eg'), E.
  cbn [document_count_relationship document_relationships_found
       documents_processed document_errors document_error results_doctype
       document_nodes].
  repeat split; auto; try congruence; lia.
Qed.

Lemma link_document_balance (w : World) (c : nat) (b0 : Builder)
  (r0 : DocumentResults) nodes node_id doc :
  keeps (references_balance c b0 r0) (link_document w nodes node_id doc).
Proof.
  rewrite link_document_unfold. apply keeps_for_each.
  intros [f v] _. unfold link_field.
  destruct v; try apply keeps_ret.
  destruct (truthy (VStr s)); [|apply keeps_ret].
  rewrite link_field_to_others_unfold. apply keeps_for_each.
  intros other _. apply link_to_other_balance.
Qed.

Lemma add_document_references_balance (w : World) (c : nat) (b0 : Builder)
  (r0 : DocumentResults) nodes :
  keeps (references_balance c b0 r0) (add_document_references w nodes).
Proof.
  rewrite add_document_references_unfold.
  apply keeps_for_each. intros [node_id doc] _ s H.
  rewrite link_node_is_link_document. apply link_document_balance, H.
Qed.

Lemma add_document_node_files (w : World) (b : Builder) (doctype : string)
  (doc_name : value) (doc_data : attrs) :
  let b' := snd (add_document_node w doctype doc_name doc_data b) in
  output_dir b' = output_dir b /\ written b' = written b /\ clock b' = clock b.
Proof.
  cbv zeta. unfold add_document_node, bind, on_graph, ret.
  destruct (nx_add_node _ _ (graph b)) as [[[]|e] g1]; cbn [graph with_graph snd];
    [|auto].
  destruct (nx_add_edge _ _ _ _ g1) as [[k|e] g2]; cbn [snd]; auto.
Qed.

Lemma add_document_nodes_files (w : World) (doctype : string)
  (documents : list attrs) (s : Builder * DocumentResults) :
  let s' := snd (add_document_nodes w doctype documents s) in
  output_dir (fst s') = output_dir (fst s) /\
  written (fst s') = written (fst s) /\
  document_errors (snd s') = document_errors (snd s) /\
  document_error (snd s') = document_error (snd s) /\
  results_doctype (snd s') = results_doctype (snd s).
Proof.
  revert s. induction documents as [|doc docs IH]; intros [b r]; cbv zeta.
  - cbn. auto.
  - destruct (add_document_nodes_step w doctype doc b r) as (b1 & R1 & _).
    assert (Eq : add_document_nodes w doctype (doc :: docs) (b, r)
                 = add_document_nodes w doctype docs
                     (b1, if sampled doc
                          then document_count_node (document_entry w doctype doc) r
                          else r)).
    { unfold add_document_nodes. cbn [for_each].
      fold (add_document_nodes w doctype docs).
      unfold bind at 1. cbv beta zeta in R1 |- *. rewrite R1. reflexivity. }
    rewrite Eq.
    destruct (IH (b1, if sampled doc
                      then document_count_node (document_entry w doctype doc) r
                      else r)) as (D & W & E & Er & Rd).
    cbn [fst snd] in *. rewrite D, W, E, Er, Rd.
    assert (Hb1 : output_dir b1 = output_dir b /\ written b1 = written b).
    { revert R1. unfold try_except. cbv zeta.
      destruct (truthy (py_get doc "name")).
      - unfold bind, on_builder, on_results. cbn [fst snd].
        pose proof (add_document_node_files w b doctype (py_get doc "name") doc)
          as F. cbv zeta in F.
        destruct (add_document_node w doctype (py_get doc "name") doc b)
          as [[id|e] b2]; cbn [fst snd] in *; intros [= <-]; tauto.
      - unfold ret. intros [= <-]. auto. }
    destruct Hb1 as [-> ->].
    destruct (sampled doc); cbn; auto.
Qed.

Lemma document_build_books (w : World) (b : Builder)
  (doctype : string) (limit : Z) :
  let documents := get_sample_documents (erpnext w) doctype limit in
  exists res b',
    build_document_relationship_graph w doctype limit b = (Ret res, b') /\
    results_doctype res = doctype /\
    documents_processed res = List.length (filter sampled documents) /\
    number_of_edges (graph b') =
      number_of_edges (graph b) + documents_processed res
      + document_relationships_found res /\
    document_errors res = [] /\
    document_error res =
      (match documents with
       | [] => Some (NoDocumentsFound doctype)
       | _ => None
       end) /\
    (documents = [] -> b' = b) /\
    output_dir b' = output_dir b /\ written b' = written b.
Proof.
  intros documents.
  unfold build_document_relationship_graph, with_results, try_except.
  fold documents.
  destruct documents as [|d0 ds] eqn:D.
  - eexists _, b. unfold on_results. cbn [fst snd].
    split; [reflexivity|]. cbn. repeat split; auto; lia.
  - assert (Hne : d0 :: ds <> []) by discriminate.
    rewrite <- D in Hne |- *. clear D d0 ds.
    destruct (add_document_nodes_spec w doctype documents b
                (new_document_results doctype))
      as (b1 & r1 & R1 & Dn & Dp & Df & Ne & _ & _).
    pose proof (add_document_nodes_files w doctype documents
                  (b, new_document_results doctype)) as F.
    cbv zeta in F. rewrite R1 in F. cbn [fst snd] in F.
    destruct F as (Fd & Fw & Fe & Fer & Frd).
    cbn [new_document_results document_nodes documents_processed
           document_relationships_found document_errors document_error
           results_doctype app Nat.add] in *.
    pose proof (add_document_references_returns w (document_nodes r1) (b1, r1))
      as R2.
    pose proof (add_document_references_balance w (number_of_edges (graph b1))
                  b1 r1 (document_nodes r1) (b1, r1)) as B2.
    destruct (add_document_references w (document_nodes r1) (b1, r1))
      as [o2 [b2 r2]] eqn:E2.
    cbn [fst snd] in R2. subst o2.
    destruct B2 as (E & Hp & He & Her & Hd & _ & Hdir & Hfs).
    { unfold references_balance. cbn [fst snd]. rewrite Df.
      repeat split; auto; lia. }
    cbn [fst snd] in *.
    exists r2, b2. split.
    { destruct documents as [|d0 ds]; unfold bind, get_state; rewrite R1;
        cbn [snd]; rewrite E2; reflexivity. }
    split; [congruence|]. split; [congruence|].
    split; [rewrite E, Ne, Hp, Dp; lia|].
    split; [congruence|]. split; [congruence|].
    split; [intros Hnil; contradiction|].
    split; congruence.
Qed.



(** ** The books of the type-level build *)

Lemma nx_add_edge_raise_edges (u v : value) (key : option value) (a : attrs)
  (g g' : MultiDiGraph) (e : exn) :
  nx_add_edge u v key a g = (Raise e, g') -> edges g' = edges g.
Proof.
  unfold nx_add_edge, bind.
  pose proof (ensure_node_cases u g) as Cu.
  destruct (ensure_node u g) as [[[]|eu] g1]; [|intros [= _ <-]; now subst g1].
  destruct Cu as (_ & E1 & _).
  pose proof (ensure_node_cases v g1) as Cv.
  destruct (ensure_node v g1) as [[[]|ev] g2];
    [|intros [= _ <-]; subst g2; exact E1].
  destruct Cv as (_ & E2 & _).
  unfold get_state, modify, ret, raise.
  destruct (negb (hashable _)); [|discriminate].
  intros [= _ <-]. congruence.
Qed.

Lemma add_relationship_edge_files (w : World) (u v : value) (kind : string)
  (md : option attrs) (b : Builder) :
  let b' := snd (add_relationship_edge w u v kind md b) in
  output_dir b' = output_dir b /\ written b' = written b /\
  clock b' = S (clock b).
Proof.
  cbv zeta. rewrite add_relationship_edge_unfold. unfold call_add_edge.
  destruct (add_edge_clash _); [cbn; auto|].
  unfold bind, on_graph. cbn [graph tick].
  destruct (nx_add_edge _ _ _ _ (graph b)) as [[k|e] g']; cbn; auto.
Qed.

(** A call that raises has added no edge. *)
Lemma add_relationship_edge_raise_edges (w : World) (u v : value)
  (kind : string) (md : option attrs) (b b' : Builder) (e : exn) :
  add_relationship_edge w u v kind md b = (Raise e, b') ->
  edges (graph b') = edges (graph b).
Proof.
  rewrite add_relationship_edge_unfold. unfold call_add_edge.
  destruct (add_edge_clash _); [intros [= _ <-]; reflexivity|].
  unfold bind, on_graph. cbn [graph tick].
  destruct (nx_add_edge _ _ _ _ (graph b)) as [[k|e'] g'] eqn:N;
    [discriminate|].
  intros [= _ <-]. cbn [graph with_graph].
  eapply nx_add_edge_raise_edges; eauto.
Qed.

Lemma add_relationship_edge_bad_source_raises (w : World) (u v : value)
  (kind : string) (md : option attrs) (b : Builder) :
  endpoint_ok (graph b) u = false ->
  exists e, fst (add_relationship_edge w u v kind md b) = Raise e.
Proof.
  intros Hu. rewrite add_relationship_edge_unfold. unfold call_add_edge.
  destruct (add_edge_clash _); [eexists; reflexivity|].
  unfold bind, on_graph. cbn [graph tick].
  destruct (nx_add_edge_bad_source u v
              (attr_get (edge_kwargs w b kind md) "key")
              (dict_remove String.eqb (edge_kwargs w b kind md) "key")
              (graph b) Hu) as (e & ->).
  exists e. reflexivity.
Qed.

Lemma add_edges_to_known_balance (w : World) (c : nat) (b0 : Builder)
  (r0 : SchemaResults) (d : value) (kind : string) (targets : list value) :
  keeps (edges_balance c b0 r0) (add_edges_to_known w d kind targets).
Proof.
  unfold add_edges_to_known. apply keeps_for_each. intros t _.
  apply keeps_read. intros [b r] H. cbn [fst].
  destruct (has_node (graph b) t) eqn:Ht; [|exact H].
  unfold bind, on_builder, on_results. cbn [fst snd].
  pose proof (add_relationship_edge_files w d t kind None b) as F.
  cbv zeta in F.
  destruct (add_relationship_edge w d t kind None b) as [[[]|e] b'] eqn:R;
    cbn [fst snd] in *; destruct F as (Fd & Fw & _);
    unfold edges_balance in *; cbn [fst snd] in *;
    destruct H as (E & Hp & He & Her & Hdir & Hfs).
  - (* the call returned: the source was acceptable, one edge was added *)
    destruct (endpoint_ok (graph b) d) eqn:Hd.
    + rewrite has_node_mem in Ht.
      destruct (add_relationship_edge_new w d t kind None b Hd
                  (node_mem_endpoint_ok _ _ Ht) eq_refl)
        as (b1 & k & l1 & l2 & u0 & v0 & R1 & Eg & Eg' & _).
      rewrite R in R1. injection R1 as <-.
      rewrite (number_of_edges_insert _ _ _ _ _ Eg Eg'), E.
      cbn [schema_count_relationship schema_relationships_found
           doctypes_processed schema_errors schema_error].
      repeat split; auto; try congruence; lia.
    + exfalso.
      destruct (add_relationship_edge_bad_source_raises w d t kind None b Hd)
        as (e & He').
      rewrite R in He'. discriminate.
  - unfold number_of_edges.
    rewrite (add_relationship_edge_raise_edges _ _ _ _ _ _ _ _ R).
    repeat split; auto; congruence.
Qed.

Lemma add_doctype_relationships_balance (w : World) (c : nat) (b0 : Builder)
  (r0 : SchemaResults) (doctypes : list value) :
  keeps (edges_balance c b0 r0) (add_doctype_relationships w doctypes).
Proof.
  unfold add_doctype_relationships. apply keeps_for_each. intros x _.
  cbv zeta. apply keeps_try_except.
  - apply keeps_bind; [|intros _]; apply add_edges_to_known_balance.
  - intros e [b r] H. unfold on_results, edges_balance in *. cbn [fst snd] in *.
    destruct H as (E & Hp & He & Her & Hdir & Hfs).
    cbn [schema_append_error schema_relationships_found doctypes_processed
         schema_errors schema_error].
    rewrite filter_app. cbn [filter is_node_error]. rewrite app_nil_r.
    repeat split; auto.
Qed.

Lemma add_doctype_nodes_balance (w : World) (b0 : Builder)
  (doctypes : list value) :
  keeps (nodes_balance b0) (add_doctype_nodes w doctypes).
Proof.
  unfold add_doctype_nodes. apply keeps_for_each. intros x _ [b r] H.
  cbv zeta. unfold try_except, bind, on_builder, on_results. cbn [fst snd].
  pose proof (add_doctype_node_cases w (doctype_name x) None b) as C.
  pose proof (add_doctype_node_edges w (doctype_name x) None b) as Ed.
  destruct (add_doctype_node w (doctype_name x) None b) as [[[]|e] b'];
    cbn [fst snd] in *; unfold nodes_balance in *; cbn [fst snd] in *;
    destruct H as (N & E & Hr & Her & Hdir & Hfs & Hc).
  - destruct C as (md & _ & _ & Nx & ->).
    pose proof (nx_add_node_number _ _ _ _ _ Nx) as Hn. cbn [graph with_graph] in *.
    cbn [schema_count_doctype doctypes_processed schema_relationships_found
         schema_error output_dir written clock].
    repeat split; auto; try congruence.
    destruct (node_mem (graph b) (doctype_name x)); lia.
  - subst b'.
    cbn [schema_append_error doctypes_processed schema_relationships_found
         schema_error].
    repeat split; auto.
Qed.

Lemma add_doctype_nodes_count (w : World) (doctypes : list value)
  (s : Builder * SchemaResults) :
  let s' := snd (add_doctype_nodes w doctypes s) in
  doctypes_processed (snd s')
  + List.length (filter is_node_error (schema_errors (snd s')))
  = doctypes_processed (snd s)
    + List.length (filter is_node_error (schema_errors (snd s)))
    + List.length doctypes.
Proof.
  revert s. induction doctypes as [|x r IH]; intros [b res]; cbv zeta.
  - cbn. lia.
  - unfold add_doctype_nodes. cbn [for_each]. fold (add_doctype_nodes w r).
    unfold bind at 1, try_except, bind, on_builder, on_results.
    cbn [fst snd].
    destruct (add_doctype_node w (doctype_name x) None b) as [[[]|e] b'];
      cbn [fst snd];
      match goal with
      | |- context [add_doctype_nodes w r ?s] =>
          pose proof (IH s) as H; cbv zeta in H; rewrite H
      end;
      cbn [fst snd schema_count_doctype schema_append_error doctypes_processed
           schema_errors length].
    + lia.
    + rewrite filter_app, length_app. cbn. lia.
Qed.

Lemma schema_build_books (w : World) (b : Builder) :
  exists res b',
    build_doctype_schema_graph w b = (Ret res, b') /\
    number_of_edges (graph b') =
      number_of_edges (graph b) + schema_relationships_found res /\
    number_of_nodes (graph b')
    <= number_of_nodes (graph b) + doctypes_processed res /\
    schema_error res =
      (if test_connection (erpnext w)
       then match get_doctypes (erpnext w) with
            | [] => Some NoDocTypesFound
            | _ => None
            end
       else Some CouldNotConnect) /\
    (schema_error res = None ->
     doctypes_processed res
     + List.length (filter is_node_error (schema_errors res))
     = List.length (get_doctypes (erpnext w))) /\
    output_dir b' = output_dir b /\ written b' = written b.
Proof.
  destruct (test_connection (erpnext w)) eqn:Hc;
    [destruct (get_doctypes (erpnext w)) as [|d0 ds] eqn:Hd|].
  - rewrite (build_doctype_schema_graph_no_doctypes w b Hc Hd).
    eexists _, b. split; [reflexivity|]. cbn.
    repeat split; auto; try lia; discriminate.
  - assert (Hne : get_doctypes (erpnext w) <> []) by (rewrite Hd; discriminate).
    pose proof (build_doctype_schema_graph_passes w b Hc Hne) as R.
    cbv zeta in R. rewrite R. clear R.
    assert (Hl : List.length (d0 :: ds)
                 = List.length (get_doctypes (erpnext w))) by now rewrite Hd.
    rewrite Hl. clear Hl Hd d0 ds.
    set (doctypes := get_doctypes (erpnext w)).
    pose proof (add_doctype_nodes_balance w b doctypes (b, new_schema_results))
      as B1.
    pose proof (add_doctype_nodes_count w doctypes (b, new_schema_results)) as C1.
    destruct (schema_edges_join_existing_nodes w b doctypes) as [K _].
    cbv zeta in C1, K.
    set (s1 := snd (add_doctype_nodes w doctypes (b, new_schema_results))) in *.
    destruct B1 as (N1 & E1 & Hr1 & Her1 & Hdir1 & Hfs1 & _).
    { unfold nodes_balance. cbn. repeat split; auto. lia. }
    pose proof (add_doctype_relationships_balance w
                  (number_of_edges (graph (fst s1))) (fst s1) (snd s1)
                  doctypes s1) as B2.
    set (s2 := snd (add_doctype_relationships w doctypes s1)) in *.
    destruct B2 as (E2 & Hp2 & He2 & Her2 & Hdir2 & Hfs2).
    { unfold edges_balance. rewrite Hr1. repeat split; auto. }
    exists (snd s2), (fst s2). split; [reflexivity|].
    split.
    { rewrite E2. unfold number_of_edges. rewrite E1. reflexivity. }
    split.
    { rewrite (number_of_nodes_keys _ _ K), Hp2. exact N1. }
    split; [congruence|].
    split.
    { intros _. rewrite Hp2, He2, C1. cbn. reflexivity. }
    split; congruence.
  - rewrite (build_doctype_schema_graph_not_connected w b Hc).
    eexists _, b. split; [reflexivity|]. cbn.
    repeat split; auto; try lia; discriminate.
Qed.



(** ** Statistics *)

Lemma total_set (h : list (value * nat)) (t : value) :
  total (dict_set key_eqb h t (lookup h t + 1)) = total h + 1.
Proof.
  unfold lookup.
  induction h as [|[k n] r IH]; cbn [dict_set dict_get total fold_right snd].
  - lia.
  - destruct (key_eqb k t); cbn [total fold_right snd].
    + lia.
    + fold (total r). fold (total (dict_set key_eqb r t
        (match dict_get key_eqb r t with Some n0 => n0 | None => 0 end + 1))).
      rewrite IH. lia.
Qed.

Lemma count_tags_total (tags : list value) (h0 h : list (value * nat)) :
  count_tags tags h0 = Ret h -> total h = total h0 + List.length tags.
Proof.
  revert h0. induction tags as [|t r IH]; intros h0; cbn [count_tags].
  - intros [= <-]. cbn. lia.
  - destruct (negb (hashable t)); [discriminate|].
    intros H. apply IH in H. fold (lookup h0 t) in H.
    rewrite total_set in H. cbn [length]. lia.
Qed.

Lemma count_tags_returns (tags : list value) (h0 : list (value * nat)) :
  forallb hashable tags = true -> exists h, count_tags tags h0 = Ret h.
Proof.
  intros H. destruct (count_tags_spec tags h0 H) as (h & R & _). eauto.
Qed.

Lemma count_tags_raises (tags : list value) (h0 : list (value * nat)) :
  forallb hashable tags = false ->
  count_tags tags h0 = Raise (TypeError "unhashable type").
Proof.
  revert h0. induction tags as [|t r IH]; intros h0; cbn [forallb count_tags];
    [discriminate|].
  destruct (hashable t); cbn [negb andb]; [apply IH|reflexivity].
Qed.

(** X14: when the statistics are computed, the counts of the node-type
    histogram add up to the number of nodes and those of the
    relationship-type histogram to the number of edges, parallel edges
    included: every node and every edge is counted under exactly one key. *)
Theorem get_graph_statistics_totals (g : MultiDiGraph) (st : Statistics) :
  get_graph_statistics g = Ret st ->
  stat_nodes st = number_of_nodes g /\
  stat_edges st = number_of_edges g /\
  total (node_types st) = stat_nodes st /\
  total (relationship_types st) = stat_edges st.
Proof.
  unfold get_graph_statistics, node_types_histogram,
    relationship_types_histogram.
  destruct (count_tags (node_type_tags g) []) as [nt|e] eqn:Hn; [|discriminate].
  destruct (count_tags (relationship_type_tags g) []) as [rt|e] eqn:Hr;
    [|discriminate].
  intros [= <-]. cbn [stat_nodes stat_edges node_types relationship_types].
  apply count_tags_total in Hn, Hr.
  unfold node_type_tags in Hn. unfold relationship_type_tags in Hr.
  rewrite length_map in Hn, Hr. cbn in Hn, Hr.
  repeat split; assumption.
Qed.

Lemma get_graph_statistics_totals_witness :
  exists st,
    get_graph_statistics parallel_graph = Ret st /\
    total (node_types st) = 2 /\ total (relationship_types st) = 2.
Proof.
  eexists. split; [reflexivity|].
  destruct (get_graph_statistics_totals parallel_graph _ eq_refl)
    as (Hn & He & Tn & Te).
  split; [exact Tn | exact Te].
Defined.

(** X15: the statistics are computed exactly when every [node_type] and
    every [relationship_type] attribute in the graph is hashable; a single
    node or edge that carries a list or a dictionary there makes the whole
    call raise [TypeError]. *)
Theorem get_graph_statistics_needs_hashable_tags (g : MultiDiGraph) :
  if tags_hashable g
  then exists st, get_graph_statistics g = Ret st
  else exists msg, get_graph_statistics g = Raise (TypeError msg).
Proof.
  unfold tags_hashable, get_graph_statistics, node_types_histogram,
    relationship_types_histogram.
  destruct (forallb hashable (node_type_tags g)) eqn:Hn; cbn [andb].
  - destruct (count_tags_returns _ [] Hn) as (nt & ->).
    destruct (forallb hashable (relationship_type_tags g)) eqn:Hr.
    + destruct (count_tags_returns _ [] Hr) as (rt & ->). eauto.
    + rewrite (count_tags_raises _ [] Hr). eauto.
  - rewrite (count_tags_raises _ [] Hn). eauto.
Qed.

(** A caller's metadata can make the statistics fail. *)
Example odd_tag_breaks_statistics :
  exists msg, get_graph_statistics odd_tag_graph = Raise (TypeError msg).
Proof. eexists. reflexivity. Qed.

(** ** The ranking *)

Lemma insert_desc_In_iff (x y : value * Q) (l : list (value * Q)) :
  In y (insert_desc x l) <-> y = x \/ In y l.
Proof.
  split; [apply insert_desc_In|].
  induction l as [|z r IH]; cbn [insert_desc].
  - intros [->|[]]. left. reflexivity.
  - destruct (Qle_bool (snd z) (snd x)).
    + intros [->|H]; [left|right]; auto.
    + intros [->|[->|H]].
      * right. apply IH. left. reflexivity.
      * left. reflexivity.
      * right. apply IH. right. exact H.
Qed.

Lemma sorted_desc_In_iff (y : value * Q) (l : list (value * Q)) :
  In y (sorted_desc l) <-> In y l.
Proof.
  unfold sorted_desc. induction l as [|x r IH]; cbn [fold_right]; [tauto|].
  rewrite insert_desc_In_iff, IH. cbn [In]. intuition congruence.
Qed.

Lemma insert_desc_length (x : value * Q) (l : list (value * Q)) :
  List.length (insert_desc x l) = S (List.length l).
Proof.
  induction l as [|z r IH]; cbn [insert_desc]; [reflexivity|].
  destruct (Qle_bool (snd z) (snd x)); cbn [length]; [reflexivity|].
  now rewrite IH.
Qed.

Lemma sorted_desc_length (l : list (value * Q)) :
  List.length (sorted_desc l) = List.length l.
Proof.
  unfold sorted_desc. induction l as [|x r IH]; cbn [fold_right]; [reflexivity|].
  rewrite insert_desc_length, IH. reflexivity.
Qed.

Lemma insert_desc_descending (x : value * Q) (l : list (value * Q)) :
  descending l -> descending (insert_desc x l).
Proof.
  induction l as [|z r IH]; cbn [insert_desc descending].
  - intros _. split; [intros y []|exact I].
  - intros [Hz Hr].
    destruct (Qle_bool (snd z) (snd x)) eqn:E; cbn [descending].
    + apply Qle_bool_iff in E. split; [|split; assumption].
      intros y [<-|Hy]; [exact E|].
      eapply Qle_trans; [apply Hz, Hy|exact E].
    + split; [|apply IH, Hr].
      intros y Hy. apply insert_desc_In in Hy. destruct Hy as [->|Hy].
      * apply Qlt_le_weak, Qnot_le_lt. intros H.
        apply Qle_bool_iff in H. congruence.
      * apply Hz, Hy.
Qed.

Lemma sorted_desc_descending (l : list (value * Q)) : descending (sorted_desc l).
Proof.
  unfold sorted_desc. induction l as [|x r IH]; cbn [fold_right].
  - exact I.
  - apply insert_desc_descending, IH.
Qed.

Lemma descending_split (k : nat) (l : list (value * Q)) :
  descending l ->
  descending (firstn k l) /\
  forall x y, In x (firstn k l) -> In y (skipn k l) -> (snd y <= snd x)%Q.
Proof.
  revert l. induction k as [|k IH]; intros [|z r]; cbn [firstn skipn descending];
    try (intros _; split; [exact I|intros x y []]).
  intros [Hz Hr]. destruct (IH r Hr) as [Hd Hs]. split.
  - split; [|exact Hd]. intros y Hy. apply Hz. eapply firstn_incl; eauto.
  - intros x y [<-|Hx] Hy.
    + apply Hz. revert Hy. clear. revert r.
      induction k as [|k IHk]; intros [|a r]; cbn [skipn In]; auto.
    + apply Hs; assumption.
Qed.

Lemma degree_centrality_length (g : MultiDiGraph) :
  List.length (degree_centrality g) = number_of_nodes g.
Proof.
  unfold degree_centrality, number_of_nodes.
  destruct (List.length g <=? 1); now rewrite length_map.
Qed.

(** X16: [most_connected_nodes] is a top ten.  It has ten entries, or one
    per node when the graph has fewer; its scores are in descending order;
    its entries are entries of the degree centrality, and every entry of
    the centrality left out of it scores no higher than any entry in it. *)
Theorem most_connected_nodes_top_ten (g : MultiDiGraph) (st : Statistics) :
  get_graph_statistics g = Ret st ->
  List.length (most_connected_nodes st) = Nat.min 10 (number_of_nodes g) /\
  descending (most_connected_nodes st) /\
  exists rest,
    (forall x, In x (degree_centrality g)
               <-> In x (most_connected_nodes st) \/ In x rest) /\
    List.length (most_connected_nodes st) + List.length rest
    = number_of_nodes g /\
    forall x y, In x (most_connected_nodes st) -> In y rest ->
                (snd y <= snd x)%Q.
Proof.
  unfold get_graph_statistics.
  destruct (node_types_histogram g); [|discriminate].
  destruct (relationship_types_histogram g); [|discriminate].
  intros H.
  assert (Hm : most_connected_nodes st
               = firstn 10 (sorted_desc (degree_centrality g)))
    by (injection H as <-; reflexivity).
  rewrite Hm. clear H Hm.
  destruct (descending_split 10 _ (sorted_desc_descending (degree_centrality g)))
    as [Hd Hs].
  split; [|split; [exact Hd|]].
  - rewrite length_firstn, sorted_desc_length, degree_centrality_length.
    reflexivity.
  - exists (skipn 10 (sorted_desc (degree_centrality g))).
    split; [|split; [|exact Hs]].
    + intros x. rewrite <- in_app_iff, firstn_skipn. symmetry.
      apply sorted_desc_In_iff.
    + rewrite <- length_app, firstn_skipn, sorted_desc_length.
      apply degree_centrality_length.
Qed.

Lemma most_connected_nodes_top_ten_witness :
  exists st,
    get_graph_statistics parallel_graph = Ret st /\
    List.length (most_connected_nodes st) = 2 /\
    descending (most_connected_nodes st).
Proof.
  eexists. split; [reflexivity|].
  destruct (most_connected_nodes_top_ten parallel_graph _ eq_refl)
    as (Hl & Hd & _).
  split; [exact Hl | exact Hd].
Defined.

(** ** Graphs whose statistics can be computed *)

















(** A property of the graph that the three elementary methods keep when
    called without metadata, as the builds call them, is kept by the
    builds. *)
Section BuildCalls.
Variable P : MultiDiGraph -> Prop.
Hypothesis type_node_kept :
  forall w T, preserves graph P (add_doctype_node w T None).
Hypothesis instance_node_kept :
  forall w doctype doc_name doc_data,
    preserves graph P (add_document_node w doctype doc_name doc_data).
Hypothesis plain_edge_kept :
  forall w u v kind, preserves graph P (add_relationship_edge w u v kind None).




End BuildCalls.

(** ** The complete build *)

Lemma collect_document_builds (w : World) (l : list string) (b : Builder) :
  exists dgs b',
    collect l (fun doctype =>
                 (r <- build_document_relationship_graph w doctype 10 ;;
                  ret (doctype, r))%py) b = (Ret dgs, b') /\
    map fst dgs = l /\
    b' = run (map (fun doctype => (w, BuildDocumentRelationshipGraph doctype 10))
                l) b /\
    output_dir b' = output_dir b /\ written b' = written b.
Proof.
  revert b. induction l as [|d r IH]; intros b.
  - exists [], b. repeat split; reflexivity.
  - destruct (document_build_books w b d 10)
      as (res & b1 & R & _ & _ & _ & _ & _ & _ & Hd & Hw).
    destruct (IH b1) as (dgs & b' & Rc & Hf & Hrun & Hd' & Hw').
    exists ((d, res) :: dgs), b'.
    cbn [collect]. unfold bind at 1. unfold bind at 1. rewrite R.
    unfold ret at 1. cbv beta iota. unfold bind at 1. rewrite Rc.
    split; [reflexivity|]. split; [cbn; congruence|].
    split; [|split; congruence].
    rewrite Hrun. unfold run. cbn [map fold_left fst snd run_op].
    rewrite R. reflexivity.
Qed.

Lemma export_graph_files (w : World) (format : string) (b : Builder) :
  graph (snd (export_graph w format b)) = graph b /\
  output_dir (snd (export_graph w format b)) = output_dir b.
Proof.
  unfold export_graph, bind, datetime_now, get_state, try_except, on_files,
    raise, ret.
  cbn [graph written output_dir clock with_written].
  destruct (String.eqb format "graphml").
  { destruct (write_graphml w _ _ _) as [[[]|e] fs]; auto. }
  destruct (String.eqb format "json").
  { destruct (dump_node_link_json w _ _ _) as [[[]|e] fs]; auto. }
  destruct (String.eqb format "gexf").
  { destruct (write_gexf w _ _ _) as [[[]|e] fs]; auto. }
  auto.
Qed.

(** The export step never raises and leaves the graph alone; it returns one
    path per format up to the first export that fails. *)
Lemma export_all_returns (w : World) (formats : list string) (acc : list Path)
  (b : Builder) :
  exists paths b',
    export_all w formats acc b = (Ret paths, b') /\
    graph b' = graph b /\ output_dir b' = output_dir b /\
    List.length paths <= List.length acc + List.length formats /\
    (forall fmt r e, formats = fmt :: r ->
       fst (export_graph w fmt b) = Raise e ->
       paths = acc /\ b' = snd (export_graph w fmt b)).
Proof.
  revert acc b. induction formats as [|fmt r IH]; intros acc b.
  - exists acc, b. cbn. repeat split; auto; try lia; discriminate.
  - cbn [export_all]. unfold bind at 1, try_except, bind.
    pose proof (export_graph_files w fmt b) as [Hg Hd].
    destruct (export_graph w fmt b) as [[p|e] b1] eqn:X; cbn [fst snd] in *.
    + unfold ret at 1.
      destruct (IH (acc ++ [p]) b1) as (paths & b' & R & Hg' & Hd' & Hl & _).
      exists paths, b'. split; [exact R|].
      split; [congruence|]. split; [congruence|].
      split.
      * rewrite length_app in Hl. cbn [length] in *. lia.
      * intros fmt' r' e [= <- <-]. rewrite X. discriminate.
    + exists acc, b1. unfold ret. repeat split; auto.
      * cbn [length]. lia.
      * injection H as <- <-. rewrite X. reflexivity.
Qed.

(** The complete build, phase by phase. *)
Lemma build_complete_knowledge_graph_phases (w : World) (b : Builder) :
  exists sg dgs paths b1 b3,
    build_doctype_schema_graph w b = (Ret sg, b1) /\
    map fst dgs = key_doctypes /\
    List.length paths <= 2 /\
    graph b3 = graph (document_builds w b1) /\
    output_dir b3 = output_dir b /\
    written (document_builds w b1) = written b /\
    (forall e,
        fst (export_graph w "json" (document_builds w b1)) = Raise e ->
        paths = [] /\
        b3 = snd (export_graph w "json" (document_builds w b1))) /\
    build_complete_knowledge_graph w b =
    (match get_graph_statistics (graph b3) with
     | Ret st => Ret {| schema_graph := sg; document_graphs := dgs;
                        export_paths := paths; statistics := st |}
     | Raise e => Raise e
     end, b3).
Proof.
  destruct (schema_build_books w b)
    as (sg & b1 & R1 & _ & _ & _ & _ & Hd1 & Hw1).
  destruct (collect_document_builds w key_doctypes b1)
    as (dgs & b2 & R2 & Hf & Hrun & Hd2 & Hw2).
  destruct (export_all_returns w ["json"; "graphml"] [] b2)
    as (paths & b3 & R3 & Hg & Hd3 & Hl & Hfail).
  exists sg, dgs, paths, b1, b3.
  split; [exact R1|]. split; [exact Hf|]. split; [exact Hl|].
  split; [unfold document_builds; congruence|].
  split; [congruence|].
  split; [unfold document_builds; congruence|].
  split.
  { unfold document_builds. rewrite <- Hrun. intros e He.
    exact (Hfail "json" ["graphml"] e eq_refl He). }
  unfold build_complete_knowledge_graph.
  unfold bind at 1. rewrite R1.
  unfold bind at 1. rewrite R2.
  unfold bind at 1. rewrite R3.
  unfold bind, get_state, lift_outcome, ret.
  destruct (get_graph_statistics (graph b3)); reflexivity.
Qed.





(** X18: a failed connection test stops the type-level build only.  The
    complete build goes on to sample the five key types and leaves the
    graph that the five instance-level builds alone would leave; its
    [schema_graph] entry reports the connection failure. *)
Theorem build_complete_without_connection (w : World) (b : Builder) :
  test_connection (erpnext w) = false ->
  graph (snd (build_complete_knowledge_graph w b))
  = graph (document_builds w b) /\
  forall res b',
    build_complete_knowledge_graph w b = (Ret res, b') ->
    schema_error (schema_graph res) = Some CouldNotConnect /\
    doctypes_processed (schema_graph res) = 0 /\
    map fst (document_graphs res) = key_doctypes.
Proof.
  intros Hc.
  destruct (build_complete_knowledge_graph_phases w b)
    as (sg & dgs & paths & b1 & b3 & R1 & Hf & _ & Hg & _ & _ & _ & R).
  rewrite (build_doctype_schema_graph_not_connected w b Hc) in R1.
  injection R1 as <- <-.
  rewrite R. cbn [snd]. split; [exact Hg|].
  intros res b'.
  destruct (get_graph_statistics (graph b3)); [|discriminate].
  intros [= <- _]. cbn. auto.
Qed.

Lemma build_complete_without_connection_witness :
  number_of_nodes
    (graph (snd (build_complete_knowledge_graph (world_of untested_connector)
                   (init_builder "out")))) = 15.
Proof.
  rewrite (proj1 (build_complete_without_connection
                    (world_of untested_connector) (init_builder "out")
                    eq_refl)).
  reflexivity.
Defined.




(** ** The connector *)

Lemma fetch_data_answer (o : Connector.Outside) (url : string)
  (default : value) (c : Connector.State) :
  try_except (Connector.fetch_data o url default) (fun _ => ret default) c =
  (Ret (api_answer o (Connector.calls c) url default), Connector.called c).
Proof.
  unfold try_except, Connector.fetch_data, bind, Connector.outside, api_answer,
    lift_outcome, ret.
  destruct (Connector.session_get o (Connector.calls c) url) as [r|e];
    [|reflexivity].
  destruct (Connector.status_code r =? 200)%Z; [|reflexivity].
  destruct (Connector.json r) as [[]|e]; reflexivity.
Qed.

Lemma bench_console_answer (o : Connector.Outside)
  (bench_path site_name cmd : string) (default : value) (c : Connector.State) :
  try_except (Connector.bench_console o bench_path site_name cmd default)
    (fun _ => ret default) c
  = (Ret default, Connector.called c).
Proof.
  unfold try_except, Connector.bench_console, bind, Connector.outside, ret.
  destruct (Connector.subprocess_run o _ _ _ _); reflexivity.
Qed.

(** X20: the three readers of the connector never raise.  Without a bench
    [get_doctype_schema] and [get_sample_documents] make exactly one
    request and return the [data] entry of the body when the request comes
    back with status 200 and a JSON object, and the empty answer in every
    other case (an exception, another status, a body that is not JSON or not
    an object); [get_doctypes] does the same when the connector is
    connected. *)
Theorem connector_readers_api (o : Connector.Outside) (c : Connector.State)
  (doctype : value) (limit : Z) :
  Connector.bench c = None ->
  Connector.get_doctype_schema o doctype c =
    (Ret (api_answer o (Connector.calls c) (schema_url o c doctype) (VDict [])),
     Connector.called c) /\
  Connector.get_sample_documents o doctype limit c =
    (Ret (api_answer o (Connector.calls c) (documents_url o c doctype limit)
            (VList [])),
     Connector.called c) /\
  (Connector.connected c = true ->
   Connector.get_doctypes o c =
     (Ret (api_answer o (Connector.calls c) (doctypes_url c) (VList [])),
      Connector.called c)).
Proof.
  intros Hb.
  unfold Connector.get_doctype_schema, Connector.get_sample_documents,
    Connector.get_doctypes, bind, get_state.
  rewrite Hb. repeat split; try (intros ->; cbn [negb]);
    apply fetch_data_answer.
Qed.

Lemma connector_readers_api_witness :
  let o := answering (VDict [("data", VList [VDict [("name", VStr "Customer")]])]) in
  fst (Connector.get_sample_documents o (VStr "Customer") 10
         (Connector.init "http://localhost:8000/"))
  = Ret (VList [VDict [("name", VStr "Customer")]]).
Proof.
  intros o.
  rewrite (proj1 (proj2 (connector_readers_api o
                           (Connector.init "http://localhost:8000/")
                           (VStr "Customer") 10 eq_refl))).
  reflexivity.
Defined.

(** X21: [get_doctypes] asks nothing of a connector that is not connected:
    it returns the empty list without a single call to the outside.  The
    other two readers do not look at the flag: connected or not, they make
    their one call and give the same answer. *)
Theorem connector_not_connected (o : Connector.Outside) (c : Connector.State)
  (doctype : value) (limit : Z) :
  Connector.connected c = false ->
  Connector.get_doctypes o c = (Ret (VList []), c) /\
  Connector.get_doctype_schema o doctype c
  = (fst (Connector.get_doctype_schema o doctype (Connector.set_connected c)),
     Connector.called c) /\
  Connector.get_sample_documents o doctype limit c
  = (fst (Connector.get_sample_documents o doctype limit
            (Connector.set_connected c)),
     Connector.called c).
Proof.
  intros Hc.
  unfold Connector.get_doctypes, Connector.get_doctype_schema,
    Connector.get_sample_documents, bind, get_state.
  rewrite Hc. cbn [negb Connector.bench Connector.set_connected
                   Connector.base_url].
  split; [reflexivity|].
  destruct (Connector.bench c) as [[p s]|];
    rewrite ?bench_console_answer, ?fetch_data_answer; split; reflexivity.
Qed.

Lemma connector_not_connected_witness :
  Connector.get_doctypes
    (answering (VDict [("data", VList [VStr "Customer"])]))
    (Connector.init "http://localhost:8000")
  = (Ret (VList []), Connector.init "http://localhost:8000").
Proof.
  exact (proj1 (connector_not_connected _ (Connector.init "http://localhost:8000")
                  VNone 0 eq_refl)).
Defined.

Lemma readers_through_bench (o : Connector.Outside) (c : Connector.State)
  (doctype : value) (limit : Z) :
  Connector.bench c <> None ->
  Connector.get_doctype_schema o doctype c = (Ret (VDict []), Connector.called c) /\
  Connector.get_sample_documents o doctype limit c
  = (Ret (VList []), Connector.called c) /\
  fst (Connector.get_doctypes o c) = Ret (VList []).
Proof.
  intros Hb.
  unfold Connector.get_doctypes, Connector.get_doctype_schema,
    Connector.get_sample_documents, bind, get_state.
  destruct (Connector.bench c) as [[p s]|]; [|congruence].
  rewrite !bench_console_answer.
  split; [reflexivity|]. split; [reflexivity|].
  destruct (negb (Connector.connected c)); [reflexivity|].
  rewrite bench_console_answer. reflexivity.
Qed.



Lemma called_after_calls (k : nat) (c : Connector.State) :
  Connector.called (after_calls k c) = after_calls (S k) c.
Proof. reflexivity. Qed.

Lemma after_calls_0 (c : Connector.State) : after_calls 0 c = c.
Proof. destruct c; reflexivity. Qed.

Lemma probe_answer_spec (o : Connector.Outside) (port : Z) (c : Connector.State) :
  Connector.probe o port c
  = (Ret (probe_answer o (Connector.calls c) port), Connector.called c).
Proof.
  unfold Connector.probe, try_except, bind, Connector.outside, probe_answer,
    lift_outcome, ret. cbv zeta.
  destruct (Connector.requests_get o (Connector.calls c) _) as [r|e];
    [|reflexivity].
  destruct (Connector.status_code r =? 200)%Z; [|reflexivity].
  destruct (Connector.json r) as [body|e]; reflexivity.
Qed.

(** The discovery probes the four ports in order, one request each, looks at
    the process list once, and never raises. *)
Lemma discover_erpnext_instances_spec (o : Connector.Outside)
  (c : Connector.State) :
  let n := Connector.calls c in
  Connector.discover_erpnext_instances o c =
  (Ret (Connector.found [ probe_answer o n 8000; probe_answer o (1 + n) 8001;
                          probe_answer o (2 + n) 8080;
                          probe_answer o (3 + n) 9000 ]),
   after_calls 5 c).
Proof.
  cbv zeta. unfold Connector.discover_erpnext_instances, Connector.ports.
  cbn [collect]. unfold bind at 1. unfold bind at 1.
  rewrite probe_answer_spec.
  unfold bind at 1. unfold bind at 1. rewrite probe_answer_spec.
  unfold bind at 1. unfold bind at 1. rewrite probe_answer_spec.
  unfold bind at 1. unfold bind at 1. rewrite probe_answer_spec.
  unfold bind, ret, try_except, Connector.outside.
  cbn [Connector.calls Connector.called].
  destruct (Connector.subprocess_run o _ _ _ _); reflexivity.
Qed.

Lemma bench_search_called (paths : list string) (c c' : Connector.State)
  (ok : bool) :
  bench_search paths (Connector.called c) ok c' -> bench_search paths c ok c'.
Proof.
  unfold bench_search. cbn [Connector.called Connector.base_url
    Connector.connected Connector.bench Connector.calls].
  intros (U & F & N & B). repeat split; auto. lia.
Qed.

Lemma bench_search_same (paths : list string) (c : Connector.State) :
  bench_search paths c false c.
Proof. unfold bench_search. auto. Qed.

Lemma first_site_spec (o : Connector.Outside) (bench_path : string)
  (configs : list string) (c : Connector.State) :
  exists ok c',
    Connector.first_site o bench_path configs c = (Ret ok, c') /\
    bench_search [bench_path] c ok c'.
Proof.
  revert c. induction configs as [|p r IH]; intros c; cbn [Connector.first_site].
  - exists false, c. split; [reflexivity|apply bench_search_same].
  - destruct (String.eqb p ""); [apply IH|].
    unfold bind at 1, Connector.outside_pure.
    destruct (Connector.path_exists o (Connector.calls c) p).
    + eexists true, _. unfold bind, modify, ret. split; [reflexivity|].
      unfold bench_search. cbn. repeat split; auto. eexists _, _. eauto.
    + destruct (IH (Connector.called c)) as (ok & c' & R & B).
      exists ok, c'. split; [exact R|]. apply bench_search_called, B.
Qed.

Lemma _setup_bench_connection_spec (o : Connector.Outside) (bench_path : string)
  (c : Connector.State) :
  exists ok c',
    Connector._setup_bench_connection o bench_path c = (Ret ok, c') /\
    bench_search [bench_path] c ok c'.
Proof.
  unfold Connector._setup_bench_connection, try_except, bind, Connector.outside.
  destruct (Connector.subprocess_run o _ _ _ _) as [result|e].
  - destruct (first_site_spec o bench_path
                (Connector.split_lines (Connector.strip (Connector.stdout result)))
                (Connector.called c)) as (ok & c' & -> & B).
    exists ok, c'. split; [reflexivity|]. apply bench_search_called, B.
  - exists false, (Connector.called c). split; [reflexivity|].
    apply bench_search_called, bench_search_same.
Qed.

Lemma bench_search_incl (paths paths' : list string) (c c' : Connector.State)
  (ok : bool) :
  incl paths paths' -> bench_search paths c ok c' -> bench_search paths' c ok c'.
Proof.
  unfold bench_search. intros Hi (U & F & N & B). repeat split; auto.
  destruct ok; [|exact B]. destruct B as (p & site & Hin & Hb).
  exists p, site. auto.
Qed.

Lemma try_benches_spec (o : Connector.Outside) (paths : list string)
  (c : Connector.State) :
  exists ok c',
    Connector.try_benches o paths c = (Ret ok, c') /\
    bench_search paths c ok c'.
Proof.
  revert c. induction paths as [|p r IH]; intros c; cbn [Connector.try_benches].
  - exists false, c. split; [reflexivity|apply bench_search_same].
  - unfold bind at 1, Connector.outside_pure.
    assert (Hrest : forall c1,
      Connector.calls c <= Connector.calls c1 ->
      Connector.base_url c1 = Connector.base_url c ->
      Connector.connected c1 = Connector.connected c ->
      Connector.bench c1 = Connector.bench c ->
      exists ok c', Connector.try_benches o r c1 = (Ret ok, c') /\
                    bench_search (p :: r) c ok c').
    { intros c1 N U F B. destruct (IH c1) as (ok & c' & R & S).
      exists ok, c'. split; [exact R|].
      apply (bench_search_incl r); [intros x Hx; right; exact Hx|].
      unfold bench_search in *. destruct S as (U' & F' & N' & B').
      repeat split; try congruence; try lia.
      destruct ok; [exact B'|congruence]. }
    destruct (Connector.path_exists o (Connector.calls c) p).
    + unfold bind at 1, try_except, bind at 1, Connector.outside.
      cbn [Connector.calls Connector.called].
      destruct (Connector.subprocess_run o _ _ _ _) as [result|e].
      * destruct (Connector.returncode result =? 0)%Z.
        -- destruct (_setup_bench_connection_spec o p
                       (Connector.called (Connector.called c)))
             as (ok & c' & R & S).
           unfold bind at 1. rewrite R. unfold ret.
           exists ok, c'. split; [reflexivity|].
           apply (bench_search_incl [p]); [intros x [<-|[]]; left; reflexivity|].
           apply bench_search_called, bench_search_called, S.
        -- unfold ret at 1. apply Hrest; cbn; auto.
      * unfold ret at 1. apply Hrest; cbn; auto.
    + apply Hrest; cbn; auto.
Qed.

Lemma try_api_spec (o : Connector.Outside)
  (instances : list Connector.Instance) (c : Connector.State) :
  exists ok details c',
    Connector.try_api o instances c = (Ret (ok, details), c') /\
    Connector.base_url c'
    = match instances with
      | [] => Connector.base_url c
      | i :: _ => Connector.instance_url i
      end /\
    Connector.connected c' = ok || Connector.connected c /\
    Connector.bench c' = Connector.bench c /\
    Connector.calls c <= Connector.calls c' /\
    (ok = true ->
     exists i r, instances = i :: r /\ details = Connector.instance_dict i).
Proof.
  destruct instances as [|i r]; cbn [Connector.try_api].
  - exists false, [], c. unfold ret. repeat split; auto. discriminate.
  - unfold bind, modify, get_state, try_except, Connector.outside.
    cbn [Connector.set_base_url Connector.base_url Connector.calls
         Connector.called Connector.connected Connector.bench].
    destruct (Connector.session_get o _ _) as [resp|e].
    + destruct (Connector.status_code resp =? 200)%Z; unfold ret;
        eexists _, _, _; (split; [reflexivity|]); cbn;
        repeat split; auto; try discriminate.
      intros _. eauto.
    + unfold ret. eexists _, _, _. split; [reflexivity|]. cbn.
      repeat split; auto. discriminate.
Qed.

(** What a connection test does to the connector and how its answer relates
    to it. *)
Lemma test_connection_spec (o : Connector.Outside) (c : Connector.State) :
  exists st c',
    Connector.test_connection o c = (Ret st, c') /\
    Connector.connected c'
    = Connector.status_connected st || Connector.connected c /\
    (Connector.bench c <> None -> Connector.bench c' <> None) /\
    Connector.base_url c'
    = match Connector.instances_found st with
      | [] => Connector.base_url c
      | i :: _ => Connector.instance_url i
      end /\
    Connector.instances_found st
    = Connector.found
        [ probe_answer o (Connector.calls c) 8000;
          probe_answer o (1 + Connector.calls c) 8001;
          probe_answer o (2 + Connector.calls c) 8080;
          probe_answer o (3 + Connector.calls c) 9000 ] /\
    match Connector.status_method st with
    | Some m =>
        Connector.status_connected st = true /\
        ((m = "api" /\
          exists i r, Connector.instances_found st = i :: r /\
                      Connector.status_details st = Connector.instance_dict i)
         \/ (m = "bench" /\
             Connector.status_details st = Connector.bench_details c' /\
             exists p site, In p Connector.bench_paths /\
                            Connector.bench c' = Some (p, site)))
    | None => Connector.status_connected st = false
    end.
Proof.
  unfold Connector.test_connection.
  pose proof (discover_erpnext_instances_spec o c) as D. cbv zeta in D.
  unfold bind at 1. rewrite D.
  set (instances := Connector.found _) in *.
  destruct (try_api_spec o instances (after_calls 5 c))
    as (ok & details & c1 & R1 & U1 & F1 & B1 & N1 & A1).
  unfold bind at 1. rewrite R1. cbn [fst snd].
  cbn [after_calls Connector.base_url Connector.connected Connector.bench
       Connector.calls] in U1, F1, B1, N1.
  destruct ok.
  - unfold ret. eexists _, c1. split; [reflexivity|].
    cbn [Connector.status_connected Connector.status_method
         Connector.status_details Connector.instances_found].
    split; [exact F1|]. split; [congruence|]. split; [exact U1|].
    split; [reflexivity|]. split; [reflexivity|].
    left. split; [reflexivity|]. apply A1. reflexivity.
  - cbn [orb] in F1.
    destruct (try_benches_spec o Connector.bench_paths c1)
      as (okb & c2 & R2 & (U2 & F2 & N2 & B2)).
    unfold Connector.connect_to_existing_bench. unfold bind at 1. rewrite R2.
    destruct okb.
    + unfold bind, get_state, modify, ret. eexists _, _. split; [reflexivity|].
      cbn [Connector.status_connected Connector.status_method
           Connector.status_details Connector.instances_found
           Connector.set_connected Connector.connected Connector.bench
           Connector.base_url orb].
      destruct B2 as (pth & site & Hin & Hb).
      split; [reflexivity|]. split; [intros _; congruence|].
      split; [congruence|]. split; [reflexivity|]. split; [reflexivity|].
      right. split; [reflexivity|]. split; [reflexivity|]. eauto.
    + unfold ret. eexists _, c2. split; [reflexivity|].
      cbn [Connector.status_connected Connector.status_method
           Connector.status_details Connector.instances_found orb].
      split; [congruence|]. split; [congruence|]. split; [congruence|].
      split; reflexivity.
Qed.

(** X23: the connection test never raises, and its answer and the flag
    agree.  It reports a method exactly when it reports success: ['api']
    with the first instance found as details, or ['bench'] with the bench it
    recorded, one of the two known paths.  The flag [connected] is set when
    the test succeeds and is never cleared: a connector that was connected
    stays so after a test that fails. *)
Theorem connector_test_connection (o : Connector.Outside) (c : Connector.State) :
  exists st c',
    Connector.test_connection o c = (Ret st, c') /\
    Connector.connected c'
    = Connector.status_connected st || Connector.connected c /\
    match Connector.status_method st with
    | Some m =>
        Connector.status_connected st = true /\
        ((m = "api" /\
          exists i r, Connector.instances_found st = i :: r /\
                      Connector.status_details st = Connector.instance_dict i)
         \/ (m = "bench" /\
             Connector.status_details st = Connector.bench_details c' /\
             exists p site, In p Connector.bench_paths /\
                            Connector.bench c' = Some (p, site)))
    | None => Connector.status_connected st = false
    end.
Proof.
  destruct (test_connection_spec o c) as (st & c' & R & F & _ & _ & _ & M).
  exists st, c'. auto.
Qed.

(** X24: the instances a test finds are the ports 8000, 8001, 8080 and 9000
    that answered the ping with status 200 and a JSON body, in this order,
    and the test leaves [base_url] at the first of them, also when the ping
    through the session then fails and the test reports no connection; with
    no instance the URL is unchanged. *)
Theorem connector_test_connection_base_url (o : Connector.Outside)
  (c : Connector.State) :
  exists st c',
    Connector.test_connection o c = (Ret st, c') /\
    Connector.instances_found st
    = Connector.found
        [ probe_answer o (Connector.calls c) 8000;
          probe_answer o (1 + Connector.calls c) 8001;
          probe_answer o (2 + Connector.calls c) 8080;
          probe_answer o (3 + Connector.calls c) 9000 ] /\
    Connector.base_url c'
    = match Connector.instances_found st with
      | [] => Connector.base_url c
      | i :: _ => Connector.instance_url i
      end.
Proof.
  destruct (test_connection_spec o c) as (st & c' & R & _ & _ & U & I & _).
  exists st, c'. auto.
Qed.

(** X25: a bench, once recorded, is never forgotten, and it takes
    precedence.  After any later connection test, even one that succeeds
    through the API, [get_doctypes] still goes through the bench console
    and returns the empty list. *)
Theorem connector_bench_is_sticky (o o' : Connector.Outside)
  (c : Connector.State) :
  Connector.bench c <> None ->
  Connector.bench (snd (Connector.test_connection o c)) <> None /\
  fst (Connector.get_doctypes o' (snd (Connector.test_connection o c)))
  = Ret (VList []).
Proof.
  intros Hb.
  destruct (test_connection_spec o c) as (st & c' & R & _ & B & _).
  rewrite R. cbn [snd]. split; [exact (B Hb)|].
  apply (readers_through_bench o' c' VNone 0 (B Hb)).
Qed.

Lemma connector_bench_is_sticky_witness :
  let o := answering (VDict [("data", VList [VStr "Customer"])]) in
  let c := Connector.set_bench "/bench" "site1"
             (Connector.init "http://localhost:8000") in
  Connector.status_method (match fst (Connector.test_connection o c) with
                           | Ret st => st
                           | Raise _ =>
                               {| Connector.status_connected := false;
                                  Connector.status_method := None;
                                  Connector.status_details := [];
                                  Connector.instances_found := [] |}
                           end) = Some "api" /\
  fst (Connector.get_doctypes o (snd (Connector.test_connection o c)))
  = Ret (VList []).
Proof.
  intros o c. split; [reflexivity|].
  refine (proj2 (connector_bench_is_sticky o o c _)). discriminate.
Defined.

(** ** Export paths *)

Lemma export_graph_path (w : World) (format : string) (b b' : Builder)
  (p : Path) :
  export_graph w format b = (Ret p, b') ->
  p = export_path w b format /\ clock b' = S (clock b) /\
  output_dir b' = output_dir b.
Proof.
  unfold export_graph, bind, datetime_now, get_state, try_except, on_files,
    raise, ret.
  cbn [graph written output_dir clock with_written].
  destruct (String.eqb format "graphml").
  { destruct (write_graphml w _ _ _) as [[[]|e] fs]; intros [= <- <-]; auto. }
  destruct (String.eqb format "json").
  { destruct (dump_node_link_json w _ _ _) as [[[]|e] fs]; intros [= <- <-]; auto. }
  destruct (String.eqb format "gexf").
  { destruct (write_gexf w _ _ _) as [[[]|e] fs]; intros [= <- <-]; auto. }
  discriminate.
Qed.

(** X26: the time stamp in the file name has a resolution of one second.
    Two exports in the same format, one right after the other, whose clock
    readings fall in the same second are given the same path. *)
Theorem exports_within_a_second_collide (w : World) (format : string)
  (b b1 b2 : Builder) (p1 p2 : Path) :
  same_second (now w (clock b)) (now w (S (clock b))) ->
  export_graph w format b = (Ret p1, b1) ->
  export_graph w format b1 = (Ret p2, b2) ->
  p2 = p1.
Proof.
  intros (Hy & Hmo & Hd & Hh & Hmi & Hs) R1 R2.
  apply export_graph_path in R1, R2.
  destruct R1 as (-> & C1 & D1). destruct R2 as (-> & _ & _).
  unfold export_path, strftime_stamp. rewrite C1, D1.
  rewrite Hy, Hmo, Hd, Hh, Hmi, Hs. reflexivity.
Qed.

Lemma exports_within_a_second_collide_witness :
  fst (export_graph offline_world "json"
         (snd (export_graph offline_world "json" (init_builder "out"))))
  = fst (export_graph offline_world "json" (init_builder "out")).
Proof.
  destruct (export_graph offline_world "json" (init_builder "out"))
    as [[p1|e1] b1] eqn:R1; [|discriminate].
  destruct (export_graph offline_world "json" b1) as [[p2|e2] b2] eqn:R2.
  - cbn [fst snd]. rewrite R2. cbn [fst]. f_equal.
    apply (exports_within_a_second_collide offline_world "json"
             (init_builder "out") b1 b2 p1 p2); auto.
    repeat split.
  - exfalso. revert R1 R2. vm_compute. intros [= <- <-]. discriminate.
Defined.

(** ** Running the type-level build again *)

Lemma add_edges_to_known_present (w : World) (g1 : MultiDiGraph) (d : value)
  (kind : string) (targets : list value) (s : Builder * SchemaResults) :
  map fst (graph (fst s)) = map fst g1 ->
  has_node g1 d = true ->
  exists s',
    add_edges_to_known w d kind targets s = (Ret tt, s') /\
    map fst (graph (fst s')) = map fst g1 /\
    doctypes_processed (snd s') = doctypes_processed (snd s) /\
    schema_relationships_found (snd s')
    = schema_relationships_found (snd s)
      + List.length (filter (has_node g1) targets).
Proof.
  intros K Hd. revert s K.
  induction targets as [|t r IH]; intros [b res] K.
  - exists (b, res). cbn. repeat split; auto.
  - unfold add_edges_to_known. cbn [for_each].
    fold (add_edges_to_known w d kind r).
    unfold bind at 1, bind at 1, get_state. cbn [fst snd] in *.
    rewrite (has_node_keys _ _ t K). cbn [filter].
    destruct (has_node g1 t) eqn:Ht.
    + assert (Mu : node_mem (graph b) d = true).
      { rewrite <- has_node_mem, (has_node_keys _ _ d K). exact Hd. }
      assert (Mv : node_mem (graph b) t = true).
      { rewrite <- has_node_mem, (has_node_keys _ _ t K). exact Ht. }
      destruct (add_relationship_edge_new w d t kind None b
                  (node_mem_endpoint_ok _ _ Mu) (node_mem_endpoint_ok _ _ Mv)
                  eq_refl)
        as (b' & k & l1 & l2 & u0 & v0 & R & _ & _ & _ & _ & _ & _ & _ & Same & _).
      unfold bind at 1, on_builder. cbn [fst snd]. rewrite R.
      unfold on_results. cbn [fst snd].
      destruct (IH (b', schema_count_relationship res)) as (s' & R' & K' & P' & F').
      { cbn [fst]. rewrite (Same Mu Mv). exact K. }
      exists s'. split; [exact R'|]. split; [exact K'|].
      cbn [fst snd schema_count_relationship doctypes_processed
           schema_relationships_found length] in *.
      split; [exact P'|]. rewrite F'. lia.
    + unfold ret at 1.
      destruct (IH (b, res) K) as (s' & R' & K' & P' & F').
      exists s'. auto.
Qed.

Lemma add_edges_to_known_bad_source (w : World) (g1 : MultiDiGraph) (d : value)
  (kind : string) (targets : list value) (s : Builder * SchemaResults)
  (o : outcome unit) (s' : Builder * SchemaResults) :
  map fst (graph (fst s)) = map fst g1 ->
  endpoint_ok g1 d = false ->
  add_edges_to_known w d kind targets s = (o, s') ->
  map fst (graph (fst s')) = map fst g1 /\
  doctypes_processed (snd s') = doctypes_processed (snd s) /\
  schema_relationships_found (snd s') = schema_relationships_found (snd s).
Proof.
  intros K Hd. revert s K.
  induction targets as [|t r IH]; intros [b res] K E.
  - cbn in E. injection E as <- <-. auto.
  - unfold add_edges_to_known in E. cbn [for_each] in E.
    fold (add_edges_to_known w d kind r) in E.
    unfold bind at 1, bind at 1, get_state in E. cbn [fst snd] in *.
    destruct (has_node (graph b) t).
    + assert (Hb : endpoint_ok (graph b) d = false).
      { rewrite (endpoint_ok_keys _ _ d K). exact Hd. }
      destruct (add_relationship_edge_bad_source_raises w d t kind None b Hb)
        as (e & He).
      pose proof (add_relationship_edge_bad_source w d t kind None b Hb) as Hg.
      unfold bind at 1, on_builder in E. cbn [fst snd] in E.
      destruct (add_relationship_edge w d t kind None b) as [o' b'].
      cbn [fst snd] in *. subst o'. injection E as <- <-.
      cbn [fst snd]. rewrite Hg. auto.
    + unfold ret at 1 in E. apply (IH (b, res) K E).
Qed.

(** The edge pass for one type, under the conditions the node pass leaves. *)
Lemma add_doctype_relationships_step (w : World) (g1 : MultiDiGraph)
  (x : value) (s : Builder * SchemaResults) :
  source_safe w g1 (doctype_name x) ->
  map fst (graph (fst s)) = map fst g1 ->
  exists s1,
    try_except
      (let relationships := discover_doctype_relationships w (doctype_name x) in
       add_edges_to_known w (doctype_name x) "links_to"
         (links_to relationships) ;;;
       add_edges_to_known w (doctype_name x) "has_child_table"
         (child_tables relationships))%py
      (fun e => on_results
         (schema_append_error (ErrorAddingRelationships (doctype_name x) e)))
      s = (Ret tt, s1) /\
    map fst (graph (fst s1)) = map fst g1 /\
    doctypes_processed (snd s1) = doctypes_processed (snd s) /\
    schema_relationships_found (snd s1)
    = schema_relationships_found (snd s)
      + relationships_of w (has_node g1) (doctype_name x).
Proof.
  intros Hsafe K. destruct s as [b res]. cbv zeta. unfold relationships_of.
  set (d := doctype_name x) in *.
  set (rel := discover_doctype_relationships w d).
  destruct (has_node g1 d) eqn:Hd.
  - destruct (add_edges_to_known_present w g1 d "links_to" (links_to rel)
                (b, res) K Hd) as (s1 & R1 & K1 & P1 & F1).
    destruct (add_edges_to_known_present w g1 d "has_child_table"
                (child_tables rel) s1 K1 Hd) as (s2 & R2 & K2 & P2 & F2).
    exists s2. unfold try_except, bind. rewrite R1, R2. cbn [fst snd] in *.
    split; [reflexivity|]. split; [exact K2|]. split; [congruence|].
    rewrite F2, F1. lia.
  - assert (Hcases : endpoint_ok g1 d = false \/ discovers_nothing w d).
    { destruct Hsafe as [H|[H|[H|H]]].
      - congruence.
      - left. unfold endpoint_ok. rewrite H. reflexivity.
      - left. unfold endpoint_ok. rewrite H. cbn.
        rewrite has_node_mem in Hd. rewrite H in Hd. rewrite Hd. reflexivity.
      - right. exact H. }
    destruct Hcases as [Hbad|[Hl Hc]].
    + unfold try_except, bind.
      destruct (add_edges_to_known w d "links_to" (links_to rel) (b, res))
        as [[[]|e] s1] eqn:E1;
        destruct (add_edges_to_known_bad_source w g1 d "links_to"
                    (links_to rel) (b, res) _ s1 K Hbad E1) as (K1 & P1 & F1);
        cbn [fst snd] in *.
      * destruct (add_edges_to_known w d "has_child_table"
                    (child_tables rel) s1) as [[[]|e] s2] eqn:E2;
          destruct (add_edges_to_known_bad_source w g1 d "has_child_table"
                      (child_tables rel) s1 _ s2 K1 Hbad E2) as (K2 & P2 & F2);
          cbn [fst snd] in *;
          unfold on_results; cbn [fst snd schema_append_error
            doctypes_processed schema_relationships_found];
          eexists; (split; [reflexivity|]); cbn [fst snd schema_append_error
            doctypes_processed schema_relationships_found];
          repeat split; try congruence; lia.
      * unfold on_results. cbn [fst snd schema_append_error
          doctypes_processed schema_relationships_found].
        eexists; (split; [reflexivity|]); cbn [fst snd schema_append_error
            doctypes_processed schema_relationships_found].
        repeat split; try congruence; lia.
    + subst rel. rewrite Hl, Hc.
      exists (b, res). cbn. repeat split; auto.
Qed.

Lemma add_doctype_relationships_count (w : World) (g1 : MultiDiGraph)
  (doctypes : list value) (s : Builder * SchemaResults) :
  (forall x, In x doctypes -> source_safe w g1 (doctype_name x)) ->
  map fst (graph (fst s)) = map fst g1 ->
  exists s',
    add_doctype_relationships w doctypes s = (Ret tt, s') /\
    map fst (graph (fst s')) = map fst g1 /\
    doctypes_processed (snd s') = doctypes_processed (snd s) /\
    schema_relationships_found (snd s')
    = schema_relationships_found (snd s)
      + sum_list (map (fun x => relationships_of w (has_node g1) (doctype_name x))
                    doctypes).
Proof.
  revert s. induction doctypes as [|x r IH]; intros s Hsafe K.
  - exists s. cbn. repeat split; auto.
  - destruct (add_doctype_relationships_step w g1 x s
                (Hsafe x (or_introl eq_refl)) K) as (s1 & R1 & K1 & P1 & F1).
    destruct (IH s1 (fun y Hy => Hsafe y (or_intror Hy)) K1)
      as (s2 & R2 & K2 & P2 & F2).
    exists s2. unfold add_doctype_relationships. cbn [for_each].
    fold (add_doctype_relationships w r).
    unfold bind at 1. cbv zeta in R1. rewrite R1.
    split; [exact R2|]. split; [exact K2|]. split; [congruence|].
    cbn [map sum_list fold_right]. rewrite F2, F1.
    unfold sum_list. lia.
Qed.


(** The node pass, one type at a time. *)
Lemma accepts_like_keys (g0 g g' : MultiDiGraph) (d : value) :
  accepts_like g0 g ->
  endpoint_ok g d = true ->
  map fst g' = (if node_mem g d then map fst g else map fst g ++ [d]) ->
  accepts_like g0 g'.
Proof.
  intros A Hd K n. rewrite <- (A n).
  destruct (node_mem g d) eqn:Md; [now apply endpoint_ok_keys|].
  unfold endpoint_ok. rewrite !node_mem_of_keys, K, existsb_app.
  cbn [existsb]. rewrite orb_false_r.
  destruct (key_eqb d n) eqn:E; [|now rewrite orb_false_r].
  assert (Hn : key_eqb n VNone = false).
  { destruct n; try reflexivity.
    destruct d; try discriminate.
    unfold endpoint_ok in Hd. rewrite Md in Hd. discriminate. }
  rewrite Hn. cbn [negb]. now rewrite !orb_true_r.
Qed.

Lemma add_doctype_node_outcomes (w : World) (d : value) (b : Builder) :
  if addable w (graph b) d
  then exists b',
         add_doctype_node w d None b = (Ret tt, b') /\
         has_node (graph b') d = true /\
         map fst (graph b')
         = (if node_mem (graph b) d then map fst (graph b)
            else map fst (graph b) ++ [d])
  else exists e, add_doctype_node w d None b = (Raise e, b).
Proof.
  unfold addable.
  pose proof (add_doctype_node_cases w d None b) as C.
  unfold add_doctype_node, bind, lift_outcome, call_add_node in *.
  destruct (doctype_metadata w d None) as [md|e] eqn:D; [|eauto].
  rewrite (doctype_metadata_none_keys w d md D) in *.
  unfold on_graph in *.
  destruct (endpoint_ok (graph b) d) eqn:Ok.
  - destruct (nx_add_node_ok d md (graph b) Ok) as (g' & N & _ & K & G).
    rewrite N in *. eexists. split; [reflexivity|].
    cbn [graph with_graph]. split; [|exact K].
    rewrite has_node_mem, node_mem_get, G. reflexivity.
  - destruct (nx_add_node d md (graph b)) as [[[]|e] g'] eqn:N.
    + apply nx_add_node_ret_ok in N. congruence.
    + exists e. now rewrite C.
Qed.

Lemma add_doctype_nodes_run (w : World) (g0 : MultiDiGraph)
  (doctypes : list value) (s : Builder * SchemaResults) :
  accepts_like g0 (graph (fst s)) ->
  exists s',
    add_doctype_nodes w doctypes s = (Ret tt, s') /\
    accepts_like g0 (graph (fst s')) /\
    doctypes_processed (snd s')
    = doctypes_processed (snd s)
      + List.length (filter (fun x => addable w g0 (doctype_name x)) doctypes) /\
    schema_relationships_found (snd s') = schema_relationships_found (snd s) /\
    (forall n, node_mem (graph (fst s)) n = true ->
               node_mem (graph (fst s')) n = true) /\
    (forall x, In x doctypes -> addable w g0 (doctype_name x) = true ->
               has_node (graph (fst s')) (doctype_name x) = true) /\
    ((forall x, In x doctypes -> addable w g0 (doctype_name x) = true ->
                node_mem (graph (fst s)) (doctype_name x) = true) ->
     map fst (graph (fst s')) = map fst (graph (fst s))).
Proof.
  revert s. induction doctypes as [|x r IH]; intros [b res] A.
  - exists (b, res). cbn. repeat split; auto; try (intros x []).
  - cbn [fst snd] in *.
    assert (Ha : addable w (graph b) (doctype_name x)
                 = addable w g0 (doctype_name x)).
    { unfold addable. now rewrite (A (doctype_name x)). }
    pose proof (add_doctype_node_outcomes w (doctype_name x) b) as O.
    pose proof (add_doctype_node_safe w (doctype_name x) b) as [Mono _].
    rewrite Ha in O. unfold add_doctype_nodes. cbn [for_each].
    fold (add_doctype_nodes w r).
    unfold bind at 1, try_except, bind, on_builder, on_results.
    cbn [fst snd filter].
    destruct (addable w g0 (doctype_name x)) eqn:Ad.
    + destruct O as (b' & R & Hn & K). rewrite R in *. cbn [fst snd] in *.
      assert (Ok : endpoint_ok (graph b) (doctype_name x) = true).
      { unfold addable in Ha.
        destruct (doctype_metadata w (doctype_name x) None);
          [exact Ha|discriminate]. }
      destruct (IH (b', schema_count_doctype res)
                  (accepts_like_keys _ _ _ _ A Ok K))
        as (s' & R' & A' & P' & F' & M' & N' & K').
      exists s'. cbn [fst snd schema_count_doctype doctypes_processed
                      schema_relationships_found length] in *.
      split; [exact R'|]. split; [exact A'|]. split; [rewrite P'; lia|].
      split; [exact F'|]. split; [auto|]. split.
      * intros y [<-|Hy] Hy'; [|auto].
        rewrite has_node_mem in *. auto.
      * intros Hall.
        assert (Mx : node_mem (graph b) (doctype_name x) = true)
          by (apply (Hall x); [left; reflexivity|exact Ad]).
        rewrite Mx in K. rewrite <- K. apply K'.
        intros y Hy Hy'. unfold node_mem.
        rewrite (dict_mem_keys key_eqb _ _ _ K).
        apply (Hall y); [right; exact Hy|exact Hy'].
    + destruct O as (e & R). rewrite R in *. cbn [fst snd] in *.
      destruct (IH (b, schema_append_error
                         (ErrorAddingDocType (doctype_name x) e) res) A)
        as (s' & R' & A' & P' & F' & M' & N' & K').
      exists s'. cbn [fst snd schema_append_error doctypes_processed
                      schema_relationships_found] in *.
      split; [exact R'|]. split; [exact A'|]. split; [rewrite P'; lia|].
      split; [exact F'|]. split; [auto|]. split.
      * intros y [<-|Hy] Hy'; [congruence|auto].
      * intros Hall. apply K'. intros y Hy Hy'.
        apply (Hall y); [right; exact Hy|exact Hy'].
Qed.

Lemma relationships_of_ext (w : World) (has has' : value -> bool) (d : value) :
  (forall n, has n = has' n) ->
  relationships_of w has d = relationships_of w has' d.
Proof.
  intros H. unfold relationships_of.
  now rewrite H, !(filter_ext _ _ H).
Qed.

(** A build that reaches its two passes, in terms of the graph [gA] between
    them. *)
Lemma schema_build_run (w : World) (b : Builder) :
  test_connection (erpnext w) = true ->
  get_doctypes (erpnext w) <> [] ->
  exists res b' gA,
    build_doctype_schema_graph w b = (Ret res, b') /\
    map fst (graph b') = map fst gA /\
    accepts_like (graph b) gA /\
    (forall x, In x (get_doctypes (erpnext w)) ->
               addable w (graph b) (doctype_name x) = true ->
               has_node gA (doctype_name x) = true) /\
    ((forall x, In x (get_doctypes (erpnext w)) ->
                addable w (graph b) (doctype_name x) = true ->
                node_mem (graph b) (doctype_name x) = true) ->
     map fst gA = map fst (graph b)) /\
    doctypes_processed res
    = List.length (filter (fun x => addable w (graph b) (doctype_name x))
                     (get_doctypes (erpnext w))) /\
    schema_relationships_found res
    = sum_list (map (fun x => relationships_of w (has_node gA) (doctype_name x))
                  (get_doctypes (erpnext w))).
Proof.
  intros Hc Hne.
  pose proof (build_doctype_schema_graph_passes w b Hc Hne) as R.
  cbv zeta in R.
  destruct (add_doctype_nodes_spec w (get_doctypes (erpnext w))
              (b, new_schema_results)) as (_ & _ & Hsafe).
  destruct (add_doctype_nodes_run w (graph b) (get_doctypes (erpnext w))
              (b, new_schema_results) (fun n => eq_refl))
    as (s1 & R1 & A1 & P1 & F1 & _ & N1 & K1).
  rewrite R1 in R, Hsafe. cbn [fst snd] in *.
  destruct (add_doctype_relationships_count w (graph (fst s1))
              (get_doctypes (erpnext w)) s1 Hsafe eq_refl)
    as (s2 & R2 & K2 & P2 & F2).
  rewrite R2 in R. cbn [fst snd] in R.
  exists (snd s2), (fst s2), (graph (fst s1)).
  split; [exact R|]. split; [exact K2|]. split; [exact A1|].
  split; [exact N1|]. split; [exact K1|].
  split; [rewrite P2, P1; reflexivity|].
  rewrite F2, F1. reflexivity.
Qed.

(** X27: building the type-level graph a second time against the same
    server adds no node, reports the same number of processed types and of
    relationships as the first build, and adds every edge of the first
    build once more: nothing in the build looks for an edge that is
    already there. *)
Theorem build_doctype_schema_graph_again (w : World) (b : Builder) :
  exists r1 b1 r2 b2,
    build_doctype_schema_graph w b = (Ret r1, b1) /\
    build_doctype_schema_graph w b1 = (Ret r2, b2) /\
    map fst (graph b2) = map fst (graph b1) /\
    doctypes_processed r2 = doctypes_processed r1 /\
    schema_relationships_found r2 = schema_relationships_found r1 /\
    number_of_edges (graph b2)
    = number_of_edges (graph b) + 2 * schema_relationships_found r1.
Proof.
  destruct (schema_build_books w b) as (r1 & b1 & R1 & E1 & _).
  destruct (schema_build_books w b1) as (r2 & b2 & R2 & E2 & _).
  exists r1, b1, r2, b2. split; [exact R1|]. split; [exact R2|].
  assert (H : map fst (graph b2) = map fst (graph b1) /\
              doctypes_processed r2 = doctypes_processed r1 /\
              schema_relationships_found r2 = schema_relationships_found r1).
  { destruct (test_connection (erpnext w)) eqn:Hc;
      [destruct (get_doctypes (erpnext w)) as [|d0 ds] eqn:Hd|].
    - rewrite (build_doctype_schema_graph_no_doctypes w b Hc Hd) in R1.
      rewrite (build_doctype_schema_graph_no_doctypes w b1 Hc Hd) in R2.
      injection R1 as <- <-. injection R2 as <- <-. auto.
    - assert (Hne : get_doctypes (erpnext w) <> [])
        by (rewrite Hd; discriminate).
      destruct (schema_build_run w b Hc Hne)
        as (r1' & b1' & gA & R1' & K1 & A1 & N1 & _ & P1 & F1).
      rewrite R1 in R1'. injection R1' as <- <-.
      destruct (schema_build_run w b1 Hc Hne)
        as (r2' & b2' & gB & R2' & K2 & _ & _ & Same & P2 & F2).
      rewrite R2 in R2'. injection R2' as <- <-.
      assert (Ha : forall d, addable w (graph b1) d = addable w (graph b) d).
      { intros d. unfold addable.
        now rewrite (endpoint_ok_keys _ _ d K1), (A1 d). }
      assert (KB : map fst gB = map fst (graph b1)).
      { apply Same. intros x Hx Hx'. rewrite Ha in Hx'.
        rewrite <- has_node_mem, (has_node_keys _ _ _ K1). auto. }
      split; [congruence|]. split.
      + rewrite P2, P1. f_equal. apply filter_ext. intros x. apply Ha.
      + rewrite F2, F1. f_equal. apply map_ext. intros x.
        apply relationships_of_ext. intros n.
        apply has_node_keys. congruence.
    - rewrite (build_doctype_schema_graph_not_connected w b Hc) in R1.
      rewrite (build_doctype_schema_graph_not_connected w b1 Hc) in R2.
      injection R1 as <- <-. injection R2 as <- <-. auto. }
  destruct H as (H1 & H2 & H3). repeat split; auto. lia.
Qed.

Example second_build_repeats_edge :
  let run := build_doctype_schema_graph selling_world in
  let b1 := snd (run (init_builder "out")) in
  let b2 := snd (run b1) in
  number_of_nodes (graph b1) = 2 /\ number_of_edges (graph b1) = 1 /\
  number_of_nodes (graph b2) = 2 /\ number_of_edges (graph b2) = 2.
Proof. vm_compute. auto. Qed.

(** ** The start-up step *)


